(** * Q_for_simple, live trading core: a shallow embedding

    The development follows the Python sources under [live_trading/]:
    - [risk_management/position_manager.py]  (module [PM])
    - [risk_management/risk_manager.py]      (module [RM])
    - [execution/order_executor.py]          (module [OE])
    - [execution/exchange_connector.py]      (module [MX], the mock venue)
    - [config/config_loader.py]              (module [CL])

    Conventions.
    - A Python [float] is an exact rational ([Q]); rounding, infinities and
      NaN are outside the model.  A float division by zero raises
      [ZeroDivisionError], as in Python.  Module [F64] repeats the three
      numeric methods on binary64 floats, to run the worked examples of the
      specification with the rounding of the interpreter.
    - A Python object that is mutated through several references (an [Order]
      held by the pending map and by the completed list) lives in a heap
      indexed by locations; containers store locations.
    - [datetime.now()] is a parameter [now] of the operation that reads it.
    - Logging has no effect on the state and is left out.
    - A method that can raise returns the state reached when the exception
      leaves it together with [Raise e]; mutations made before the raise
      stay visible, as in Python. *)

From Stdlib Require Import QArith Qminmax Qabs Lqa Ascii PrimFloat.
From stdpp Require Import gmap strings list fin_maps pretty.

(** ** Python values shared by the components *)

Inductive exn :=
  | ZeroDivisionError
  | ValueError (msg : string)
  | TypeError
  | AttributeError
  | KeyError.

Inductive result (A : Type) :=
  | Ok (a : A)
  | Raise (e : exn).
Arguments Ok {A} a.
Arguments Raise {A} e.

(** Sequencing of calls that may raise: the first exception wins. *)
Global Instance result_ret : MRet result := fun _ a => Ok a.
Global Instance result_bind : MBind result := fun _ _ k r =>
  match r with
  | Ok a => k a
  | Raise e => Raise e
  end.

Definition Time := Q.

(** [a < b] and [a <= b] on floats, as booleans. *)
Definition Qltb (a b : Q) : bool := negb (Qle_bool b a).
Definition Qleb (a b : Q) : bool := Qle_bool a b.

(** [a / b] on floats. *)
Definition py_div (a b : Q) : result Q :=
  if Qeq_bool b 0 then Raise ZeroDivisionError else Ok (a / b)%Q.

(** [shared.models.trade_models] is imported by every component; the enums
    and dataclasses below carry the members and fields the sources use. *)

Inductive PositionSide := LONG | SHORT.
Inductive OrderSide := BUY | SELL.
Inductive OrderType := MARKET | LIMIT.
Inductive OrderStatus := CREATED | PENDING | FILLED | FAILED | CANCELLED.

Global Instance PositionSide_eq_dec : EqDecision PositionSide.
Proof. solve_decision. Defined.
Global Instance OrderSide_eq_dec : EqDecision OrderSide.
Proof. solve_decision. Defined.
Global Instance OrderType_eq_dec : EqDecision OrderType.
Proof. solve_decision. Defined.
Global Instance OrderStatus_eq_dec : EqDecision OrderStatus.
Proof. solve_decision. Defined.

(** The terminal states of the order life cycle. *)
Definition terminal (s : OrderStatus) : bool :=
  match s with
  | FILLED | FAILED | CANCELLED => true
  | CREATED | PENDING => false
  end.

Record Position := mkPosition {
  symbol : string;
  side : PositionSide;
  size : Q;
  entry_price : Q;
  current_price : Q;
  unrealized_pnl : Q;
  realized_pnl : Q;
  margin : Q;
  percentage : Q;
  timestamp : Time;
  order_id : option string
}.

Record Signal := mkSignal {
  sig_symbol : string;
  action : string;
  strength : Q;
  sig_price : Q;
  sig_timestamp : Time;
  reason : string
}.

Record AccountInfo := mkAccountInfo {
  total_wallet_balance : Q;
  total_unrealized_pnl : Q;
  total_margin_balance : Q;
  total_position_initial_margin : Q;
  total_open_order_initial_margin : Q;
  available_balance : Q;
  max_withdraw_amount : Q;
  acc_timestamp : Time
}.

(** ** PositionManager *)

Module PM.
Local Open Scope Q_scope.

Record PositionManager := mkPM {
  positions : gmap string Position;
  position_history : list Position;
  max_positions : Z;
  position_timeout : Q
}.

(** [__init__] with the defaults of [config.get]. *)
Definition default_position_manager : PositionManager := mkPM ∅ [] 5 3600.

Definition set_positions (m : gmap string Position) (pm : PositionManager) :=
  mkPM m (position_history pm) (max_positions pm) (position_timeout pm).

Definition set_history (h : list Position) (pm : PositionManager) :=
  mkPM (positions pm) h (max_positions pm) (position_timeout pm).

(** [symbol in self.positions and self.positions[symbol].size > 0] *)
Definition has_position (pm : PositionManager) (sym : string) : bool :=
  match positions pm !! sym with
  | Some p => Qltb 0 (size p)
  | None => false
  end.

Definition get_position (pm : PositionManager) (sym : string) : option Position :=
  positions pm !! sym.

(** The values of the table, in the iteration order of the dict. *)
Definition values (pm : PositionManager) : list Position :=
  (map_to_list (positions pm)).*2.

Definition get_all_positions (pm : PositionManager) : list Position :=
  List.filter (fun p => Qltb 0 (size p)) (values pm).

Definition can_open_new_position (pm : PositionManager) : bool :=
  (Z.of_nat (length (get_all_positions pm)) <? max_positions pm)%Z.

(** [sum(...)]: from 0, left to right. *)
Definition Qsum (l : list Q) : Q := fold_left Qplus l 0.

Definition get_total_unrealized_pnl (pm : PositionManager) : Q :=
  Qsum (unrealized_pnl <$> get_all_positions pm).

Definition get_total_realized_pnl (pm : PositionManager) : Q :=
  Qsum (realized_pnl <$> values pm) + Qsum (realized_pnl <$> position_history pm).

(** [_add_to_position]: the caller has checked that the symbol is present;
    a missing key raises [KeyError]. *)
Definition _add_to_position (pm : PositionManager) (sym : string)
    (additional_size price : Q) (oid : option string) (now : Time)
  : PositionManager * result Position :=
  match positions pm !! sym with
  | None => (pm, Raise KeyError)
  | Some position =>
    let total_cost := size position * entry_price position + additional_size * price in
    let new_size := size position + additional_size in
    match py_div total_cost new_size with
    | Raise e => (pm, Raise e)
    | Ok new_entry_price =>
      let position' :=
        mkPosition (symbol position) (side position) new_size new_entry_price
          (current_price position) (unrealized_pnl position) (realized_pnl position)
          (margin position + additional_size) (percentage position) now
          (order_id position) in
      (set_positions (<[sym := position']> (positions pm)) pm, Ok position')
    end
  end.

(** [close_position]: [close_price = None] is the default argument. *)
Definition close_position (pm : PositionManager) (sym : string)
    (close_price : option Q) (now : Time)
  : PositionManager * result (option Position) :=
  if negb (has_position pm sym) then (pm, Ok None)
  else
    match positions pm !! sym with
    | None => (pm, Raise KeyError)
    | Some position =>
      let close_price := default (current_price position) close_price in
      let pnl :=
        match side position with
        | LONG => (close_price - entry_price position) * size position
        | SHORT => (entry_price position - close_price) * size position
        end in
      (* position.realized_pnl = realized_pnl; position.unrealized_pnl = 0.0 *)
      let position1 :=
        mkPosition (symbol position) (side position) (size position)
          (entry_price position) (current_price position) 0 pnl
          (margin position) (percentage position) (timestamp position)
          (order_id position) in
      let pm1 := set_positions (<[sym := position1]> (positions pm)) pm in
      match py_div pnl (entry_price position * size position) with
      | Raise e => (pm1, Raise e)
      | Ok ratio =>
        let closed_position :=
          mkPosition (symbol position) (side position) (size position)
            (entry_price position) close_price 0 pnl (margin position)
            (ratio * 100) now (order_id position) in
        (* position.size = 0.0; del self.positions[symbol] *)
        (mkPM (delete sym (positions pm)) (position_history pm ++ [closed_position])
              (max_positions pm) (position_timeout pm),
         Ok (Some closed_position))
      end
    end.

Definition reduce_position (pm : PositionManager) (sym : string)
    (reduce_size price : Q) (now : Time)
  : PositionManager * result (option Position) :=
  if negb (has_position pm sym) then (pm, Ok None)
  else
    match positions pm !! sym with
    | None => (pm, Raise KeyError)
    | Some position =>
      if Qleb (size position) reduce_size then
        close_position pm sym (Some price) now
      else
        let partial_pnl :=
          match side position with
          | LONG => (price - entry_price position) * reduce_size
          | SHORT => (entry_price position - price) * reduce_size
          end in
        let position' :=
          mkPosition (symbol position) (side position) (size position - reduce_size)
            (entry_price position) (current_price position) (unrealized_pnl position)
            (realized_pnl position + partial_pnl) (margin position - reduce_size)
            (percentage position) now (order_id position) in
        (set_positions (<[sym := position']> (positions pm)) pm, Ok (Some position'))
    end.

(** [open_position]: the new record and the nested close read the same [now]. *)
Definition open_position (pm : PositionManager) (sym : string) (sd : PositionSide)
    (sz price : Q) (oid : option string) (now : Time)
  : PositionManager * result Position :=
  let create (pm0 : PositionManager) :=
    let position := mkPosition sym sd sz price price 0 0 sz 0 now oid in
    (set_positions (<[sym := position]> (positions pm0)) pm0, Ok position) in
  if has_position pm sym then
    match positions pm !! sym with
    | None => (pm, Raise KeyError)
    | Some existing_position =>
      if decide (side existing_position = sd) then
        _add_to_position pm sym sz price oid now
      else
        match close_position pm sym None now with
        | (pm1, Raise e) => (pm1, Raise e)
        | (pm1, Ok _) => create pm1
        end
    end
  else create pm.

Definition update_position_price (pm : PositionManager) (sym : string)
    (price : Q) : PositionManager :=
  if negb (has_position pm sym) then pm
  else
    match positions pm !! sym with
    | None => pm
    | Some position =>
      let upnl :=
        match side position with
        | LONG => (price - entry_price position) * size position
        | SHORT => (entry_price position - price) * size position
        end in
      let pct :=
        if Qltb 0 (entry_price position) then
          match side position with
          | LONG => ((price - entry_price position) / entry_price position) * 100
          | SHORT => ((entry_price position - price) / entry_price position) * 100
          end
        else percentage position in
      let position' :=
        mkPosition (symbol position) (side position) (size position)
          (entry_price position) price upnl (realized_pnl position)
          (margin position) pct (timestamp position) (order_id position) in
      set_positions (<[sym := position']> (positions pm)) pm
    end.

End PM.

(** ** RiskManager *)

Module RM.
Local Open Scope Q_scope.

(** A trade record handed to [record_trade]: the entry ['pnl'] when the dict
    has one, and the time stamp the method writes into it. *)
Record TradeInfo := mkTradeInfo {
  trade_symbol : string;
  trade_pnl : option Q;
  trade_timestamp : Time
}.

Record RiskManager := mkRM {
  (* risk parameters, from the configuration *)
  max_position_percentage : Q;
  max_daily_loss_percentage : Q;
  max_drawdown_percentage : Q;
  stop_loss_percentage : Q;
  take_profit_percentage : Q;
  min_position_size : Q;
  max_leverage : Q;
  (* risk state *)
  daily_start_balance : Q;
  peak_balance : Q;
  current_balance : Q;
  daily_pnl : Q;
  total_pnl : Q;
  current_drawdown : Q;
  max_drawdown : Q;
  (* trade statistics *)
  trades_today : Z;
  max_trades_per_day : Z;
  trade_history : list TradeInfo;
  (* switches *)
  trading_enabled : bool;
  risk_alerts : list string
}.

(** [__init__] with the defaults of [config.get]. *)
Definition default_risk_manager : RiskManager :=
  mkRM (95 # 100) (5 # 100) (10 # 100) (2 # 100) (6 # 100) 10 20
       0 0 0 0 0 0 0
       0 50 []
       true [].

Definition alert_drawdown : string := "drawdown".
Definition alert_daily_loss : string := "daily_loss".
Definition alert_trades : string := "trades".

(** [_check_risk_limits]: only the alert list changes; an alert is
    represented by its kind, without the formatted figures. *)
Definition _check_risk_limits (rm : RiskManager) : RiskManager :=
  let a1 :=
    if Qltb (max_drawdown_percentage rm * (8 # 10)) (current_drawdown rm)
    then [alert_drawdown] else [] in
  let a2 :=
    if Qltb 0 (daily_start_balance rm) then
      if Qltb (daily_pnl rm) 0 &&
         Qltb (max_daily_loss_percentage rm * (8 # 10))
              (Qabs (daily_pnl rm) / daily_start_balance rm)
      then [alert_daily_loss] else []
    else [] in
  let a3 :=
    if Qltb (inject_Z (max_trades_per_day rm) * (8 # 10)) (inject_Z (trades_today rm))
    then [alert_trades] else [] in
  mkRM (max_position_percentage rm) (max_daily_loss_percentage rm)
       (max_drawdown_percentage rm) (stop_loss_percentage rm)
       (take_profit_percentage rm) (min_position_size rm) (max_leverage rm)
       (daily_start_balance rm) (peak_balance rm) (current_balance rm)
       (daily_pnl rm) (total_pnl rm) (current_drawdown rm) (max_drawdown rm)
       (trades_today rm) (max_trades_per_day rm) (trade_history rm)
       (trading_enabled rm) (a1 ++ a2 ++ a3).

Definition update_account_info (rm : RiskManager) (account_info : AccountInfo)
  : RiskManager :=
  let bal := total_wallet_balance account_info in
  let peak := if Qltb (peak_balance rm) bal then bal else peak_balance rm in
  let dd := if Qltb 0 peak then (peak - bal) / peak else current_drawdown rm in
  let mdd := if Qltb 0 peak then Qmax (max_drawdown rm) dd else max_drawdown rm in
  _check_risk_limits
    (mkRM (max_position_percentage rm) (max_daily_loss_percentage rm)
       (max_drawdown_percentage rm) (stop_loss_percentage rm)
       (take_profit_percentage rm) (min_position_size rm) (max_leverage rm)
       (daily_start_balance rm) peak bal
       (daily_pnl rm) (total_pnl rm) dd mdd
       (trades_today rm) (max_trades_per_day rm) (trade_history rm)
       (trading_enabled rm) (risk_alerts rm)).

Definition validate_signal (rm : RiskManager) (signal : Signal)
    (account_info : AccountInfo) (current_position : option Position) : bool :=
  if negb (trading_enabled rm) then false
  else if (max_trades_per_day rm <=? trades_today rm)%Z then false
  else if Qltb (max_drawdown_percentage rm) (current_drawdown rm) then false
  else
    let daily_loss_percentage :=
      if Qltb 0 (daily_start_balance rm)
      then Qabs (daily_pnl rm) / daily_start_balance rm else 0 in
    if Qltb (daily_pnl rm) 0 &&
       Qltb (max_daily_loss_percentage rm) daily_loss_percentage
    then false
    else true.

Definition calculate_position_size (rm : RiskManager) (signal : Signal)
    (account_info : AccountInfo) : Q :=
  let available_balance := available_balance account_info in
  let base_position_size := available_balance * max_position_percentage rm in
  let adjusted_size := base_position_size * strength signal in
  let adjusted_size := Qmax adjusted_size (min_position_size rm) in
  let adjusted_size := Qmin adjusted_size (available_balance * (95 # 100)) in
  let max_position_with_leverage := available_balance * max_leverage rm in
  Qmin adjusted_size max_position_with_leverage.



Definition should_force_close_position (rm : RiskManager) (position : Position)
    (price : Q) : result bool :=
  let pnl :=
    match side position with
    | LONG => py_div (price - entry_price position) (entry_price position)
    | SHORT => py_div (entry_price position - price) (entry_price position)
    end in
  match pnl with
  | Raise e => Raise e
  | Ok pnl_percentage =>
    if Qleb pnl_percentage (- stop_loss_percentage rm) then Ok true
    else if Qleb (take_profit_percentage rm) pnl_percentage then Ok true
    else Ok false
  end.

Definition record_trade (rm : RiskManager) (trade_info : TradeInfo) (now : Time)
  : RiskManager :=
  let stamped := mkTradeInfo (trade_symbol trade_info) (trade_pnl trade_info) now in
  mkRM (max_position_percentage rm) (max_daily_loss_percentage rm)
       (max_drawdown_percentage rm) (stop_loss_percentage rm)
       (take_profit_percentage rm) (min_position_size rm) (max_leverage rm)
       (daily_start_balance rm) (peak_balance rm) (current_balance rm)
       (match trade_pnl trade_info with Some v => daily_pnl rm + v | None => daily_pnl rm end)
       (match trade_pnl trade_info with Some v => total_pnl rm + v | None => total_pnl rm end)
       (current_drawdown rm) (max_drawdown rm)
       (trades_today rm + 1)%Z (max_trades_per_day rm)
       (trade_history rm ++ [stamped])
       (trading_enabled rm) (risk_alerts rm).

Definition reset_daily_stats (rm : RiskManager) : RiskManager :=
  mkRM (max_position_percentage rm) (max_daily_loss_percentage rm)
       (max_drawdown_percentage rm) (stop_loss_percentage rm)
       (take_profit_percentage rm) (min_position_size rm) (max_leverage rm)
       (current_balance rm) (peak_balance rm) (current_balance rm)
       0 (total_pnl rm) (current_drawdown rm) (max_drawdown rm)
       0%Z (max_trades_per_day rm) (trade_history rm)
       (trading_enabled rm) [].

Definition set_trading_enabled (b : bool) (rm : RiskManager) : RiskManager :=
  mkRM (max_position_percentage rm) (max_daily_loss_percentage rm)
       (max_drawdown_percentage rm) (stop_loss_percentage rm)
       (take_profit_percentage rm) (min_position_size rm) (max_leverage rm)
       (daily_start_balance rm) (peak_balance rm) (current_balance rm)
       (daily_pnl rm) (total_pnl rm) (current_drawdown rm) (max_drawdown rm)
       (trades_today rm) (max_trades_per_day rm) (trade_history rm)
       b (risk_alerts rm).

Definition enable_trading (rm : RiskManager) : RiskManager :=
  set_trading_enabled true rm.

Definition disable_trading (rm : RiskManager) : RiskManager :=
  set_trading_enabled false rm.

(** The methods that change a manager without a fresh account reading. *)
Inductive op :=
  | OpResetDailyStats
  | OpEnableTrading
  | OpDisableTrading
  | OpRecordTrade (t : TradeInfo) (now : Time).

Definition run_op (rm : RiskManager) (o : op) : RiskManager :=
  match o with
  | OpResetDailyStats => reset_daily_stats rm
  | OpEnableTrading => enable_trading rm
  | OpDisableTrading => disable_trading rm
  | OpRecordTrade t now => record_trade rm t now
  end.

Definition run_ops (rm : RiskManager) (os : list op) : RiskManager :=
  fold_left run_op os rm.

End RM.

(** ** Orders and the heap that holds them *)

Module Ord.

Record Order := mkOrder {
  order_id : string;
  symbol : string;
  side : OrderSide;
  type : OrderType;
  quantity : Q;
  price : Q;
  status : OrderStatus;
  timestamp : Time;
  filled_price : Q;
  filled_quantity : Q;
  commission : Q;
  filled_time : option Time
}.

(** [order.status = s] *)
Definition set_status (s : OrderStatus) (o : Order) : Order :=
  mkOrder (order_id o) (symbol o) (side o) (type o) (quantity o) (price o) s
          (timestamp o) (filled_price o) (filled_quantity o) (commission o)
          (filled_time o).

(** The four assignments that record a fill on the order. *)
Definition set_fill (fp fq c : Q) (t : Time) (o : Order) : Order :=
  mkOrder (order_id o) (symbol o) (side o) (type o) (quantity o) (price o)
          (status o) (timestamp o) fp fq c (Some t).

End Ord.

Definition loc := nat.
Abbreviation Heap := (gmap loc Ord.Order).

(** The ids of the orders a list of references points to. *)
Definition ids_of (h : Heap) (ls : list loc) : list string :=
  omap (fun l => Ord.order_id <$> h !! l) ls.

Definition status_at (h : Heap) (l : loc) : option OrderStatus :=
  Ord.status <$> h !! l.

(** ** OrderExecutor *)

Module OE.
Local Open Scope Q_scope.

Record ExecutionResult := mkResult {
  success : bool;
  order_id : string;
  filled_price : Q;
  filled_quantity : Q;
  commission : Q;
  error_message : string;
  timestamp : Time
}.

Record OrderExecutor := mkOE {
  max_retry_count : Z;
  retry_delay : Q;
  order_timeout : Q;
  slippage_tolerance : Q;
  pending_orders : gmap string loc;
  completed_orders : list loc;
  failed_orders : list loc;
  simulation_mode : bool;
  simulation_latency : Q;
  simulation_slippage : Q
}.

(** [__init__] with the defaults of [config.get]. *)
Definition default_executor : OrderExecutor :=
  mkOE 3 1 30 (1 # 1000) ∅ [] [] true (1 # 10) (5 # 10000).

Definition set_pending (m : gmap string loc) (e : OrderExecutor) : OrderExecutor :=
  mkOE (max_retry_count e) (retry_delay e) (order_timeout e) (slippage_tolerance e)
       m (completed_orders e) (failed_orders e)
       (simulation_mode e) (simulation_latency e) (simulation_slippage e).

Definition set_completed (c : list loc) (e : OrderExecutor) : OrderExecutor :=
  mkOE (max_retry_count e) (retry_delay e) (order_timeout e) (slippage_tolerance e)
       (pending_orders e) c (failed_orders e)
       (simulation_mode e) (simulation_latency e) (simulation_slippage e).

Definition set_failed (f : list loc) (e : OrderExecutor) : OrderExecutor :=
  mkOE (max_retry_count e) (retry_delay e) (order_timeout e) (slippage_tolerance e)
       (pending_orders e) (completed_orders e) f
       (simulation_mode e) (simulation_latency e) (simulation_slippage e).

Section Executor.

(** What the callbacks act on besides the executor (in [main.py], the
    position manager of the trading system). *)
Context {W : Type}.

Record State := mkState {
  heap : Heap;
  ex : OrderExecutor;
  world : W
}.

Definition set_heap (h : Heap) (st : State) : State := mkState h (ex st) (world st).
Definition set_ex (e : OrderExecutor) (st : State) : State := mkState (heap st) e (world st).

(** A callback receives the order and the result and may do anything to the
    state; an exception it raises is swallowed by [_safe_callback], so a
    callback is a total state transformer. *)
Definition Callback := State -> loc -> ExecutionResult -> State.

(** The two slots filled by [set_callbacks]. *)
Record Callbacks := mkCallbacks {
  order_filled_callback : option Callback;
  order_failed_callback : option Callback
}.

Definition _safe_callback (cb : Callback) (st : State) (l : loc) (r : ExecutionResult)
  : State := cb st l r.

(** [_execute_order_simulation], after the latency sleep: [u] is the value
    drawn by [random.random()]. *)
Definition _execute_order_simulation (e : OrderExecutor) (o : Ord.Order)
    (u : Q) (now : Time) : ExecutionResult :=
  let fp :=
    match Ord.side o with
    | BUY => Ord.price o * (1 + simulation_slippage e)
    | SELL => Ord.price o * (1 - simulation_slippage e)
    end in
  let c := Ord.quantity o * fp * (1 # 1000) in
  if Qltb u (95 # 100) then
    mkResult true (Ord.order_id o) fp (Ord.quantity o) c "" now
  else
    mkResult false (Ord.order_id o) 0 0 0 "模拟执行失败" now.

(** [_execute_order_real]: the first pass through the retry loop returns the
    simulated result; with no pass at all the method falls off its end and
    returns [None]. *)
Definition _execute_order_real (e : OrderExecutor) (o : Ord.Order)
    (u : Q) (now : Time) : option ExecutionResult :=
  if (0 <? max_retry_count e)%Z then Some (_execute_order_simulation e o u now)
  else None.

(** Lines 108-109: the order enters the pending map and becomes PENDING. *)
Definition register (st : State) (l : loc) : State :=
  match heap st !! l with
  | None => st
  | Some o =>
    mkState (<[l := Ord.set_status PENDING o]> (heap st))
            (set_pending (<[Ord.order_id o := l]> (pending_orders (ex st))) (ex st))
            (world st)
  end.

(** Lines 113-116: the awaited execution; [result.success] on [None] raises
    inside the [try] block. *)
Definition dispatch (st : State) (l : loc) (u : Q) (now : Time)
  : result ExecutionResult :=
  match heap st !! l with
  | None => Raise AttributeError
  | Some o =>
    if simulation_mode (ex st) then Ok (_execute_order_simulation (ex st) o u now)
    else
      match _execute_order_real (ex st) o u now with
      | Some r => Ok r
      | None => Raise AttributeError
      end
  end.

(** Lines 119-126 and 134-135: the status is written and the order is
    appended to its list; the except branch (lines 151-152) does the same as
    the failure branch, without a callback. *)
Definition settle (st : State) (l : loc) (out : result ExecutionResult) : State :=
  match heap st !! l with
  | None => st
  | Some o =>
    match out with
    | Ok r =>
      if success r then
        let o' := Ord.set_fill (filled_price r) (filled_quantity r) (commission r)
                    (timestamp r) (Ord.set_status FILLED o) in
        mkState (<[l := o']> (heap st))
                (set_completed (completed_orders (ex st) ++ [l]) (ex st))
                (world st)
      else
        mkState (<[l := Ord.set_status FAILED o]> (heap st))
                (set_failed (failed_orders (ex st) ++ [l]) (ex st))
                (world st)
    | Raise _ =>
      mkState (<[l := Ord.set_status FAILED o]> (heap st))
              (set_failed (failed_orders (ex st) ++ [l]) (ex st))
              (world st)
    end
  end.

(** Lines 129-130 and 138-139: the callback of the branch taken, if set. *)
Definition notify (cbs : Callbacks) (st : State) (l : loc)
    (out : result ExecutionResult) : State :=
  match out with
  | Ok r =>
    match (if success r then order_filled_callback cbs else order_failed_callback cbs) with
    | Some cb => _safe_callback cb st l r
    | None => st
    end
  | Raise _ => st
  end.

(** Lines 144-145 and 154-155: [del self.pending_orders[order.order_id]]. *)
Definition retire (st : State) (l : loc) : State :=
  match heap st !! l with
  | None => st
  | Some o => set_ex (set_pending (delete (Ord.order_id o) (pending_orders (ex st))) (ex st)) st
  end.

(** The value [execute_order] returns. *)
Definition returned (h : Heap) (l : loc) (out : result ExecutionResult) (now : Time)
  : ExecutionResult :=
  match out with
  | Ok r => r
  | Raise _ =>
    mkResult false (default "" (Ord.order_id <$> h !! l)) 0 0 0
             "'NoneType' object has no attribute 'success'" now
  end.

(** [execute_order] from the point where the awaited execution resumes. *)
Definition resume (cbs : Callbacks) (st : State) (l : loc) (u : Q) (now : Time)
  : State * ExecutionResult :=
  let out := dispatch st l u now in
  let st1 := settle st l out in
  let st2 := notify cbs st1 l out in
  (retire st2 l, returned (heap st2) l out now).

Definition execute_order (cbs : Callbacks) (st : State) (l : loc) (u : Q) (now : Time)
  : State * ExecutionResult :=
  resume cbs (register st l) l u now.

(** The states [execute_order] goes through: after the registration, when
    the callback is entered (the order has been settled), when the callback
    has returned, and on return. *)
Record Points := mkPoints {
  registered : State;
  at_callback : State;
  after_callback : State;
  on_return : State
}.

Definition execute_order_points (cbs : Callbacks) (st : State) (l : loc)
    (u : Q) (now : Time) : Points :=
  let st0 := register st l in
  let out := dispatch st0 l u now in
  let st1 := settle st0 l out in
  let st2 := notify cbs st1 l out in
  mkPoints st0 st1 st2 (retire st2 l).

(** [cancel_order] *)
Definition cancel_order (st : State) (id : string) : State * bool :=
  match pending_orders (ex st) !! id with
  | None => (st, false)
  | Some l =>
    if simulation_mode (ex st) then
      (mkState (alter (Ord.set_status CANCELLED) l (heap st))
               (set_pending (delete id (pending_orders (ex st))) (ex st))
               (world st),
       true)
    else (st, false)
  end.

(** [get_order_status] *)
Definition get_order_status (st : State) (id : string) : option OrderStatus :=
  match pending_orders (ex st) !! id with
  | Some l => status_at (heap st) l
  | None =>
    let hit (l : loc) :=
      match heap st !! l with
      | Some o => bool_decide (Ord.order_id o = id)
      | None => false
      end in
    match List.find hit (completed_orders (ex st)) with
    | Some l => status_at (heap st) l
    | None =>
      match List.find hit (failed_orders (ex st)) with
      | Some l => status_at (heap st) l
      | None => None
      end
    end
  end.

(** Where an order id is filed. *)
Definition in_pending (st : State) (id : string) : bool :=
  bool_decide (is_Some (pending_orders (ex st) !! id)).
Definition in_completed (st : State) (id : string) : bool :=
  bool_decide (id ∈ ids_of (heap st) (completed_orders (ex st))).
Definition in_failed (st : State) (id : string) : bool :=
  bool_decide (id ∈ ids_of (heap st) (failed_orders (ex st))).

(** In how many of the three containers the id appears. *)
Definition places (st : State) (id : string) : nat :=
  (if in_pending st id then 1 else 0) +
  (if in_completed st id then 1 else 0) +
  (if in_failed st id then 1 else 0).

Definition at_most_one_place (st : State) (id : string) : Prop :=
  (places st id <= 1)%nat.

(** A callback that leaves the executor and the orders alone. *)
Definition quiet (cb : Callback) : Prop :=
  forall st l r, heap (cb st l r) = heap st /\ ex (cb st l r) = ex st.

Definition quiet_callbacks (cbs : Callbacks) : Prop :=
  (forall cb, order_filled_callback cbs = Some cb -> quiet cb) /\
  (forall cb, order_failed_callback cbs = Some cb -> quiet cb).

End Executor.

Arguments State W : clear implicits.
Arguments Callback W : clear implicits.
Arguments Callbacks W : clear implicits.
Arguments Points W : clear implicits.

End OE.

(** ** MockExchangeConnector *)

Module MX.
Local Open Scope Q_scope.

Record MockExchangeConnector := mkMX {
  heap : Heap;
  mock_balance : Q;
  mock_orders : gmap string loc;
  order_counter : Z
}.

(** [create_order] up to the latency sleep: a new PENDING order is allocated
    and filed under its id. *)
Definition create_order_begin (mx : MockExchangeConnector) (sym : string)
    (sd : OrderSide) (ty : OrderType) (qty : Q) (pr : option Q) (now : Time)
  : MockExchangeConnector * loc :=
  let id := "MOCK_" +:+ pretty (order_counter mx) in
  let l : loc := fresh (dom (heap mx)) in
  let order := Ord.mkOrder id sym sd ty qty (default 0 pr) PENDING now 0 0 0 None in
  (mkMX (<[l := order]> (heap mx)) (mock_balance mx)
        (<[id := l]> (mock_orders mx)) (order_counter mx + 1)%Z,
   l).

(** [create_order] after the sleep: a market order is filled at once. *)
Definition create_order_finish (mx : MockExchangeConnector) (l : loc)
    (ty : OrderType) (qty : Q) (pr : option Q) : MockExchangeConnector :=
  match ty with
  | MARKET =>
    let fill (o : Ord.Order) :=
      Ord.mkOrder (Ord.order_id o) (Ord.symbol o) (Ord.side o) (Ord.type o)
        (Ord.quantity o) (Ord.price o) FILLED (Ord.timestamp o)
        (default 0 pr) qty (qty * default 0 pr * (1 # 1000)) (Ord.filled_time o) in
    mkMX (alter fill l (heap mx)) (mock_balance mx) (mock_orders mx) (order_counter mx)
  | LIMIT => mx
  end.

Definition create_order (mx : MockExchangeConnector) (sym : string)
    (sd : OrderSide) (ty : OrderType) (qty : Q) (pr : option Q) (now : Time)
  : MockExchangeConnector * loc :=
  let '(mx1, l) := create_order_begin mx sym sd ty qty pr now in
  (create_order_finish mx1 l ty qty pr, l).

Definition cancel_order (mx : MockExchangeConnector) (sym id : string)
  : MockExchangeConnector * bool :=
  match mock_orders mx !! id with
  | Some l =>
    match heap mx !! l with
    | Some o =>
      if decide (Ord.status o = PENDING) then
        (mkMX (<[l := Ord.set_status CANCELLED o]> (heap mx)) (mock_balance mx)
              (mock_orders mx) (order_counter mx),
         true)
      else (mx, false)
    | None => (mx, false)
    end
  | None => (mx, false)
  end.

Definition get_order_status (mx : MockExchangeConnector) (sym id : string)
  : result Ord.Order :=
  match mock_orders mx !! id with
  | Some l =>
    match heap mx !! l with
    | Some o => Ok o
    | None => Raise KeyError
    end
  | None => Raise (ValueError ("订单不存在: " +:+ id))
  end.

End MX.

(** ** ConfigLoader *)

Module CL.
Local Open Scope Q_scope.

(** A scalar of the parsed JSON document.  Lists and objects as field values
    behave like strings in every comparison below (they raise [TypeError])
    and are not listed. *)
Inductive Val :=
  | VNum (q : Q)
  | VBool (b : bool)
  | VStr (s : string)
  | VNull.

Abbreviation Section_ := (gmap string Val).
Abbreviation ConfigData := (gmap string (gmap string Val)).

(** The number a value stands for in an order comparison with a number;
    [True] and [False] are the integers 1 and 0. *)
Definition as_number (v : Val) : result Q :=
  match v with
  | VNum q => Ok q
  | VBool b => Ok (if b then 1 else 0)
  | VStr _ | VNull => Raise TypeError
  end.

(** [d.get(key, default)] *)
Definition get (d : gmap string Val) (key : string) (dflt : Val) : Val :=
  default dflt (d !! key).

Definition required_sections : list string :=
  ["trading"; "strategy"; "risk_management"; "position_management";
   "execution"; "exchange"; "data_feed"; "logging"; "monitoring"].

Definition supported_exchanges : list string := ["binance"; "mock"].

Definition lower_ascii (c : ascii) : ascii :=
  let n := nat_of_ascii c in
  if ((65 <=? n) && (n <=? 90))%nat then ascii_of_nat (n + 32) else c.

(** [str.lower] on the ASCII letters. *)
Fixpoint lower (s : string) : string :=
  match s with
  | EmptyString => EmptyString
  | String c s' => String (lower_ascii c) (lower s')
  end.

(** [raise ValueError(msg)] when [x <= 0]. *)
Definition require_positive (v : Val) (msg : string) : result unit :=
  match as_number v with
  | Raise e => Raise e
  | Ok x => if Qleb x 0 then Raise (ValueError msg) else Ok tt
  end.

(** [raise ValueError(msg)] unless [0 < x <= 1]. *)
Definition require_unit_interval (v : Val) (msg : string) : result unit :=
  match as_number v with
  | Raise e => Raise e
  | Ok x => if Qltb 0 x && Qleb x 1 then Ok tt else Raise (ValueError msg)
  end.

Definition check_sections (config_data : ConfigData) : result unit :=
  match List.find (fun s => bool_decide (config_data !! s = None)) required_sections with
  | Some s => Raise (ValueError ("缺少必需的配置节: " +:+ s))
  | None => Ok tt
  end.

Definition section (config_data : ConfigData) (name : string) : gmap string Val :=
  default ∅ (config_data !! name).

Definition _validate_config (config_data : ConfigData) : result unit :=
  check_sections config_data ;;
  let trading_config := section config_data "trading" in
  require_positive (get trading_config "initial_balance" (VNum 0)) "初始余额必须大于0" ;;
  require_unit_interval (get trading_config "max_position_percentage" (VNum 0))
    "最大仓位比例必须在0-1之间" ;;
  let strategy_config := section config_data "strategy" in
  require_positive (get strategy_config "fast_ema_period" (VNum 0)) "快速EMA周期必须大于0" ;;
  slow ← as_number (get strategy_config "slow_ema_period" (VNum 0));
  fast ← as_number (get strategy_config "fast_ema_period" (VNum 0));
  (if Qleb slow fast then Raise (ValueError "慢速EMA周期必须大于快速EMA周期") else Ok tt) ;;
  let risk_config := section config_data "risk_management" in
  require_unit_interval (get risk_config "max_position_percentage" (VNum 0))
    "风险管理最大仓位比例必须在0-1之间" ;;
  require_unit_interval (get risk_config "max_daily_loss_percentage" (VNum 0))
    "最大日损失比例必须在0-1之间" ;;
  require_unit_interval (get risk_config "stop_loss_percentage" (VNum 0))
    "止损比例必须在0-1之间" ;;
  let exchange_config := section config_data "exchange" in
  match get exchange_config "name" (VStr "") with
  | VStr name =>
    if bool_decide (lower name ∈ supported_exchanges) then Ok tt
    else Raise (ValueError ("不支持的交易所: " +:+ name))
  | _ => Raise AttributeError
  end.

(** The field names of the nine dataclasses. *)
Definition TradingConfig_fields : list string :=
  ["symbol"; "simulation_mode"; "initial_balance"; "max_position_percentage"; "leverage"].
Definition StrategyConfig_fields : list string :=
  ["name"; "fast_ema_period"; "slow_ema_period"; "signal_strength_threshold";
   "min_signal_strength"; "max_signal_strength"].
Definition RiskConfig_fields : list string :=
  ["max_position_percentage"; "max_daily_loss_percentage"; "max_drawdown_percentage";
   "stop_loss_percentage"; "take_profit_percentage"; "min_position_size";
   "max_leverage"; "max_trades_per_day"].
Definition PositionConfig_fields : list string := ["max_positions"; "position_timeout"].
Definition ExecutionConfig_fields : list string :=
  ["max_retry_count"; "retry_delay"; "order_timeout"; "slippage_tolerance";
   "simulation_mode"; "simulation_latency"; "simulation_slippage"].
Definition ExchangeConfig_fields : list string :=
  ["name"; "api_key"; "api_secret"; "testnet"; "initial_balance"].
Definition DataFeedConfig_fields : list string :=
  ["source"; "update_interval"; "websocket_url"; "rest_api_url";
   "mock_volatility"; "mock_trend"].
Definition LoggingConfig_fields : list string :=
  ["level"; "log_to_file"; "log_directory"; "max_log_files"; "max_log_size_mb"].
Definition MonitoringConfig_fields : list string :=
  ["enable_web_interface"; "web_port"; "update_interval"; "save_state_interval"].

(** A dataclass without defaults built from the keyword arguments of a dict:
    the keys must be exactly the fields; the values are stored as they are. *)
Definition dataclass (fields : list string) (d : gmap string Val)
  : result (gmap string Val) :=
  if bool_decide (dom d = list_to_set fields) then Ok d else Raise TypeError.

Record LiveTradingConfig := mkConfig {
  trading : gmap string Val;
  strategy : gmap string Val;
  risk_management : gmap string Val;
  position_management : gmap string Val;
  execution : gmap string Val;
  exchange : gmap string Val;
  data_feed : gmap string Val;
  logging : gmap string Val;
  monitoring : gmap string Val
}.

Definition _create_config_objects (config_data : ConfigData) : result LiveTradingConfig :=
  c1 ← dataclass TradingConfig_fields (section config_data "trading");
  c2 ← dataclass StrategyConfig_fields (section config_data "strategy");
  c3 ← dataclass RiskConfig_fields (section config_data "risk_management");
  c4 ← dataclass PositionConfig_fields (section config_data "position_management");
  c5 ← dataclass ExecutionConfig_fields (section config_data "execution");
  c6 ← dataclass ExchangeConfig_fields (section config_data "exchange");
  c7 ← dataclass DataFeedConfig_fields (section config_data "data_feed");
  c8 ← dataclass LoggingConfig_fields (section config_data "logging");
  c9 ← dataclass MonitoringConfig_fields (section config_data "monitoring");
  Ok (mkConfig c1 c2 c3 c4 c5 c6 c7 c8 c9).

(** [load_config], from the parsed JSON document on. *)
Definition load_config (config_data : ConfigData) : result LiveTradingConfig :=
  _validate_config config_data ;; _create_config_objects config_data.

(** The document written by [create_default_config]. *)
Definition default_config : ConfigData :=
  list_to_map [
    ("trading", list_to_map [
       ("symbol", VStr "BTCUSDT"); ("simulation_mode", VBool true);
       ("initial_balance", VNum 10000); ("max_position_percentage", VNum (95 # 100));
       ("leverage", VNum 1)]);
    ("strategy", list_to_map [
       ("name", VStr "SimpleEMAStrategy"); ("fast_ema_period", VNum 12);
       ("slow_ema_period", VNum 26); ("signal_strength_threshold", VNum (5 # 10));
       ("min_signal_strength", VNum (3 # 10)); ("max_signal_strength", VNum 1)]);
    ("risk_management", list_to_map [
       ("max_position_percentage", VNum (95 # 100));
       ("max_daily_loss_percentage", VNum (5 # 100));
       ("max_drawdown_percentage", VNum (10 # 100));
       ("stop_loss_percentage", VNum (2 # 100));
       ("take_profit_percentage", VNum (6 # 100));
       ("min_position_size", VNum 10); ("max_leverage", VNum 20);
       ("max_trades_per_day", VNum 50)]);
    ("position_management", list_to_map [
       ("max_positions", VNum 5); ("position_timeout", VNum 3600)]);
    ("execution", list_to_map [
       ("max_retry_count", VNum 3); ("retry_delay", VNum 1); ("order_timeout", VNum 30);
       ("slippage_tolerance", VNum (1 # 1000)); ("simulation_mode", VBool true);
       ("simulation_latency", VNum (1 # 10)); ("simulation_slippage", VNum (5 # 10000))]);
    ("exchange", list_to_map [
       ("name", VStr "mock"); ("api_key", VStr ""); ("api_secret", VStr "");
       ("testnet", VBool true); ("initial_balance", VNum 10000)]);
    ("data_feed", list_to_map [
       ("source", VStr "mock"); ("update_interval", VNum 1); ("websocket_url", VStr "");
       ("rest_api_url", VStr ""); ("mock_volatility", VNum (2 # 100)); ("mock_trend", VNum 0)]);
    ("logging", list_to_map [
       ("level", VStr "INFO"); ("log_to_file", VBool true);
       ("log_directory", VStr "live_trading/logs"); ("max_log_files", VNum 10);
       ("max_log_size_mb", VNum 50)]);
    ("monitoring", list_to_map [
       ("enable_web_interface", VBool true); ("web_port", VNum 8080);
       ("update_interval", VNum 5); ("save_state_interval", VNum 60)])
  ].

(** The percentage fields of the risk section, as a predicate on numbers. *)
Definition in_unit_interval (v : Val) : Prop :=
  exists x, as_number v = Ok x /\ 0 < x /\ x <= 1.

End CL.

(** ** The glue of [main.py] *)

Module Main.

(** [_on_order_filled]: a filled BUY order opens (or adds to) a LONG position
    at the filled price; other orders change nothing.  An exception raised by
    the position manager is caught inside the callback, the mutations made
    before it stay. *)
Definition _on_order_filled (now : Time) : OE.Callback PM.PositionManager :=
  fun st l r =>
    match OE.heap st !! l with
    | Some o =>
      match Ord.side o with
      | BUY =>
        OE.mkState (OE.heap st) (OE.ex st)
          (fst (PM.open_position (OE.world st) (Ord.symbol o) LONG
                  (OE.filled_quantity r) (OE.filled_price r)
                  (Some (Ord.order_id o)) now))
      | SELL => st
      end
    | None => st
    end.

(** [_on_order_failed] only logs. *)
Definition _on_order_failed : OE.Callback PM.PositionManager :=
  fun st _ _ => st.

(** The callbacks installed by [_initialize_modules]. *)
Definition callbacks (now : Time) : OE.Callbacks PM.PositionManager :=
  OE.mkCallbacks (Some (_on_order_filled now)) (Some _on_order_failed).

End Main.

(** ** The numeric methods on binary64 floats *)

Module F64.
Local Open Scope float_scope.
Set Warnings "-inexact-float".

Definition py_div (a b : float) : result float :=
  if (b =? 0) then Raise ZeroDivisionError else Ok (a / b).

(** [max(a, b)] and [min(a, b)] of the interpreter. *)
Definition py_max (a b : float) : float := if (a <? b) then b else a.
Definition py_min (a b : float) : float := if (b <? a) then b else a.

(** [RiskManager.should_force_close_position] *)
Definition should_force_close_position (stop_loss_percentage take_profit_percentage : float)
    (sd : PositionSide) (entry price : float) : result bool :=
  let pnl :=
    match sd with
    | LONG => py_div (price - entry) entry
    | SHORT => py_div (entry - price) entry
    end in
  match pnl with
  | Raise e => Raise e
  | Ok pnl_percentage =>
    if (pnl_percentage <=? - stop_loss_percentage) then Ok true
    else if (take_profit_percentage <=? pnl_percentage) then Ok true
    else Ok false
  end.

(** [RiskManager.calculate_position_size] *)
Definition calculate_position_size
    (max_position_percentage min_position_size max_leverage : float)
    (available_balance strength : float) : float :=
  let base_position_size := available_balance * max_position_percentage in
  let adjusted_size := base_position_size * strength in
  let adjusted_size := py_max adjusted_size min_position_size in
  let adjusted_size := py_min adjusted_size (available_balance * 0.95) in
  let max_position_with_leverage := available_balance * max_leverage in
  py_min adjusted_size max_position_with_leverage.

(** The entry price computed by [PositionManager._add_to_position]. *)
Definition new_entry_price (size entry additional_size price : float) : result float :=
  let total_cost := size * entry + additional_size * price in
  let new_size := size + additional_size in
  py_div total_cost new_size.

(** The PnL realized by [PositionManager.close_position] on a LONG position. *)
Definition realized_long (size entry close_price : float) : float :=
  (close_price - entry) * size.

End F64.

(** ** The words of the specification *)

Module Spec.
Local Open Scope Q_scope.


End Spec.

(** ** Concrete inputs *)

Module Scenario.
Local Open Scope Q_scope.

(** What [close_position] realizes at the exit price [x]. *)
Definition realized (p : Position) (x : Q) : Q :=
  match side p with
  | LONG => (x - entry_price p) * size p
  | SHORT => (entry_price p - x) * size p
  end.

(** A table holding one record of size zero, as left by an open of size 0. *)
Definition flat_manager : PM.PositionManager :=
  fst (PM.open_position PM.default_position_manager "BTCUSDT" LONG 0 100 None 0).

(** A manager holding one LONG position of size 1 entered at 100. *)
Definition long_manager : PM.PositionManager :=
  fst (PM.open_position PM.default_position_manager "BTCUSDT" LONG 1 100
         (Some "BTCUSDT_1") 0).

Definition long_position : Position :=
  mkPosition "BTCUSDT" LONG 1 100 100 0 0 1 0 0 (Some "BTCUSDT_1").

(** A market BUY of quantity 1 at the reference price 100, as built by
    [_create_order_from_signal]. *)
Definition buy_order : Ord.Order :=
  Ord.mkOrder "BTCUSDT_1" "BTCUSDT" BUY MARKET 1 100 CREATED 0 0 0 0 None.

(** A simulation-mode executor without slippage, so that fills are at the
    reference price. *)
Definition flat_fill_executor : OE.OrderExecutor :=
  OE.mkOE 3 1 30 (1 # 1000) ∅ [] [] true (1 # 10) 0.

(** The trading system before the order is executed. *)
Definition system0 : OE.State PM.PositionManager :=
  OE.mkState {[ 0%nat := buy_order ]} flat_fill_executor PM.default_position_manager.

(** The account reported by the mock venue for a wallet balance. *)
Definition account (balance : Q) : AccountInfo :=
  mkAccountInfo balance 0 balance 0 0 (balance * (9 # 10)) (balance * (9 # 10)) 0.

(** An account with the given available balance. *)
Definition account_available (available : Q) : AccountInfo :=
  mkAccountInfo available 0 available 0 0 available available 0.

Definition buy_signal (s : Q) : Signal := mkSignal "BTCUSDT" "BUY" s 100 0 "".

(** A manager started on a balance of 10000 (as [start] does: account
    update, then daily reset) that has seen the balance fall to 8000: the
    drawdown is 20%, above the 10% cap. *)
Definition drawdown_manager : RM.RiskManager :=
  RM.update_account_info
    (RM.reset_daily_stats (RM.update_account_info RM.default_risk_manager (account 10000)))
    (account 8000).

(** The default risk manager with another [min_position_size]. *)
Definition risk_manager_min (m : Q) : RM.RiskManager :=
  RM.mkRM (95 # 100) (5 # 100) (10 # 100) (2 # 100) (6 # 100) m 20
          0 0 0 0 0 0 0 0 50 [] true [].

(** The default document with a take-profit of 500% and a drawdown cap of
    200%. *)
Definition wide_config : CL.ConfigData :=
  <["risk_management" :=
      <["take_profit_percentage" := CL.VNum 5]>
        (<["max_drawdown_percentage" := CL.VNum 2]>
           (CL.section CL.default_config "risk_management"))]> CL.default_config.

(** The same with the executor of the default configuration. *)
Definition system1 : OE.State PM.PositionManager :=
  OE.mkState {[ 0%nat := buy_order ]} OE.default_executor PM.default_position_manager.

(** The system after the BUY order of quantity 1 at 100 has been executed
    (successful draw, no slippage). *)
Definition system_after_buy : OE.State PM.PositionManager :=
  fst (OE.execute_order (Main.callbacks 1) system0 0%nat (1 # 2) 1).

(** A filled callback that cancels the order it is told about. *)
Definition cancelling_callbacks : OE.Callbacks PM.PositionManager :=
  OE.mkCallbacks
    (Some (fun st _ r => fst (OE.cancel_order st (OE.order_id r))))
    None.

End Scenario.

(** ** Market data *)

Module MD.

Record MarketData := mkMarketData {
  symbol : string;
  open : Q;
  high : Q;
  low : Q;
  close : Q;
  volume : Q;
  timestamp : Time
}.

End MD.

(** ** PositionManager, the remaining methods *)

Module PMx.
Import PM.
Local Open Scope Q_scope.

(** [update_all_positions] *)
Definition update_all_positions (pm : PositionManager) (market_data : MD.MarketData)
  : PositionManager :=
  match positions pm !! MD.symbol market_data with
  | Some _ => update_position_price pm (MD.symbol market_data) (MD.close market_data)
  | None => pm
  end.

(** The test of [cleanup_expired_positions]: an empty record older than the
    timeout (times in seconds). *)
Definition expired (pm : PositionManager) (now : Time) (p : Position) : bool :=
  Qeq_bool (size p) 0 && Qltb (position_timeout pm) (now - timestamp p).

(** [cleanup_expired_positions] *)
Definition cleanup_expired_positions (pm : PositionManager) (now : Time)
  : PositionManager :=
  set_positions
    (filter (fun kp : string * Position => expired pm now kp.2 = false) (positions pm))
    pm.

(** [active_positions] of [can_open_new_position] and [get_status]. *)
Definition active_positions_count (pm : PositionManager) : nat :=
  length (get_all_positions pm).

(** The calls that change a manager. *)
Inductive op :=
  | OpOpen (sym : string) (sd : PositionSide) (sz price : Q) (oid : option string)
           (now : Time)
  | OpClose (sym : string) (cp : option Q) (now : Time)
  | OpReduce (sym : string) (reduce_size price : Q) (now : Time)
  | OpUpdatePrice (sym : string) (price : Q)
  | OpCleanup (now : Time).

(** The manager a call leaves behind, whether it returns or raises. *)
Definition run_op (pm : PositionManager) (o : op) : PositionManager :=
  match o with
  | OpOpen sym sd sz price oid now => fst (open_position pm sym sd sz price oid now)
  | OpClose sym cp now => fst (close_position pm sym cp now)
  | OpReduce sym rs price now => fst (reduce_position pm sym rs price now)
  | OpUpdatePrice sym price => update_position_price pm sym price
  | OpCleanup now => cleanup_expired_positions pm now
  end.

Definition run_ops (pm : PositionManager) (os : list op) : PositionManager :=
  fold_left run_op os pm.

(** The symbol a call is about, if it is about one. *)
Definition op_symbol (o : op) : option string :=
  match o with
  | OpOpen sym _ _ _ _ _ | OpClose sym _ _ | OpReduce sym _ _ _ | OpUpdatePrice sym _ =>
    Some sym
  | OpCleanup _ => None
  end.

(** Every record of the table is filed under its own symbol. *)
Definition keyed (pm : PositionManager) : Prop :=
  forall k p, positions pm !! k = Some p -> symbol p = k.

(** What a call about [sym] may do to a manager: keep the table, drop the
    entry of [sym] or replace it, add records at the end of the history, and
    nothing else. *)
Definition step_on (sym : string) (pm pm' : PositionManager) : Prop :=
  (positions pm' = positions pm \/
   positions pm' = delete sym (positions pm) \/
   exists p', positions pm' = <[sym := p']> (positions pm) /\
              (keyed pm -> symbol p' = sym)) /\
  (exists t, position_history pm' = position_history pm ++ t) /\
  max_positions pm' = max_positions pm /\
  position_timeout pm' = position_timeout pm.

(** A LONG position of size 2 entered at 100, a SHORT position of size 3
    entered at 50 and a record of size zero. *)
Definition three_symbols : PositionManager :=
  run_ops default_position_manager
    [OpOpen "BTCUSDT" LONG 2 100 (Some "BTCUSDT_1") 0;
     OpOpen "ETHUSDT" SHORT 3 50 (Some "ETHUSDT_2") 1;
     OpOpen "SOLUSDT" LONG 0 20 None 2].

(** A LONG position of size 1 entered at price 0. *)
Definition zero_entry_manager : PositionManager :=
  run_ops default_position_manager [OpOpen "BTCUSDT" LONG 1 0 None 0].

End PMx.

(** ** RiskManager, the remaining methods *)

Module Metrics.

Record RiskMetrics := mkRiskMetrics {
  max_drawdown : Q;
  current_drawdown : Q;
  win_rate : Q;
  profit_factor : Q;
  sharpe_ratio : Q;
  total_trades : nat;
  winning_trades : nat;
  losing_trades : nat;
  total_pnl : Q;
  max_position_size : Q;
  current_exposure : Q
}.

End Metrics.

Module RMx.
Local Open Scope Q_scope.

(** [trade.get('pnl', 0) > 0] *)
Definition is_win (t : RM.TradeInfo) : bool := Qltb 0 (default 0 (RM.trade_pnl t)).

(** [get_risk_metrics] *)
Definition get_risk_metrics (rm : RM.RiskManager) : Metrics.RiskMetrics :=
  let winning_trades := length (List.filter is_win (RM.trade_history rm)) in
  let total := length (RM.trade_history rm) in
  let losing_trades := (total - winning_trades)%nat in
  let win_rate :=
    match RM.trade_history rm with
    | [] => 0
    | _ => inject_Z (Z.of_nat winning_trades) / inject_Z (Z.of_nat total)
    end in
  Metrics.mkRiskMetrics (RM.max_drawdown rm) (RM.current_drawdown rm) win_rate 0 0
    total winning_trades losing_trades (RM.total_pnl rm)
    (RM.current_balance rm * RM.max_position_percentage rm) 0.

(** A run of [record_trade] calls. *)
Definition record_trades (rm : RM.RiskManager) (ts : list (RM.TradeInfo * Time))
  : RM.RiskManager :=
  fold_left (fun r t => RM.record_trade r t.1 t.2) ts rm.

(** The PnL the trades of a run carry. *)
Definition pnl_sum (ts : list (RM.TradeInfo * Time)) : Q :=
  fold_right (fun t acc => default 0 (RM.trade_pnl t.1) + acc) 0 ts.

End RMx.

(** ** OrderExecutor, the remaining methods *)

Module Stats.

(** The dict returned by [get_execution_statistics]. *)
Record ExecutionStatistics := mkStats {
  total_orders : nat;
  completed_orders : nat;
  failed_orders : nat;
  pending_orders : nat;
  success_rate : Q;
  total_commission : Q;
  simulation_mode : bool
}.

End Stats.

Module OEx.
Import OE.
Local Open Scope Q_scope.

(** [_create_order_from_signal]: [millis] is [int(time.time() * 1000)]. *)
Definition _create_order_from_signal (signal : Signal) (position_size current_price : Q)
    (millis : Z) (now : Time) : result Ord.Order :=
  sd ← (if String.eqb (action signal) "BUY" then Ok BUY
        else if String.eqb (action signal) "SELL" then Ok SELL
        else Raise (ValueError ("不支持的信号动作: " +:+ action signal)));
  quantity ← py_div position_size current_price;
  Ok (Ord.mkOrder (sig_symbol signal +:+ "_" +:+ pretty millis) (sig_symbol signal)
        sd MARKET quantity current_price CREATED now 0 0 0 None).

Section Executor.
Context {W : Type}.

(** [execute_signal]: the new order is a new object; an exception of
    [_create_order_from_signal] leaves the method before anything is
    changed. *)
Definition execute_signal (cbs : Callbacks W) (st : State W) (signal : Signal)
    (position_size current_price : Q) (millis : Z) (u : Q) (now : Time)
  : State W * result ExecutionResult :=
  match _create_order_from_signal signal position_size current_price millis now with
  | Raise e => (st, Raise e)
  | Ok order =>
    let l : loc := fresh (dom (heap st)) in
    let '(st', r) := execute_order cbs (set_heap (<[l := order]> (heap st)) st) l u now in
    (st', Ok r)
  end.

(** [order.timestamp.timestamp() > cutoff_time]; a list holds objects, so
    the reference is in the heap. *)
Definition younger (h : Heap) (cutoff : Q) (l : loc) : bool :=
  match h !! l with
  | Some o => Qltb cutoff (Ord.timestamp o)
  | None => false
  end.

(** [cleanup_old_orders] *)
Definition cleanup_old_orders (st : State W) (max_age_hours : Q) (now : Time) : State W :=
  let cutoff_time := now - max_age_hours * 3600 in
  set_ex
    (set_failed (List.filter (younger (heap st) cutoff_time) (failed_orders (ex st)))
       (set_completed
          (List.filter (younger (heap st) cutoff_time) (completed_orders (ex st)))
          (ex st)))
    st.

(** [sum(order.commission for order in self.completed_orders)] *)
Definition total_commission (st : State W) : Q :=
  fold_left Qplus
    (omap (fun l => Ord.commission <$> heap st !! l) (completed_orders (ex st))) 0.

(** [get_execution_statistics] *)
Definition get_execution_statistics (st : State W) : Stats.ExecutionStatistics :=
  let nc := length (completed_orders (ex st)) in
  let nf := length (failed_orders (ex st)) in
  let total_orders := (nc + nf)%nat in
  let success_rate :=
    if (0 <? total_orders)%nat
    then inject_Z (Z.of_nat nc) / inject_Z (Z.of_nat total_orders) else 0 in
  Stats.mkStats total_orders nc nf (base.size (pending_orders (ex st))) success_rate
    (total_commission st) (simulation_mode (ex st)).

End Executor.

End OEx.

(** ** The connector factory and the books of the mock venue *)

Module MXx.
Import MX.



(** [__init__]: empty books, the counter at 1. *)
Definition new_connector (initial_balance : Q) : MockExchangeConnector :=
  mkMX ∅ initial_balance ∅ 1.

(** The books as [create_order] keeps them: every id was issued from a
    counter value already passed, and its order is in the heap under that
    id. *)
Definition books_ok (mx : MockExchangeConnector) : Prop :=
  forall id l, mock_orders mx !! id = Some l ->
    (exists k, (k < order_counter mx)%Z /\ id = "MOCK_" +:+ pretty k) /\
    (exists o, heap mx !! l = Some o /\ Ord.order_id o = id).

End MXx.

(** ** ConfigLoader, writing a configuration *)

Module CLx.
Import CL.


End CLx.

(** ** The trading system of [main.py] *)

Module Sys.
Local Open Scope Q_scope.

(** The executor with the position manager behind its callbacks, and the
    risk manager. *)
Record System := mkSystem {
  st : OE.State PM.PositionManager;
  risk_manager : RM.RiskManager
}.

Definition position_manager (sys : System) : PM.PositionManager := OE.world (st sys).

Definition set_position_manager (pm : PM.PositionManager) (s : OE.State PM.PositionManager)
  : OE.State PM.PositionManager :=
  OE.mkState (OE.heap s) (OE.ex s) pm.

(** [signal.action in ["BUY", "SELL"]] *)
Definition buy_or_sell (a : string) : bool := String.eqb a "BUY" || String.eqb a "SELL".

(** [_process_signal]: [account_info] is what the venue reports; every
    exception is caught and logged. *)
Definition _process_signal (sys : System) (signal : Signal) (close : Q)
    (account_info : AccountInfo) (millis : Z) (u : Q) (now : Time) : System :=
  let pm := position_manager sys in
  let current_position := PM.get_position pm (sig_symbol signal) in
  if negb (RM.validate_signal (risk_manager sys) signal account_info current_position)
  then sys
  else
    let position_size := RM.calculate_position_size (risk_manager sys) signal account_info in
    if buy_or_sell (action signal) && negb (PM.has_position pm (sig_symbol signal))
       && negb (PM.can_open_new_position pm)
    then sys
    else
      mkSystem
        (fst (OEx.execute_signal (Main.callbacks now) (st sys) signal position_size
                close millis u now))
        (risk_manager sys).

(** [_close_position] *)
Definition _close_position (sys : System) (position : Position) (close_price : Q)
    (reason : string) (millis : Z) (u : Q) (now : Time) : System :=
  let close_signal :=
    mkSignal (symbol position)
      (match side position with LONG => "SELL" | SHORT => "BUY" end)
      1 close_price now reason in
  match OEx.execute_signal (Main.callbacks now) (st sys) close_signal
          (size position * close_price) close_price millis u now with
  | (st', Raise _) => mkSystem st' (risk_manager sys)
  | (st', Ok r) =>
    if OE.success r then
      match PM.close_position (OE.world st') (symbol position) (Some close_price) now with
      | (pm', Ok (Some closed_position)) =>
        mkSystem (set_position_manager pm' st')
          (RM.record_trade (risk_manager sys)
             (RM.mkTradeInfo (symbol closed_position)
                (Some (realized_pnl closed_position)) now) now)
      | (pm', _) => mkSystem (set_position_manager pm' st') (risk_manager sys)
      end
    else mkSystem st' (risk_manager sys)
  end.


End Sys.

(** ** Further concrete inputs *)

Module Scenario2.
Import Scenario.
Local Open Scope Q_scope.

(** The system of the default configuration with the BUY order registered
    and its execution suspended in the latency sleep. *)
Definition pending_system : OE.State PM.PositionManager := OE.register system1 0%nat.

(** A live-mode executor whose retry count is zero. *)
Definition live_system : OE.State PM.PositionManager :=
  OE.mkState {[ 0%nat := buy_order ]}
    (OE.mkOE 0 1 30 (1 # 1000) ∅ [] [] false (1 # 10) (5 # 10000))
    PM.default_position_manager.

(** A signal that is neither BUY nor SELL. *)
Definition close_signal : Signal := mkSignal "BTCUSDT" "CLOSE" 1 100 0 "".

Definition sell_signal (s : Q) : Signal := mkSignal "BTCUSDT" "SELL" s 100 0 "".

(** An executor with no orders and an empty position table. *)
Definition idle_state : OE.State PM.PositionManager :=
  OE.mkState ∅ OE.default_executor PM.default_position_manager.

(** The trading system at start, on the default configuration. *)
Definition idle_system : Sys.System := Sys.mkSystem idle_state RM.default_risk_manager.

(** The trading system holding the LONG position of size 1 entered at 100. *)
Definition long_system : Sys.System :=
  Sys.mkSystem (OE.mkState ∅ OE.default_executor long_manager) RM.default_risk_manager.

(** The books of the mock venue after a limit order and a market order. *)
Definition two_orders : MX.MockExchangeConnector :=
  fst (MX.create_order
         (fst (MX.create_order (MXx.new_connector 10000) "BTCUSDT" BUY LIMIT 1 (Some 90) 0))
         "BTCUSDT" SELL MARKET 2 (Some 100) 1).

End Scenario2.

(** * Properties *)

(** ** Comparisons and division *)

Lemma Qltb_lt (a b : Q) : Qltb a b = true <-> (a < b)%Q.
Proof.
  unfold Qltb. rewrite negb_true_iff, <- not_true_iff_false, Qle_bool_iff.
  split; [apply Qnot_le_lt | apply Qlt_not_le].
Qed.

Lemma Qltb_ge (a b : Q) : Qltb a b = false <-> (b <= a)%Q.
Proof. unfold Qltb. rewrite negb_false_iff. apply Qle_bool_iff. Qed.

Lemma Qleb_le (a b : Q) : Qleb a b = true <-> (a <= b)%Q.
Proof. apply Qle_bool_iff. Qed.

Lemma Qleb_gt (a b : Q) : Qleb a b = false <-> (b < a)%Q.
Proof.
  unfold Qleb. rewrite <- not_true_iff_false, Qle_bool_iff.
  split; [apply Qnot_le_lt | apply Qlt_not_le].
Qed.

Lemma py_div_ok (a b : Q) : ~ (b == 0)%Q -> py_div a b = Ok (a / b)%Q.
Proof.
  intros Hb. unfold py_div.
  destruct (Qeq_bool b 0) eqn:E; [|reflexivity].
  apply Qeq_bool_iff in E. contradiction.
Qed.

Lemma py_div_zero (a b : Q) : (b == 0)%Q -> py_div a b = Raise ZeroDivisionError.
Proof. intros Hb. unfold py_div. apply Qeq_bool_iff in Hb. by rewrite Hb. Qed.

(** ** PositionManager *)

Module PMFacts.
Import PM Scenario.
Local Open Scope Q_scope.

Lemma has_position_true (pm : PositionManager) (sym : string) :
  has_position pm sym = true <->
  exists p, positions pm !! sym = Some p /\ 0 < size p.
Proof.
  unfold has_position. destruct (positions pm !! sym) as [p|].
  - rewrite Qltb_lt. split; [eauto|]. by intros (? & [= <-] & ?).
  - split; [done|]. by intros (? & ? & ?).
Qed.

Lemma has_position_flat (pm : PositionManager) (sym : string) :
  positions pm !! sym = None \/
  (exists p, positions pm !! sym = Some p /\ size p == 0) ->
  has_position pm sym = false.
Proof.
  unfold has_position. intros [-> | (p & -> & Hz)]; [done|].
  apply Qltb_ge. rewrite Hz. apply Qle_refl.
Qed.

Lemma close_position_live (pm : PositionManager) (sym : string) (p : Position)
    (cp : option Q) (now : Time) :
  positions pm !! sym = Some p ->
  0 < size p ->
  ~ entry_price p == 0 ->
  let x := default (current_price p) cp in
  let closed :=
    mkPosition (symbol p) (side p) (size p) (entry_price p) x 0 (realized p x)
      (margin p) (realized p x / (entry_price p * size p) * 100) now (order_id p) in
  close_position pm sym cp now =
    (mkPM (delete sym (positions pm)) (position_history pm ++ [closed])
          (max_positions pm) (position_timeout pm),
     Ok (Some closed)).
Proof.
  intros Hp Hs He x closed. unfold close_position.
  assert (Hh : has_position pm sym = true) by (apply has_position_true; eauto).
  rewrite Hh, Hp. cbn [negb].
  assert (Hd : ~ entry_price p * size p == 0).
  { intros H0. apply Qmult_integral in H0 as [H0|H0]; [done|].
    rewrite H0 in Hs. by apply Qlt_irrefl in Hs. }
  fold x. fold (realized p x). by rewrite (py_div_ok _ _ Hd).
Qed.

(** C10. For a symbol with no live position of nonzero size (no entry in the
    table, or an entry of size zero), [close_position] and [reduce_position]
    return [None] and the manager is exactly as before: position table,
    history, and with them every realized and unrealized PnL figure. *)
Theorem close_reduce_flat_noop (pm : PositionManager) (sym : string)
    (cp : option Q) (reduce_size price : Q) (now : Time) :
  positions pm !! sym = None \/
  (exists p, positions pm !! sym = Some p /\ size p == 0) ->
  close_position pm sym cp now = (pm, Ok None) /\
  reduce_position pm sym reduce_size price now = (pm, Ok None).
Proof.
  intros Hflat. apply has_position_flat in Hflat.
  unfold close_position, reduce_position. by rewrite Hflat.
Qed.

Lemma close_reduce_flat_noop_witness :
  (positions flat_manager !! "BTCUSDT" = None \/
   (exists p, positions flat_manager !! "BTCUSDT" = Some p /\ size p == 0)) /\
  close_position flat_manager "BTCUSDT" (Some 90) 1 = (flat_manager, Ok None) /\
  reduce_position flat_manager "BTCUSDT" (1 # 2) 90 1 = (flat_manager, Ok None).
Proof.
  assert (H : positions flat_manager !! "BTCUSDT" = None \/
    (exists p, positions flat_manager !! "BTCUSDT" = Some p /\ size p == 0)).
  { right. eexists. split; [vm_compute; reflexivity | reflexivity]. }
  split; [exact H | exact (close_reduce_flat_noop _ _ _ _ _ _ H)].
Defined.

Lemma open_position_flat (pm : PositionManager) (sym : string) (sd : PositionSide)
    (sz price : Q) (oid : option string) (now : Time) :
  has_position pm sym = false ->
  let position := mkPosition sym sd sz price price 0 0 sz 0 now oid in
  open_position pm sym sd sz price oid now =
    (set_positions (<[sym := position]> (positions pm)) pm, Ok position).
Proof. intros Hh. unfold open_position. by rewrite Hh. Qed.

Lemma long_manager_lookup : positions long_manager !! "BTCUSDT" = Some long_position.
Proof. vm_compute. reflexivity. Qed.

(** C6. For a live position and a same-direction add of [additional_size] at
    [price] (the new size being nonzero, so that the quotient exists), the
    entry price becomes (oldEntry*oldSize + price*addSize) / (oldSize+addSize)
    and the size oldSize+addSize; [open_position] with the side of the
    position takes this path.  Size 1 at entry 100 plus size 1 at 120 gives
    entry 110. *)
Theorem add_to_position_weighted_average (pm : PositionManager) (sym : string)
    (p : Position) (additional_size price : Q) (oid : option string) (now : Time) :
  positions pm !! sym = Some p ->
  0 < size p ->
  ~ size p + additional_size == 0 ->
  exists p',
    _add_to_position pm sym additional_size price oid now =
      (set_positions (<[sym := p']> (positions pm)) pm, Ok p') /\
    open_position pm sym (side p) additional_size price oid now =
      _add_to_position pm sym additional_size price oid now /\
    side p' = side p /\
    size p' = size p + additional_size /\
    entry_price p' ==
      (entry_price p * size p + price * additional_size) / (size p + additional_size) /\
    (size p == 1 -> entry_price p == 100 -> additional_size == 1 -> price == 120 ->
     entry_price p' == 110).
Proof.
  intros Hp Hs Hne.
  assert (Hh : has_position pm sym = true) by (apply has_position_true; eauto).
  eexists. split; [|split; [|split; [|split; [|split]]]].
  - unfold _add_to_position. rewrite Hp, (py_div_ok _ _ Hne). reflexivity.
  - unfold open_position. rewrite Hh, Hp. by rewrite decide_True.
  - reflexivity.
  - reflexivity.
  - cbn [entry_price]. by rewrite (Qmult_comm (size p)), (Qmult_comm additional_size).
  - intros H1 H2 H3 H4. cbn [entry_price]. by rewrite H1, H2, H3, H4.
Qed.

Lemma add_to_position_weighted_average_witness :
  exists p',
    _add_to_position long_manager "BTCUSDT" 1 120 None 1 =
      (set_positions (<["BTCUSDT" := p']> (positions long_manager)) long_manager, Ok p') /\
    entry_price p' == 110 /\ size p' == 2.
Proof.
  destruct (add_to_position_weighted_average long_manager "BTCUSDT" long_position
              1 120 None 1 long_manager_lookup)
    as (p' & H1 & _ & _ & H4 & _ & H6); [reflexivity | by vm_compute |].
  exists p'. split; [exact H1|]. split.
  - apply H6; reflexivity.
  - rewrite H4. reflexivity.
Defined.

(** C8 (amended). For a live position whose entry price is not zero,
    [close_position] realizes (exit - entry) * size for LONG and
    (entry - exit) * size for SHORT, appends the closed record to the
    history and removes the live entry.  No commission enters the figure:
    a LONG of size 1 entered at 100 and closed at 100 realizes 0, whatever
    fee the opening order was charged. *)
Theorem close_position_realizes (pm : PositionManager) (sym : string)
    (p : Position) (cp : option Q) (now : Time) :
  positions pm !! sym = Some p ->
  0 < size p ->
  ~ entry_price p == 0 ->
  exists pm' closed,
    close_position pm sym cp now = (pm', Ok (Some closed)) /\
    realized_pnl closed =
      match side p with
      | LONG => (default (current_price p) cp - entry_price p) * size p
      | SHORT => (entry_price p - default (current_price p) cp) * size p
      end /\
    side closed = side p /\ size closed = size p /\ entry_price closed = entry_price p /\
    position_history pm' = position_history pm ++ [closed] /\
    positions pm' = delete sym (positions pm) /\
    has_position pm' sym = false /\
    (side p = LONG -> size p == 1 -> entry_price p == 100 ->
     default (current_price p) cp == 100 -> realized_pnl closed == 0).
Proof.
  intros Hp Hs He.
  do 2 eexists. split; [apply (close_position_live pm sym p cp now Hp Hs He)|].
  repeat split.
  - unfold has_position. cbn [positions]. by rewrite lookup_delete_eq.
  - intros Hl H1 H2 H3. cbn [realized_pnl]. unfold realized.
    rewrite Hl, H1, H2, H3. reflexivity.
Qed.

Lemma close_position_realizes_witness :
  exists pm' closed,
    close_position long_manager "BTCUSDT" (Some 100) 1 = (pm', Ok (Some closed)) /\
    realized_pnl closed == 0 /\
    position_history pm' = [closed] /\
    positions pm' !! "BTCUSDT" = None.
Proof.
  destruct (close_position_realizes long_manager "BTCUSDT" long_position (Some 100) 1
              long_manager_lookup)
    as (pm' & closed & H1 & _ & _ & _ & _ & H6 & H7 & _ & H9);
    [reflexivity | by vm_compute |].
  exists pm', closed. split; [exact H1|]. split; [|split].
  - apply H9; reflexivity.
  - exact H6.
  - rewrite H7. apply lookup_delete_eq.
Defined.

(** C3 (amended). For a symbol holding a live position (size above zero,
    entry price not zero), [open_position] with the opposite side flips the
    position itself: it closes the existing position at its current price,
    which files the closed record in the history and leaves the symbol flat,
    and then opens the new position on that flat table. *)
Theorem open_position_opposite_side_flips (pm : PositionManager) (sym : string)
    (p : Position) (sd : PositionSide) (sz price : Q) (oid : option string)
    (now : Time) :
  positions pm !! sym = Some p ->
  0 < size p ->
  ~ entry_price p == 0 ->
  side p <> sd ->
  exists pm1 closed new,
    close_position pm sym None now = (pm1, Ok (Some closed)) /\
    positions pm1 !! sym = None /\
    has_position pm1 sym = false /\
    position_history pm1 = position_history pm ++ [closed] /\
    side closed = side p /\
    open_position pm sym sd sz price oid now =
      (set_positions (<[sym := new]> (positions pm1)) pm1, Ok new) /\
    open_position pm sym sd sz price oid now = open_position pm1 sym sd sz price oid now /\
    side new = sd /\ size new = sz /\ entry_price new = price.
Proof.
  intros Hp Hs He Hsd.
  assert (Hh : has_position pm sym = true) by (apply has_position_true; eauto).
  pose proof (close_position_live pm sym p None now Hp Hs He) as Hc.
  cbv zeta in Hc.
  eexists _, _, _. split; [exact Hc|].
  assert (Hflat : has_position
     (mkPM (delete sym (positions pm)) (position_history pm ++
        [mkPosition (symbol p) (side p) (size p) (entry_price p)
           (default (current_price p) None) 0
           (realized p (default (current_price p) None)) (margin p)
           (realized p (default (current_price p) None) / (entry_price p * size p) * 100)
           now (order_id p)])
        (max_positions pm) (position_timeout pm)) sym = false).
  { unfold has_position. cbn [positions]. by rewrite lookup_delete_eq. }
  split; [cbn [positions]; apply lookup_delete_eq|].
  split; [exact Hflat|].
  split; [reflexivity|]. split; [reflexivity|].
  split; [|split].
  - unfold open_position at 1. rewrite Hh, Hp, decide_False by done.
    rewrite Hc. reflexivity.
  - rewrite (open_position_flat _ sym sd sz price oid now Hflat).
    unfold open_position at 1. rewrite Hh, Hp, decide_False by done.
    rewrite Hc. reflexivity.
  - repeat split.
Qed.

Lemma open_position_opposite_side_flips_witness :
  exists pm1 closed new,
    close_position long_manager "BTCUSDT" None 1 = (pm1, Ok (Some closed)) /\
    positions pm1 !! "BTCUSDT" = None /\
    open_position long_manager "BTCUSDT" SHORT 2 90 None 1 =
      (set_positions (<["BTCUSDT" := new]> (positions pm1)) pm1, Ok new) /\
    side closed = LONG /\ side new = SHORT.
Proof.
  destruct (open_position_opposite_side_flips long_manager "BTCUSDT" long_position
              SHORT 2 90 None 1 long_manager_lookup)
    as (pm1 & closed & new & H1 & H2 & _ & _ & H5 & H6 & _ & H8 & _);
    [reflexivity | by vm_compute | discriminate |].
  exists pm1, closed, new. repeat split; assumption.
Defined.

(** C3, the claim as written fails: [open_position] with the opposite side on
    a live LONG position leaves a live SHORT position under the symbol, and
    the caller has closed nothing. *)
Lemma open_position_opposite_side_counterexample :
  has_position long_manager "BTCUSDT" = true /\
  side <$> positions long_manager !! "BTCUSDT" = Some LONG /\
  let pm' := fst (open_position long_manager "BTCUSDT" SHORT 1 100 None 1) in
  has_position pm' "BTCUSDT" = true /\
  side <$> positions pm' !! "BTCUSDT" = Some SHORT /\
  side <$> position_history pm' = [LONG].
Proof. vm_compute. repeat split; reflexivity. Qed.

End PMFacts.

(** ** OrderExecutor *)

Module OEFacts.
Import OE.
Local Open Scope Q_scope.

Lemma ids_of_app (h : Heap) (l1 l2 : list loc) :
  ids_of h (l1 ++ l2) = ids_of h l1 ++ ids_of h l2.
Proof. unfold ids_of. apply omap_app. Qed.

(** Overwriting an order by one of the same id changes no id list. *)
Lemma ids_of_insert (h : Heap) (l : loc) (o o' : Ord.Order) (ls : list loc) :
  h !! l = Some o ->
  Ord.order_id o' = Ord.order_id o ->
  ids_of (<[l := o']> h) ls = ids_of h ls.
Proof.
  intros Hl Hid. unfold ids_of. induction ls as [|a ls IH]; [done|].
  cbn [omap list_omap]. rewrite IH.
  destruct (decide (l = a)) as [<-|Hne].
  - by rewrite lookup_insert_eq, Hl; cbn; rewrite Hid.
  - by rewrite lookup_insert_ne.
Qed.

Section WithWorld.
Context {W : Type}.
Implicit Types (st : State W) (cbs : Callbacks W).

Lemma places_ext st st' (id : string) :
  heap st = heap st' -> ex st = ex st' -> places st id = places st' id.
Proof.
  intros Hh He. unfold places, in_pending, in_completed, in_failed.
  by rewrite Hh, He.
Qed.

Lemma notify_quiet cbs st (l : loc) (out : result ExecutionResult) :
  quiet_callbacks cbs ->
  heap (notify cbs st l out) = heap st /\ ex (notify cbs st l out) = ex st.
Proof.
  intros [Hf Hx]. unfold notify, _safe_callback.
  destruct out as [r|e]; [|done].
  destruct (success r).
  - destruct (order_filled_callback cbs) as [cb|] eqn:E; [|done]. by apply Hf.
  - destruct (order_failed_callback cbs) as [cb|] eqn:E; [|done]. by apply Hx.
Qed.

Lemma in_pending_true st (id : string) :
  in_pending st id = true <-> is_Some (pending_orders (ex st) !! id).
Proof. unfold in_pending. apply bool_decide_eq_true. Qed.

Lemma in_pending_false st (id : string) :
  in_pending st id = false <-> pending_orders (ex st) !! id = None.
Proof.
  unfold in_pending. rewrite bool_decide_eq_false, <- eq_None_not_Some. done.
Qed.

(** The three memberships of a fresh id. *)
Lemma places_zero st (id : string) :
  places st id = 0%nat <->
  in_pending st id = false /\ in_completed st id = false /\ in_failed st id = false.
Proof.
  unfold places.
  destruct (in_pending st id), (in_completed st id), (in_failed st id);
    cbn; split; try done; intros (? & ? & ?); done.
Qed.

(** The state after the registration. *)
Lemma register_spec st (l : loc) (o : Ord.Order) :
  heap st !! l = Some o ->
  heap (register st l) = <[l := Ord.set_status PENDING o]> (heap st) /\
  pending_orders (ex (register st l)) = <[Ord.order_id o := l]> (pending_orders (ex st)) /\
  completed_orders (ex (register st l)) = completed_orders (ex st) /\
  failed_orders (ex (register st l)) = failed_orders (ex st) /\
  world (register st l) = world st.
Proof. intros Hl. unfold register. rewrite Hl. done. Qed.

(** [settle] files the order in exactly one list and writes a terminal
    status; the pending map is not touched. *)
Lemma settle_spec st (l : loc) (o : Ord.Order) (out : result ExecutionResult) :
  heap st !! l = Some o ->
  let filled := match out with Ok r => success r | Raise _ => false end in
  exists o',
    Ord.order_id o' = Ord.order_id o /\
    Ord.status o' = (if filled then FILLED else FAILED) /\
    heap (settle st l out) = <[l := o']> (heap st) /\
    pending_orders (ex (settle st l out)) = pending_orders (ex st) /\
    completed_orders (ex (settle st l out)) =
      (if filled then completed_orders (ex st) ++ [l] else completed_orders (ex st)) /\
    failed_orders (ex (settle st l out)) =
      (if filled then failed_orders (ex st) else failed_orders (ex st) ++ [l]) /\
    world (settle st l out) = world st.
Proof.
  intros Hl filled. unfold settle. rewrite Hl.
  destruct out as [r|e]; cbn in filled; subst filled.
  - destruct (success r);
      (eexists; split; [|split; [|split; [reflexivity|]]];
       [reflexivity | reflexivity | repeat split]).
  - eexists; split; [|split; [|split; [reflexivity|]]];
      [reflexivity | reflexivity | repeat split].
Qed.

(** C1 (amended). For an order whose id is filed nowhere when
    [execute_order] is called, and callbacks that leave the executor and the
    orders alone: after the registration the id is in the pending map only;
    from the moment the order is appended to the completed (on success) or
    failed list until it is removed from the pending map, which spans the
    whole run of the filled/failed callback, it is in two containers, the
    pending map and that list; when [execute_order] returns it is in exactly
    one, the completed or the failed list. *)
Theorem execute_order_filing cbs st (l : loc) (o : Ord.Order) (u : Q) (now : Time) :
  heap st !! l = Some o ->
  places st (Ord.order_id o) = 0%nat ->
  quiet_callbacks cbs ->
  let id := Ord.order_id o in
  let pts := execute_order_points cbs st l u now in
  let filled := success (snd (execute_order cbs st l u now)) in
  on_return pts = fst (execute_order cbs st l u now) /\
  (in_pending (registered pts) id = true /\ places (registered pts) id = 1%nat) /\
  (in_pending (at_callback pts) id = true /\
   in_completed (at_callback pts) id = filled /\
   in_failed (at_callback pts) id = negb filled /\
   places (at_callback pts) id = 2%nat) /\
  places (after_callback pts) id = 2%nat /\
  (in_pending (on_return pts) id = false /\
   in_completed (on_return pts) id = filled /\
   in_failed (on_return pts) id = negb filled /\
   places (on_return pts) id = 1%nat).
Proof.
  intros Hl Hfresh Hq id pts filled.
  apply places_zero in Hfresh as (Hp0 & Hc0 & Hf0).
  destruct (register_spec st l o Hl) as (Hh1 & Hp1 & Hc1 & Hf1 & _).
  assert (Hl0 : heap (register st l) !! l = Some (Ord.set_status PENDING o))
    by (rewrite Hh1; apply lookup_insert_eq).
  destruct (settle_spec (register st l) l _ (dispatch (register st l) l u now) Hl0)
    as (o' & Hid & _ & Hh2 & Hp2 & Hc2 & Hf2 & _).
  cbn [Ord.set_status Ord.order_id] in Hid. fold id in Hid, Hp1.
  destruct (notify_quiet cbs (settle (register st l) l (dispatch (register st l) l u now))
              l (dispatch (register st l) l u now) Hq) as (Hh3 & He3).
  subst pts filled. unfold execute_order_points, execute_order, resume.
  cbn [registered at_callback after_callback on_return fst snd].
  set (st0 := register st l) in *.
  set (out := dispatch st0 l u now) in *.
  set (st1 := settle st0 l out) in *.
  set (st2 := notify cbs st1 l out) in *.
  assert (Hfilled : success (returned (heap st2) l out now) =
                    match out with Ok r => success r | Raise _ => false end)
    by (by destruct out).
  rewrite Hfilled. clear Hfilled.
  set (filled := match out with Ok r => success r | Raise _ => false end) in *.
  (* the id lists at each point *)
  assert (I0 : forall ls, ids_of (heap st0) ls = ids_of (heap st) ls)
    by (intros ls; rewrite Hh1; by apply (ids_of_insert _ _ o)).
  assert (I1 : forall ls, ids_of (heap st1) ls = ids_of (heap st) ls).
  { intros ls. rewrite Hh2, <- I0. by apply (ids_of_insert _ _ (Ord.set_status PENDING o)). }
  assert (I1l : ids_of (heap st1) [l] = [id]).
  { unfold ids_of. cbn. rewrite Hh2, lookup_insert_eq. cbn. by rewrite Hid. }
  assert (Hnc : id ∉ ids_of (heap st) (completed_orders (ex st)))
    by (by apply bool_decide_eq_false in Hc0).
  assert (Hnf : id ∉ ids_of (heap st) (failed_orders (ex st)))
    by (by apply bool_decide_eq_false in Hf0).
  assert (P0 : in_pending st0 id = true).
  { apply in_pending_true. rewrite Hp1, lookup_insert_eq. eauto. }
  assert (C0 : in_completed st0 id = false).
  { unfold in_completed. rewrite Hc1, I0. by apply bool_decide_eq_false. }
  assert (F0 : in_failed st0 id = false).
  { unfold in_failed. rewrite Hf1, I0. by apply bool_decide_eq_false. }
  assert (P1 : in_pending st1 id = true).
  { apply in_pending_true. rewrite Hp2, Hp1, lookup_insert_eq. eauto. }
  assert (C1 : in_completed st1 id = filled).
  { unfold in_completed. rewrite Hc2, Hc1. destruct filled.
    - apply bool_decide_eq_true. rewrite ids_of_app, I1l. set_solver.
    - apply bool_decide_eq_false. by rewrite I1. }
  assert (F1 : in_failed st1 id = negb filled).
  { unfold in_failed. rewrite Hf2, Hf1. destruct filled; cbn.
    - apply bool_decide_eq_false. by rewrite I1.
    - apply bool_decide_eq_true. rewrite ids_of_app, I1l. set_solver. }
  assert (Hl2 : heap st2 !! l = Some o') by (rewrite Hh3, Hh2; apply lookup_insert_eq).
  assert (Hr : retire st2 l =
            set_ex (set_pending (delete id (pending_orders (ex st2))) (ex st2)) st2)
    by (unfold retire; by rewrite Hl2, Hid).
  assert (P3 : in_pending (retire st2 l) id = false).
  { apply in_pending_false. rewrite Hr. cbn. apply lookup_delete_eq. }
  assert (C3 : in_completed (retire st2 l) id = filled).
  { rewrite <- C1. unfold in_completed. rewrite Hr. cbn. by rewrite Hh3, He3. }
  assert (F3 : in_failed (retire st2 l) id = negb filled).
  { rewrite <- F1. unfold in_failed. rewrite Hr. cbn. by rewrite Hh3, He3. }
  assert (N1 : places st1 id = 2%nat)
    by (unfold places; rewrite P1, C1, F1; by destruct filled).
  split; [reflexivity|].
  split; [split; [exact P0 | unfold places; by rewrite P0, C0, F0]|].
  split; [by repeat split|].
  split; [by rewrite (places_ext st2 st1 id Hh3 He3)|].
  split; [exact P3|]. split; [exact C3|]. split; [exact F3|].
  unfold places. rewrite P3, C3, F3. by destruct filled.
Qed.

End WithWorld.

Import Scenario.

Lemma main_callbacks_quiet (now : Time) : quiet_callbacks (Main.callbacks now).
Proof.
  split; intros cb [= <-] st l r.
  - unfold Main._on_order_filled.
    destruct (heap st !! l) as [o|]; [|done]. by destruct (Ord.side o).
  - done.
Qed.

Lemma system1_order : heap system1 !! 0%nat = Some buy_order.
Proof. reflexivity. Qed.

Lemma system0_order : heap system0 !! 0%nat = Some buy_order.
Proof. reflexivity. Qed.

Lemma execute_order_filing_witness :
  let pts := execute_order_points (Main.callbacks 1) system1 0%nat (1 # 2) 1 in
  places system1 "BTCUSDT_1" = 0%nat /\
  places (registered pts) "BTCUSDT_1" = 1%nat /\
  places (at_callback pts) "BTCUSDT_1" = 2%nat /\
  places (on_return pts) "BTCUSDT_1" = 1%nat /\
  in_completed (on_return pts) "BTCUSDT_1" = true.
Proof.
  assert (H0 : places system1 "BTCUSDT_1" = 0%nat) by (vm_compute; reflexivity).
  destruct (execute_order_filing (Main.callbacks 1) system1 0%nat buy_order (1 # 2) 1
              system1_order H0 (main_callbacks_quiet 1))
    as (_ & (_ & H1) & (_ & _ & _ & H2) & _ & (_ & H3 & _ & H4)).
  cbv zeta.
  split; [exact H0|]. split; [exact H1|]. split; [exact H2|]. split; [exact H4|].
  etrans; [exact H3 | vm_compute; reflexivity].
Defined.

(** C1, the claim as written fails: when the filled callback is entered the
    id of the order is both in the pending map and in the completed list. *)
Lemma execute_order_filing_counterexample :
  let pts := execute_order_points (Main.callbacks 1) system1 0%nat (1 # 2) 1 in
  in_pending (at_callback pts) "BTCUSDT_1" = true /\
  in_completed (at_callback pts) "BTCUSDT_1" = true /\
  ~ at_most_one_place (at_callback pts) "BTCUSDT_1".
Proof.
  cbv zeta. split; [vm_compute; reflexivity|]. split; [vm_compute; reflexivity|].
  unfold at_most_one_place.
  replace (places _ _) with 2%nat by (vm_compute; reflexivity). lia.
Qed.

(** [execute_order] resets the status of whatever order it is given. *)
Lemma register_resets_status {W : Type} (st : State W) (l : loc) (o : Ord.Order) :
  heap st !! l = Some o ->
  status_at (heap (register st l)) l = Some PENDING.
Proof.
  intros Hl. destruct (register_spec st l o Hl) as (-> & _).
  unfold status_at. by rewrite lookup_insert_eq.
Qed.

(** C2, the code at the failing interleaving.  In simulation mode, an order
    cancelled while [execute_order] is suspended in the simulated latency is
    CANCELLED, a terminal state; when the execution resumes with a successful
    draw the status is overwritten with FILLED and the order is filed as
    completed. *)
Theorem cancel_during_execution_is_overwritten {W : Type} (cbs : Callbacks W)
    (st : State W) (l : loc) (o : Ord.Order) (u : Q) (now : Time) :
  heap st !! l = Some o ->
  quiet_callbacks cbs ->
  simulation_mode (ex st) = true ->
  u < 95 # 100 ->
  let st1 := register st l in
  let st2 := fst (cancel_order st1 (Ord.order_id o)) in
  let st3 := fst (resume cbs st2 l u now) in
  snd (cancel_order st1 (Ord.order_id o)) = true /\
  status_at (heap st2) l = Some CANCELLED /\
  terminal CANCELLED = true /\
  status_at (heap st3) l = Some FILLED /\
  l ∈ completed_orders (ex st3).
Proof.
  intros Hl Hq Hsim Hu st1 st2 st3.
  destruct (register_spec st l o Hl) as (Hh1 & Hp1 & Hc1 & Hf1 & _).
  assert (Hsim1 : simulation_mode (ex st1) = true).
  { subst st1. unfold register. by rewrite Hl. }
  assert (Hc : cancel_order st1 (Ord.order_id o) =
    (mkState (alter (Ord.set_status CANCELLED) l (heap st1))
       (set_pending (delete (Ord.order_id o) (pending_orders (ex st1))) (ex st1))
       (world st1), true)).
  { unfold cancel_order. fold st1 in Hp1. by rewrite Hp1, lookup_insert_eq, Hsim1. }
  assert (Hl2 : heap st2 !! l =
                Some (Ord.set_status CANCELLED (Ord.set_status PENDING o))).
  { subst st2. rewrite Hc. cbn [fst heap]. fold st1 in Hh1.
    by rewrite lookup_alter_eq, Hh1, lookup_insert_eq. }
  assert (Hsim2 : simulation_mode (ex st2) = true).
  { subst st2. rewrite Hc. exact Hsim1. }
  assert (Hout : exists r, dispatch st2 l u now = Ok r /\ success r = true).
  { unfold dispatch. rewrite Hl2, Hsim2. eexists. split; [reflexivity|].
    unfold _execute_order_simulation.
    apply Qltb_lt in Hu. by rewrite Hu. }
  destruct Hout as (r & Hout & Hr).
  destruct (settle_spec st2 l _ (Ok r) Hl2)
    as (o' & Hid & Hst & Hh2 & _ & Hc2 & _).
  destruct (notify_quiet cbs (settle st2 l (Ok r)) l (Ok r) Hq) as (Hh3 & He3).
  rewrite Hr in Hst, Hc2.
  assert (H3 : heap st3 !! l = Some o' /\
               completed_orders (ex st3) = completed_orders (ex st2) ++ [l]).
  { subst st3. unfold resume. cbn [fst]. rewrite Hout. unfold retire.
    rewrite Hh3, Hh2, lookup_insert_eq.
    cbn [set_ex set_pending heap ex completed_orders].
    by rewrite Hh3, Hh2, lookup_insert_eq, He3, Hc2. }
  destruct H3 as (H3 & H3c).
  split; [by rewrite Hc|]. split; [unfold status_at; by rewrite Hl2|].
  split; [done|]. split; [unfold status_at; by rewrite H3, <- Hst|].
  rewrite H3c. set_solver.
Qed.

Lemma cancel_during_execution_is_overwritten_witness :
  let st1 := register system0 0%nat in
  let st2 := fst (cancel_order st1 "BTCUSDT_1") in
  let st3 := fst (resume (Main.callbacks 1) st2 0%nat (1 # 2) 1) in
  status_at (heap st2) 0%nat = Some CANCELLED /\
  status_at (heap st3) 0%nat = Some FILLED /\
  0%nat ∈ completed_orders (ex st3).
Proof.
  destruct (cancel_during_execution_is_overwritten (Main.callbacks 1) system0 0%nat
              buy_order (1 # 2) 1 system0_order (main_callbacks_quiet 1))
    as (_ & H2 & _ & H4 & H5); [reflexivity | reflexivity |].
  cbv zeta. split; [exact H2|]. split; [exact H4 | exact H5].
Defined.

(** [cancel_order] has no guard on the status: called from the filled
    callback, where the order is FILLED and still in the pending map, it
    turns the order CANCELLED, and the completed list ends up holding a
    cancelled order. *)
Lemma cancel_from_callback_overwrites_filled :
  let pts := execute_order_points cancelling_callbacks system0 0%nat (1 # 2) 1 in
  status_at (heap (at_callback pts)) 0%nat = Some FILLED /\
  status_at (heap (on_return pts)) 0%nat = Some CANCELLED /\
  completed_orders (ex (on_return pts)) = [0%nat].
Proof. vm_compute. repeat split; reflexivity. Qed.

(** The executor cancels only what its pending map holds. *)
Lemma cancel_order_not_pending {W : Type} (st : State W) (id : string) :
  pending_orders (ex st) !! id = None ->
  cancel_order st id = (st, false).
Proof. intros H. unfold cancel_order. by rewrite H. Qed.

End OEFacts.

(** ** MockExchangeConnector *)

Module MXFacts.
Import MX.

(** The mock venue cancels PENDING orders only: an order in a terminal state
    keeps its status through [cancel_order]. *)
Lemma cancel_order_keeps_terminal (mx : MockExchangeConnector) (sym id : string)
    (l : loc) (o : Ord.Order) :
  heap mx !! l = Some o ->
  terminal (Ord.status o) = true ->
  status_at (heap (fst (cancel_order mx sym id))) l = Some (Ord.status o).
Proof.
  intros Hl Ht. unfold cancel_order, status_at.
  destruct (mock_orders mx !! id) as [l'|]; [|cbn [fst]; by rewrite Hl].
  destruct (heap mx !! l') as [o'|] eqn:Hl'; [|cbn [fst]; by rewrite Hl].
  destruct (decide (Ord.status o' = PENDING)) as [Hp|]; [|cbn [fst]; by rewrite Hl].
  cbn [fst heap]. destruct (decide (l' = l)) as [->|Hne].
  - rewrite Hl in Hl'. injection Hl' as ->. by rewrite Hp in Ht.
  - by rewrite lookup_insert_ne, Hl.
Qed.

(** A market order comes back from [create_order] FILLED, a limit order
    PENDING. *)
Lemma create_order_status (mx : MockExchangeConnector) (sym : string)
    (sd : OrderSide) (ty : OrderType) (qty : Q) (pr : option Q) (now : Time) :
  let '(mx', l) := create_order mx sym sd ty qty pr now in
  status_at (heap mx') l = Some (match ty with MARKET => FILLED | LIMIT => PENDING end).
Proof.
  unfold create_order, create_order_begin, create_order_finish, status_at.
  destruct ty; cbn [heap].
  - by rewrite lookup_alter_eq, lookup_insert_eq.
  - by rewrite lookup_insert_eq.
Qed.

End MXFacts.

(** ** RiskManager *)

Module RMFacts.
Import RM Scenario.
Local Open Scope Q_scope.

Lemma run_op_drawdown (rm : RiskManager) (o : op) :
  current_drawdown (run_op rm o) = current_drawdown rm /\
  max_drawdown_percentage (run_op rm o) = max_drawdown_percentage rm.
Proof. by destruct o. Qed.

Lemma run_ops_drawdown (os : list op) (rm : RiskManager) :
  current_drawdown (run_ops rm os) = current_drawdown rm /\
  max_drawdown_percentage (run_ops rm os) = max_drawdown_percentage rm.
Proof.
  unfold run_ops. revert rm. induction os as [|o os IH]; intros rm; [done|].
  cbn [fold_left]. destruct (IH (run_op rm o)) as [-> ->]. apply run_op_drawdown.
Qed.

Lemma validate_signal_drawdown (rm : RiskManager) (sig : Signal)
    (acc : AccountInfo) (pos : option Position) :
  max_drawdown_percentage rm < current_drawdown rm ->
  validate_signal rm sig acc pos = false.
Proof.
  intros Hd. unfold validate_signal.
  destruct (negb (trading_enabled rm)); [done|].
  destruct (max_trades_per_day rm <=? trades_today rm)%Z; [done|].
  apply Qltb_lt in Hd. by rewrite Hd.
Qed.

(** C4 (amended). In every state where the current drawdown exceeds
    [max_drawdown_percentage], [validate_signal] returns false for every
    signal, and it keeps returning false through any sequence of
    [reset_daily_stats], [enable_trading], [disable_trading] and
    [record_trade]: none of them changes the drawdown, which only
    [update_account_info] recomputes. *)
Theorem drawdown_blocks_signals (rm : RiskManager) (os : list op) (sig : Signal)
    (acc : AccountInfo) (pos : option Position) :
  max_drawdown_percentage rm < current_drawdown rm ->
  validate_signal rm sig acc pos = false /\
  current_drawdown (run_ops rm os) = current_drawdown rm /\
  validate_signal (run_ops rm os) sig acc pos = false.
Proof.
  intros Hd. destruct (run_ops_drawdown os rm) as [Hc Hm].
  split; [by apply validate_signal_drawdown|]. split; [exact Hc|].
  apply validate_signal_drawdown. by rewrite Hc, Hm.
Qed.

Lemma drawdown_blocks_signals_witness :
  max_drawdown_percentage drawdown_manager < current_drawdown drawdown_manager /\
  validate_signal
    (run_ops drawdown_manager [OpResetDailyStats; OpEnableTrading])
    (buy_signal 1) (account 8000) None = false.
Proof.
  assert (H : max_drawdown_percentage drawdown_manager < current_drawdown drawdown_manager)
    by (vm_compute; reflexivity).
  split; [exact H|].
  exact (proj2 (proj2 (drawdown_blocks_signals drawdown_manager
                         [OpResetDailyStats; OpEnableTrading]
                         (buy_signal 1) (account 8000) None H))).
Defined.

(** C4, the claim as written fails on both counts: after
    [reset_daily_stats] (and a re-enable) no signal validates, the drawdown
    being what it was; and without any reset signals validate again as soon
    as an account update reports the balance back at its peak. *)
Lemma drawdown_reset_counterexample :
  max_drawdown_percentage drawdown_manager < current_drawdown drawdown_manager /\
  (forall sig acc pos,
     validate_signal (reset_daily_stats drawdown_manager) sig acc pos = false) /\
  (forall sig acc pos,
     validate_signal (enable_trading (reset_daily_stats drawdown_manager)) sig acc pos
       = false) /\
  (forall sig acc pos,
     validate_signal (update_account_info drawdown_manager (account 10000)) sig acc pos
       = true).
Proof.
  split; [vm_compute; reflexivity|].
  repeat split; intros sig acc pos; vm_compute; reflexivity.
Qed.

(** Case analysis on the result of a [max] or a [min]. *)
Ltac name_minmax t spec :=
  let x := fresh "m" in
  destruct spec as [[? ?]|[? ?]]; set (x := t) in *; clearbody x.

Ltac split_minmax :=
  repeat match goal with
  | |- context [Qmax ?a ?b] => name_minmax (Qmax a b) (Q.max_spec a b)
  | |- context [Qmin ?a ?b] => name_minmax (Qmin a b) (Q.min_spec a b)
  | _ : context [Qmax ?a ?b] |- _ => name_minmax (Qmax a b) (Q.max_spec a b)
  | _ : context [Qmin ?a ?b] |- _ => name_minmax (Qmin a b) (Q.min_spec a b)
  end.

(** C5 (amended). [calculate_position_size] raises
    available_balance * max_position_percentage * strength to
    [min_position_size] and then caps it at available_balance * 0.95 and at
    available_balance * max_leverage.  The caps come last: the result never
    exceeds either, and it is at least [min_position_size] when both caps
    are.  With available_balance 10000, max_position_percentage 0.95,
    max_leverage 20 and strength 0.5 the raw size is 4750 and the result is
    min(max(4750, min_position_size), 9500); it is 4750, inside
    [min_position_size, min(4750, 9500)], when min_position_size is at most
    4750. *)
Theorem calculate_position_size_clamp (rm : RiskManager) (sig : Signal)
    (acc : AccountInfo) :
  let a := available_balance acc in
  let raw := a * max_position_percentage rm * strength sig in
  let r := calculate_position_size rm sig acc in
  r == Qmin (Qmin (Qmax raw (min_position_size rm)) (a * (95 # 100))) (a * max_leverage rm) /\
  r <= a * (95 # 100) /\
  r <= a * max_leverage rm /\
  (min_position_size rm <= a * (95 # 100) ->
   min_position_size rm <= a * max_leverage rm ->
   min_position_size rm <= r) /\
  (a == 10000 -> max_position_percentage rm == 95 # 100 ->
   max_leverage rm == 20 -> strength sig == 1 # 2 ->
   raw == 4750 /\
   r == Qmin (Qmax 4750 (min_position_size rm)) 9500 /\
   (min_position_size rm <= 4750 ->
    r == 4750 /\ min_position_size rm <= r /\ r <= Qmin 4750 9500)).
Proof.
  intros a raw r. subst r. unfold calculate_position_size. fold a. fold raw.
  split; [reflexivity|].
  split; [|split; [|split]].
  - generalize (a * max_leverage rm). intros c. split_minmax; lra.
  - apply Q.le_min_r.
  - generalize (a * max_leverage rm). intros c H1 H2. split_minmax; lra.
  - intros Ha Hm Hl Hs.
    assert (Hraw : raw == 4750) by (subst raw; rewrite Ha, Hm, Hs; reflexivity).
    assert (Hc : a * max_leverage rm == 200000) by (rewrite Ha, Hl; reflexivity).
    split; [exact Hraw|].
    revert Hraw Hc. generalize raw (a * max_leverage rm). intros x c Hx Hc.
    split; [|intros Hmin; split; [|split]]; split_minmax; lra.
Qed.

Lemma calculate_position_size_clamp_witness :
  let r := calculate_position_size default_risk_manager (buy_signal (1 # 2))
             (account_available 10000) in
  r == 4750 /\ min_position_size default_risk_manager <= r /\ r <= Qmin 4750 9500.
Proof.
  destruct (calculate_position_size_clamp default_risk_manager (buy_signal (1 # 2))
              (account_available 10000)) as (_ & _ & _ & _ & H).
  destruct H as (_ & _ & H); [reflexivity .. |].
  apply H. by vm_compute.
Defined.

(** C5, the claim as written fails: with the default configuration and an
    available balance of 5 the result is 4.75, below [min_position_size]
    (10); and in the worked example a [min_position_size] of 5000 gives 5000,
    above min(4750, 9500). *)
Lemma calculate_position_size_counterexample :
  ~ (min_position_size default_risk_manager <=
       calculate_position_size default_risk_manager (buy_signal 1) (account_available 5)) /\
  ~ (calculate_position_size (risk_manager_min 5000) (buy_signal (1 # 2))
       (account_available 10000) <= Qmin 4750 9500).
Proof. split; by vm_compute. Qed.





End RMFacts.

(** ** ConfigLoader *)

Module CLFacts.
Import CL Scenario.
Local Open Scope Q_scope.

Lemma bind_Ok {A B : Type} (r : result A) (k : A -> result B) (b : B) :
  r ≫= k = Ok b -> exists a, r = Ok a /\ k a = Ok b.
Proof. destruct r; [eauto | discriminate]. Qed.

Lemma require_unit_interval_Ok (v : Val) (msg : string) :
  require_unit_interval v msg = Ok tt -> in_unit_interval v.
Proof.
  unfold require_unit_interval, in_unit_interval.
  destruct (as_number v) as [x|]; [|discriminate].
  destruct (Qltb 0 x) eqn:E1; [|discriminate].
  destruct (Qleb x 1) eqn:E2; [|discriminate].
  intros _. exists x. by rewrite <- Qltb_lt, <- Qleb_le.
Qed.

(** A checked field is present: the default 0 of [get] fails the check. *)
Lemma in_unit_interval_get (d : gmap string Val) (key : string) :
  in_unit_interval (get d key (VNum 0)) ->
  exists v, d !! key = Some v /\ in_unit_interval v.
Proof.
  unfold get. destruct (d !! key) as [v|]; [eauto|].
  intros (x & [= <-] & H & _). by apply Qlt_irrefl in H.
Qed.

Lemma dataclass_Ok (fields : list string) (d d' : gmap string Val) :
  dataclass fields d = Ok d' -> d' = d.
Proof. unfold dataclass. case_bool_decide; [by intros [= <-] | discriminate]. Qed.

(** C9 (amended). Loading a configuration succeeds only if
    [trading.max_position_percentage] and, in the risk section,
    [max_position_percentage], [max_daily_loss_percentage] and
    [stop_loss_percentage] are present and lie in (0,1]; the loader does not
    check [max_drawdown_percentage] and [take_profit_percentage]. *)
Theorem load_config_checked_percentages (config_data : ConfigData)
    (c : LiveTradingConfig) :
  load_config config_data = Ok c ->
  (exists v, trading c !! "max_position_percentage" = Some v /\ in_unit_interval v) /\
  (exists v, risk_management c !! "max_position_percentage" = Some v /\
             in_unit_interval v) /\
  (exists v, risk_management c !! "max_daily_loss_percentage" = Some v /\
             in_unit_interval v) /\
  (exists v, risk_management c !! "stop_loss_percentage" = Some v /\
             in_unit_interval v).
Proof.
  unfold load_config. intros H.
  apply bind_Ok in H as ([] & Hv & Hc).
  (* the sections of the result are those of the document *)
  unfold _create_config_objects in Hc.
  apply bind_Ok in Hc as (c1 & E1 & Hc). apply dataclass_Ok in E1 as ->.
  apply bind_Ok in Hc as (c2 & _ & Hc).
  apply bind_Ok in Hc as (c3 & E3 & Hc). apply dataclass_Ok in E3 as ->.
  apply bind_Ok in Hc as (c4 & _ & Hc).
  apply bind_Ok in Hc as (c5 & _ & Hc).
  apply bind_Ok in Hc as (c6 & _ & Hc).
  apply bind_Ok in Hc as (c7 & _ & Hc).
  apply bind_Ok in Hc as (c8 & _ & Hc).
  apply bind_Ok in Hc as (c9 & _ & Hc).
  injection Hc as <-. cbn [trading risk_management].
  (* the checks that were passed *)
  unfold _validate_config in Hv.
  apply bind_Ok in Hv as ([] & _ & Hv).
  apply bind_Ok in Hv as ([] & _ & Hv).
  apply bind_Ok in Hv as ([] & T1 & Hv).
  apply bind_Ok in Hv as ([] & _ & Hv).
  apply bind_Ok in Hv as (slow & _ & Hv).
  apply bind_Ok in Hv as (fast & _ & Hv).
  apply bind_Ok in Hv as ([] & _ & Hv).
  apply bind_Ok in Hv as ([] & R1 & Hv).
  apply bind_Ok in Hv as ([] & R2 & Hv).
  apply bind_Ok in Hv as ([] & R3 & _).
  repeat split; apply in_unit_interval_get; eapply require_unit_interval_Ok; eassumption.
Qed.

Lemma load_config_checked_percentages_witness :
  exists c,
    load_config default_config = Ok c /\
    exists v, risk_management c !! "stop_loss_percentage" = Some v /\ in_unit_interval v.
Proof.
  destruct (load_config default_config) as [c|e] eqn:E; [|by vm_compute in E].
  exists c. split; [reflexivity|].
  exact (proj2 (proj2 (proj2 (load_config_checked_percentages default_config c E)))).
Defined.

(** C9, the claim as written fails: a document whose
    [take_profit_percentage] is 5 and whose [max_drawdown_percentage] is 2,
    both outside (0,1], loads without an error. *)
Lemma load_config_counterexample :
  section wide_config "risk_management" !! "take_profit_percentage" = Some (VNum 5) /\
  section wide_config "risk_management" !! "max_drawdown_percentage" = Some (VNum 2) /\
  ~ in_unit_interval (VNum 5) /\
  ~ in_unit_interval (VNum 2) /\
  exists c, load_config wide_config = Ok c /\
            risk_management c !! "take_profit_percentage" = Some (VNum 5) /\
            risk_management c !! "max_drawdown_percentage" = Some (VNum 2).
Proof.
  split; [vm_compute; reflexivity|]. split; [vm_compute; reflexivity|].
  split; [intros (x & [= <-] & _ & H); by vm_compute in H|].
  split; [intros (x & [= <-] & _ & H); by vm_compute in H|].
  destruct (load_config wide_config) as [c|e] eqn:E; [|by vm_compute in E].
  exists c. split; [reflexivity|].
  unfold load_config in E. apply bind_Ok in E as ([] & _ & Hc).
  unfold _create_config_objects in Hc.
  apply bind_Ok in Hc as (c1 & _ & Hc).
  apply bind_Ok in Hc as (c2 & _ & Hc).
  apply bind_Ok in Hc as (c3 & E3 & Hc). apply dataclass_Ok in E3 as ->.
  apply bind_Ok in Hc as (c4 & _ & Hc).
  apply bind_Ok in Hc as (c5 & _ & Hc).
  apply bind_Ok in Hc as (c6 & _ & Hc).
  apply bind_Ok in Hc as (c7 & _ & Hc).
  apply bind_Ok in Hc as (c8 & _ & Hc).
  apply bind_Ok in Hc as (c9 & _ & Hc).
  injection Hc as <-. cbn [risk_management].
  split; vm_compute; reflexivity.
Qed.

End CLFacts.

(** ** The executor with the position manager behind its callback *)

Module SystemFacts.
Import Scenario.
Local Open Scope Q_scope.

(** C8, the claim as written fails: the order that opens the LONG position
    of size 1 at 100 is charged a commission of 0.1, yet closing the position
    at 100 realizes 0, not minus the commission. *)
Lemma round_trip_commission_counterexample :
  exists o p pm' closed,
    OE.heap system_after_buy !! 0%nat = Some o /\
    Ord.status o = FILLED /\
    Ord.commission o == 1 # 10 /\
    PM.positions (OE.world system_after_buy) !! "BTCUSDT" = Some p /\
    side p = LONG /\ size p == 1 /\ entry_price p == 100 /\
    PM.close_position (OE.world system_after_buy) "BTCUSDT" (Some 100) 2 =
      (pm', Ok (Some closed)) /\
    realized_pnl closed == 0 /\
    ~ realized_pnl closed == - Ord.commission o.
Proof.
  eexists _, _, _, _.
  split; [vm_compute; reflexivity|]. split; [reflexivity|]. split; [by vm_compute|].
  split; [vm_compute; reflexivity|]. split; [reflexivity|].
  split; [by vm_compute|]. split; [by vm_compute|].
  split; [vm_compute; reflexivity|]. split; by vm_compute.
Qed.

End SystemFacts.

(** ** The worked examples on binary64 floats *)

Module F64Facts.
Import F64.
Local Open Scope float_scope.
Set Warnings "-inexact-float".

(** Stop-loss boundary: (98 - 100) / 100 rounds to the float of -0.02. *)
Lemma stop_loss_boundary_binary64 :
  should_force_close_position 0.02 0.06 LONG 100 98 = Ok true /\
  should_force_close_position 0.02 0.06 LONG 100 99 = Ok false.
Proof. split; reflexivity. Qed.

Lemma weighted_average_binary64 : new_entry_price 1 100 1 120 = Ok 110.
Proof. reflexivity. Qed.

Lemma sizing_binary64 : calculate_position_size 0.95 10 20 10000 0.5 = 4750.
Proof. reflexivity. Qed.

Lemma round_trip_binary64 : realized_long 1 100 100 = 0.
Proof. reflexivity. Qed.

End F64Facts.

(** ** PositionManager: reducing, pricing, cleaning up *)

Module PMxFacts.
Import PM PMx.
Local Open Scope Q_scope.

Lemma three_symbols_btc :
  positions three_symbols !! "BTCUSDT" =
    Some (mkPosition "BTCUSDT" LONG 2 100 100 0 0 2 0 0 (Some "BTCUSDT_1")).
Proof. vm_compute. reflexivity. Qed.

(** X1. Reducing a live position by less than its size keeps it live: the
    size and the margin go down by [reduce_size], the PnL of the part given
    up, (price - entry) * reduce_size for LONG and mirrored for SHORT, is
    added to the realized PnL of the live record, the entry price stays, and
    nothing is written to the history. *)
Theorem reduce_position_partial (pm : PositionManager) (sym : string) (p : Position)
    (reduce_size price : Q) (now : Time) :
  positions pm !! sym = Some p ->
  reduce_size < size p ->
  0 < size p ->
  exists p',
    reduce_position pm sym reduce_size price now =
      (set_positions (<[sym := p']> (positions pm)) pm, Ok (Some p')) /\
    size p' = size p - reduce_size /\
    0 < size p' /\
    margin p' = margin p - reduce_size /\
    entry_price p' = entry_price p /\
    side p' = side p /\
    unrealized_pnl p' = unrealized_pnl p /\
    realized_pnl p' =
      realized_pnl p +
      match side p with
      | LONG => (price - entry_price p) * reduce_size
      | SHORT => (entry_price p - price) * reduce_size
      end /\
    has_position (fst (reduce_position pm sym reduce_size price now)) sym = true /\
    position_history (fst (reduce_position pm sym reduce_size price now)) =
      position_history pm.
Proof.
  intros Hp Hlt Hs.
  assert (Hh : has_position pm sym = true) by (apply PMFacts.has_position_true; eauto).
  assert (Hr : Qleb (size p) reduce_size = false) by (by apply Qleb_gt).
  unfold reduce_position. rewrite Hh, Hp, Hr. cbn [negb fst].
  eexists. split; [reflexivity|]. cbn [size margin entry_price side unrealized_pnl
    realized_pnl position_history set_positions].
  repeat split; try reflexivity.
  - lra.
  - unfold has_position, set_positions. cbn [positions].
    rewrite lookup_insert_eq. cbn [size]. apply Qltb_lt. lra.
Qed.

Lemma reduce_position_partial_witness :
  exists p',
    reduce_position three_symbols "BTCUSDT" (1 # 2) 110 5 =
      (set_positions (<["BTCUSDT" := p']> (positions three_symbols)) three_symbols,
       Ok (Some p')) /\
    size p' == 3 # 2 /\ realized_pnl p' == 5 /\ entry_price p' == 100.
Proof.
  destruct (reduce_position_partial three_symbols "BTCUSDT" _ (1 # 2) 110 5
              three_symbols_btc) as (p' & H1 & H2 & _ & _ & H5 & _ & _ & H8 & _);
    [reflexivity | reflexivity |].
  exists p'. split; [exact H1|]. rewrite H2, H5, H8. by vm_compute.
Defined.

(** X2. Reducing a live position by its size or more closes it: the call is
    [close_position] at the given price, and (the entry price not being
    zero) it realizes the PnL of the size held, not of [reduce_size], files
    the closed record and removes the entry. *)
Theorem reduce_position_full (pm : PositionManager) (sym : string) (p : Position)
    (reduce_size price : Q) (now : Time) :
  positions pm !! sym = Some p ->
  0 < size p ->
  size p <= reduce_size ->
  ~ entry_price p == 0 ->
  exists closed,
    reduce_position pm sym reduce_size price now =
      close_position pm sym (Some price) now /\
    reduce_position pm sym reduce_size price now =
      (mkPM (delete sym (positions pm)) (position_history pm ++ [closed])
            (max_positions pm) (position_timeout pm), Ok (Some closed)) /\
    size closed = size p /\
    current_price closed = price /\
    realized_pnl closed =
      match side p with
      | LONG => (price - entry_price p) * size p
      | SHORT => (entry_price p - price) * size p
      end.
Proof.
  intros Hp Hs Hle He.
  assert (Hh : has_position pm sym = true) by (apply PMFacts.has_position_true; eauto).
  assert (Hr : Qleb (size p) reduce_size = true) by (by apply Qleb_le).
  assert (Heq : reduce_position pm sym reduce_size price now =
                close_position pm sym (Some price) now).
  { unfold reduce_position. by rewrite Hh, Hp, Hr. }
  eexists. split; [exact Heq|]. rewrite Heq.
  split; [apply (PMFacts.close_position_live pm sym p (Some price) now Hp Hs He)|].
  repeat split.
Qed.

Lemma reduce_position_full_witness :
  exists closed,
    reduce_position three_symbols "BTCUSDT" 5 110 5 =
      (mkPM (delete "BTCUSDT" (positions three_symbols))
            (position_history three_symbols ++ [closed])
            (max_positions three_symbols) (position_timeout three_symbols),
       Ok (Some closed)) /\
    size closed == 2 /\ realized_pnl closed == 20.
Proof.
  destruct (reduce_position_full three_symbols "BTCUSDT" _ 5 110 5 three_symbols_btc)
    as (c & _ & H2 & H3 & _ & H5); [reflexivity | by vm_compute | by vm_compute |].
  exists c. split; [exact H2|]. rewrite H3, H5. by vm_compute.
Defined.

(** X3. A live position whose entry price is zero cannot be closed:
    [close_position] raises ZeroDivisionError after it has overwritten the
    realized and unrealized PnL of the live record; the record stays in the
    table, live, and the history is not extended.  [open_position] with the
    opposite side raises the same way and opens nothing. *)
Theorem close_position_zero_entry (pm : PositionManager) (sym : string) (p : Position)
    (cp : option Q) (sd : PositionSide) (sz price : Q) (oid : option string) (now : Time) :
  positions pm !! sym = Some p ->
  0 < size p ->
  entry_price p == 0 ->
  side p <> sd ->
  exists p1,
    close_position pm sym cp now =
      (set_positions (<[sym := p1]> (positions pm)) pm, Raise ZeroDivisionError) /\
    size p1 = size p /\ unrealized_pnl p1 = 0 /\
    has_position (fst (close_position pm sym cp now)) sym = true /\
    position_history (fst (close_position pm sym cp now)) = position_history pm /\
    snd (open_position pm sym sd sz price oid now) = Raise ZeroDivisionError /\
    side <$> positions (fst (open_position pm sym sd sz price oid now)) !! sym =
      Some (side p).
Proof.
  intros Hp Hs He Hsd.
  assert (Hh : has_position pm sym = true) by (apply PMFacts.has_position_true; eauto).
  assert (Hz : entry_price p * size p == 0) by (rewrite He; ring).
  assert (Hc : forall cp', exists p1,
    close_position pm sym cp' now =
      (set_positions (<[sym := p1]> (positions pm)) pm, Raise ZeroDivisionError) /\
    size p1 = size p /\ unrealized_pnl p1 = 0 /\ side p1 = side p).
  { intros cp'. unfold close_position. rewrite Hh, Hp. cbn [negb].
    rewrite (py_div_zero _ _ Hz). eexists. split; [reflexivity|]. by repeat split. }
  destruct (Hc cp) as (p1 & E1 & S1 & U1 & _).
  destruct (Hc None) as (p2 & E2 & S2 & _ & D2).
  exists p1. split; [exact E1|]. split; [exact S1|]. split; [exact U1|].
  rewrite E1. unfold set_positions. cbn [fst position_history].
  split.
  { unfold has_position. cbn [positions]. rewrite lookup_insert_eq, S1.
    by apply Qltb_lt. }
  split; [reflexivity|].
  unfold open_position. rewrite Hh, Hp, decide_False by done. rewrite E2.
  unfold set_positions. cbn [fst snd positions]. split; [reflexivity|].
  by rewrite lookup_insert_eq; cbn; rewrite D2.
Qed.

Lemma close_position_zero_entry_witness :
  snd (close_position zero_entry_manager "BTCUSDT" (Some 10) 1) = Raise ZeroDivisionError /\
  has_position (fst (close_position zero_entry_manager "BTCUSDT" (Some 10) 1)) "BTCUSDT"
    = true /\
  snd (open_position zero_entry_manager "BTCUSDT" SHORT 1 10 None 1)
    = Raise ZeroDivisionError.
Proof.
  destruct (close_position_zero_entry zero_entry_manager "BTCUSDT"
              (mkPosition "BTCUSDT" LONG 1 0 0 0 0 1 0 0 None)
              (Some 10) SHORT 1 10 None 1)
    as (p1 & H1 & _ & _ & H4 & _ & H6 & _);
    [vm_compute; reflexivity | reflexivity | reflexivity | discriminate |].
  split; [by rewrite H1|]. split; [exact H4 | exact H6].
Defined.

(** The shape of what each call does, used for the frame and the invariants. *)
Lemma close_position_step (pm : PositionManager) (sym : string) (cp : option Q)
    (now : Time) :
  step_on sym pm (fst (close_position pm sym cp now)).
Proof.
  unfold step_on, close_position.
  destruct (has_position pm sym); cbn [negb].
  2:{ cbn. split; [by left|]. split; [by exists []; rewrite app_nil_r|done]. }
  destruct (positions pm !! sym) as [p|] eqn:Hp.
  2:{ cbn. split; [by left|]. split; [by exists []; rewrite app_nil_r|done]. }
  destruct (py_div _ _); cbn.
  - split; [right; by left|]. split; [eauto|done].
  - split; [right; right; eexists; split; [reflexivity|intros Hk; exact (Hk _ _ Hp)]|].
    split; [by exists []; rewrite app_nil_r|done].
Qed.

Lemma add_to_position_step (pm : PositionManager) (sym : string)
    (additional_size price : Q) (oid : option string) (now : Time) :
  step_on sym pm (fst (_add_to_position pm sym additional_size price oid now)).
Proof.
  unfold step_on, _add_to_position.
  destruct (positions pm !! sym) as [p|] eqn:Hp.
  2:{ cbn. split; [by left|]. split; [by exists []; rewrite app_nil_r|done]. }
  destruct (py_div _ _); cbn.
  - split; [right; right; eexists; split; [reflexivity|intros Hk; exact (Hk _ _ Hp)]|].
    split; [by exists []; rewrite app_nil_r|done].
  - split; [by left|]. split; [by exists []; rewrite app_nil_r|done].
Qed.

Lemma open_position_step (pm : PositionManager) (sym : string) (sd : PositionSide)
    (sz price : Q) (oid : option string) (now : Time) :
  step_on sym pm (fst (open_position pm sym sd sz price oid now)).
Proof.
  unfold open_position.
  assert (Hcreate : forall pm0, step_on sym pm pm0 ->
    step_on sym pm
      (set_positions (<[sym := mkPosition sym sd sz price price 0 0 sz 0 now oid]>
                        (positions pm0)) pm0)).
  { intros pm0 (Hpos & Ht & Hm & Hto). unfold step_on, set_positions. cbn.
    split; [|split; [exact Ht | split; [exact Hm | exact Hto]]].
    right; right. exists (mkPosition sym sd sz price price 0 0 sz 0 now oid).
    split; [|done].
    destruct Hpos as [-> | [-> | (p' & -> & _)]]; [done| |].
    - apply insert_delete_eq.
    - apply insert_insert_eq. }
  assert (Hrefl : step_on sym pm pm).
  { split; [by left|]. split; [by exists []; rewrite app_nil_r|done]. }
  destruct (has_position pm sym); [|by apply Hcreate].
  destruct (positions pm !! sym) as [p|]; [|done].
  destruct (decide (side p = sd)); [apply add_to_position_step|].
  pose proof (close_position_step pm sym None now) as Hc.
  destruct (close_position pm sym None now) as [pm1 [r|e]]; [|exact Hc].
  by apply Hcreate.
Qed.

Lemma reduce_position_step (pm : PositionManager) (sym : string)
    (reduce_size price : Q) (now : Time) :
  step_on sym pm (fst (reduce_position pm sym reduce_size price now)).
Proof.
  unfold reduce_position.
  assert (Hrefl : step_on sym pm pm).
  { split; [by left|]. split; [by exists []; rewrite app_nil_r|done]. }
  destruct (has_position pm sym); [|done]. cbn [negb].
  destruct (positions pm !! sym) as [p|] eqn:Hp; [|done].
  destruct (Qleb (size p) reduce_size); [apply close_position_step|].
  unfold step_on. cbn.
  split; [right; right; eexists; split; [reflexivity|intros Hk; exact (Hk _ _ Hp)]|].
  split; [by exists []; rewrite app_nil_r|done].
Qed.

Lemma update_position_price_step (pm : PositionManager) (sym : string) (price : Q) :
  step_on sym pm (update_position_price pm sym price).
Proof.
  unfold update_position_price.
  assert (Hrefl : step_on sym pm pm).
  { split; [by left|]. split; [by exists []; rewrite app_nil_r|done]. }
  destruct (has_position pm sym); [|done]. cbn [negb].
  destruct (positions pm !! sym) as [p|] eqn:Hp; [|done].
  unfold step_on. cbn.
  split; [right; right; eexists; split; [reflexivity|intros Hk; exact (Hk _ _ Hp)]|].
  split; [by exists []; rewrite app_nil_r|done].
Qed.

Lemma run_op_step (pm : PositionManager) (o : op) (sym : string) :
  op_symbol o = Some sym -> step_on sym pm (run_op pm o).
Proof.
  destruct o; intros [= <-]; cbn [run_op].
  - apply open_position_step.
  - apply close_position_step.
  - apply reduce_position_step.
  - apply update_position_price_step.
Qed.

(** X4. A call about one symbol (open, close, reduce, price update), whether
    it returns or raises, leaves the record of every other symbol exactly as
    it was, and with it that symbol's live status. *)
Theorem other_symbols_untouched (pm : PositionManager) (o : op) (sym other : string) :
  op_symbol o = Some sym ->
  other <> sym ->
  positions (run_op pm o) !! other = positions pm !! other /\
  has_position (run_op pm o) other = has_position pm other.
Proof.
  intros Ho Hne. destruct (run_op_step pm o sym Ho) as (Hpos & _).
  assert (H : positions (run_op pm o) !! other = positions pm !! other).
  { destruct Hpos as [-> | [-> | (p' & -> & _)]]; [done| |].
    - by apply lookup_delete_ne.
    - by apply lookup_insert_ne. }
  split; [exact H|]. unfold has_position. by rewrite H.
Qed.

Lemma other_symbols_untouched_witness :
  positions (run_op three_symbols (OpClose "BTCUSDT" (Some 120) 9)) !! "ETHUSDT" =
    positions three_symbols !! "ETHUSDT" /\
  has_position (run_op three_symbols (OpClose "BTCUSDT" (Some 120) 9)) "ETHUSDT" = true.
Proof.
  destruct (other_symbols_untouched three_symbols (OpClose "BTCUSDT" (Some 120) 9)
              "BTCUSDT" "ETHUSDT" eq_refl) as (H1 & H2); [discriminate|].
  split; [exact H1|]. rewrite H2. vm_compute. reflexivity.
Defined.

Lemma cleanup_lookup (pm : PositionManager) (now : Time) (sym : string) (p : Position) :
  positions (cleanup_expired_positions pm now) !! sym = Some p <->
  positions pm !! sym = Some p /\ expired pm now p = false.
Proof.
  unfold cleanup_expired_positions, set_positions. cbn [positions].
  by rewrite map_lookup_filter_Some.
Qed.

Lemma run_op_keyed (pm : PositionManager) (o : op) :
  keyed pm -> keyed (run_op pm o).
Proof.
  intros Hk. destruct (op_symbol o) as [sym|] eqn:Ho.
  - destruct (run_op_step pm o sym Ho) as (Hpos & _).
    intros k p. destruct Hpos as [-> | [-> | (p' & -> & Hp')]].
    + apply Hk.
    + intros H. apply lookup_delete_Some in H as [_ H]. by apply Hk.
    + destruct (decide (sym = k)) as [<-|Hne].
      * rewrite lookup_insert_eq. intros [= <-]. by apply Hp'.
      * rewrite lookup_insert_ne by done. apply Hk.
  - destruct o; try discriminate. cbn [run_op].
    intros k p H. apply cleanup_lookup in H as [H _]. by apply Hk.
Qed.

Lemma run_op_history (pm : PositionManager) (o : op) :
  position_history pm `prefix_of` position_history (run_op pm o) /\
  max_positions (run_op pm o) = max_positions pm /\
  position_timeout (run_op pm o) = position_timeout pm.
Proof.
  destruct (op_symbol o) as [sym|] eqn:Ho.
  - destruct (run_op_step pm o sym Ho) as (_ & (t & Ht) & Hm & Hto).
    split; [by exists t|done].
  - destruct o; try discriminate. cbn. done.
Qed.

(** X5. Through any sequence of calls (open, close, reduce, price update,
    cleanup), returning or raising: every record of the table stays filed
    under its own symbol, the history only grows at its end (what was
    recorded is never changed or dropped), and the configured limits stay. *)
Theorem manager_invariants (os : list op) (pm : PositionManager) :
  keyed pm ->
  keyed (run_ops pm os) /\
  position_history pm `prefix_of` position_history (run_ops pm os) /\
  max_positions (run_ops pm os) = max_positions pm /\
  position_timeout (run_ops pm os) = position_timeout pm.
Proof.
  unfold run_ops. revert pm. induction os as [|o os IH]; intros pm Hk; [done|].
  cbn [fold_left].
  destruct (IH (run_op pm o) (run_op_keyed pm o Hk)) as (K & P & M & T).
  destruct (run_op_history pm o) as (P0 & M0 & T0).
  split; [exact K|]. split; [by etrans|]. by rewrite M, T.
Qed.

Lemma manager_invariants_witness :
  keyed default_position_manager /\
  keyed three_symbols /\
  max_positions three_symbols = 5%Z.
Proof.
  assert (H : keyed default_position_manager).
  { intros k p. unfold default_position_manager. cbn [positions].
    by rewrite lookup_empty. }
  split; [exact H|].
  destruct (manager_invariants
              [OpOpen "BTCUSDT" LONG 2 100 (Some "BTCUSDT_1") 0;
               OpOpen "ETHUSDT" SHORT 3 50 (Some "ETHUSDT_2") 1;
               OpOpen "SOLUSDT" LONG 0 20 None 2] default_position_manager H)
    as (K & _ & M & _).
  split; [exact K | exact M].
Defined.

(** X6. A price tick on a live position writes the price, the unrealized
    PnL, (price - entry) * size for LONG and mirrored for SHORT, and, for a
    positive entry price, the percentage, which then agrees with the
    unrealized PnL: unrealized = percentage / 100 * entry * size.  It leaves
    size, entry price, margin, realized PnL and the history alone.
    [update_all_positions] is the same call on the symbol and the close of
    the bar. *)
Theorem update_position_price_effect (pm : PositionManager) (sym : string)
    (p : Position) (md : MD.MarketData) :
  positions pm !! sym = Some p ->
  0 < size p ->
  MD.symbol md = sym ->
  let price := MD.close md in
  exists p',
    update_all_positions pm md = update_position_price pm sym price /\
    update_position_price pm sym price = set_positions (<[sym := p']> (positions pm)) pm /\
    current_price p' = price /\
    unrealized_pnl p' =
      match side p with
      | LONG => (price - entry_price p) * size p
      | SHORT => (entry_price p - price) * size p
      end /\
    size p' = size p /\ entry_price p' = entry_price p /\ margin p' = margin p /\
    realized_pnl p' = realized_pnl p /\ side p' = side p /\
    position_history (update_position_price pm sym price) = position_history pm /\
    (0 < entry_price p ->
     unrealized_pnl p' == percentage p' / 100 * entry_price p * size p) /\
    (entry_price p <= 0 -> percentage p' = percentage p).
Proof.
  intros Hp Hs <- price.
  assert (Hh : has_position pm (MD.symbol md) = true)
    by (apply PMFacts.has_position_true; eauto).
  eexists. split; [|split].
  - unfold update_all_positions. by rewrite Hp.
  - unfold update_position_price. rewrite Hh, Hp. cbn [negb]. reflexivity.
  - cbn [current_price unrealized_pnl size entry_price margin realized_pnl side
         percentage].
    split; [reflexivity|]. split; [reflexivity|]. split; [reflexivity|].
    split; [reflexivity|]. split; [reflexivity|]. split; [reflexivity|].
    split; [reflexivity|].
    split; [unfold update_position_price; by rewrite Hh, Hp|].
    split.
    + intros He. apply Qltb_lt in He as Hb. rewrite Hb.
      destruct (side p); field; lra.
    + intros He. apply Qltb_ge in He. by rewrite He.
Qed.

Lemma update_position_price_effect_witness :
  exists p',
    update_position_price three_symbols "BTCUSDT" 110 =
      set_positions (<["BTCUSDT" := p']> (positions three_symbols)) three_symbols /\
    unrealized_pnl p' == 20 /\ percentage p' == 10 /\ realized_pnl p' == 0.
Proof.
  destruct (update_position_price_effect three_symbols "BTCUSDT" _
              (MD.mkMarketData "BTCUSDT" 100 111 99 110 5 9) three_symbols_btc)
    as (p' & _ & H2 & _ & H4 & _ & _ & _ & H8 & _ & _ & H11 & _);
    [reflexivity | reflexivity |].
  exists p'. split; [exact H2|].
  assert (Hu : unrealized_pnl p' == 20) by (rewrite H4; by vm_compute).
  split; [exact Hu|]. split; [|rewrite H8; reflexivity].
  assert (H := H11 eq_refl). rewrite Hu in H.
  change (20 == percentage p' / 100 * 100 * 2) in H.
  assert (E : percentage p' == percentage p' / 100 * 100) by field.
  set (y := percentage p' / 100) in *. lra.
Defined.

(** X7. [cleanup_expired_positions] removes exactly the records of size zero
    older than the timeout: a live position is never removed, whatever its
    age, so the live status of every symbol is kept; the history is kept;
    a second cleanup at the same time removes nothing more. *)
Theorem cleanup_keeps_live (pm : PositionManager) (now : Time) :
  (forall sym p,
     positions (cleanup_expired_positions pm now) !! sym = Some p <->
     positions pm !! sym = Some p /\
     ~ (size p == 0 /\ position_timeout pm < now - timestamp p)) /\
  (forall sym, has_position (cleanup_expired_positions pm now) sym = has_position pm sym) /\
  position_history (cleanup_expired_positions pm now) = position_history pm /\
  cleanup_expired_positions (cleanup_expired_positions pm now) now =
    cleanup_expired_positions pm now.
Proof.
  assert (Hexp : forall p, expired pm now p = false <->
            ~ (size p == 0 /\ position_timeout pm < now - timestamp p)).
  { intros p. unfold expired. rewrite andb_false_iff, <- !not_true_iff_false,
      Qeq_bool_iff, Qltb_lt. split; [tauto|].
    intros H. destruct (Qeq_dec (size p) 0); [|by left].
    right. intros Hlt. by apply H. }
  assert (Hlk : forall sym p,
     positions (cleanup_expired_positions pm now) !! sym = Some p <->
     positions pm !! sym = Some p /\
     ~ (size p == 0 /\ position_timeout pm < now - timestamp p)).
  { intros sym p. by rewrite cleanup_lookup, Hexp. }
  split; [exact Hlk|]. split; [|split; [reflexivity|]].
  - intros sym. unfold has_position.
    destruct (positions pm !! sym) as [p|] eqn:Hp;
      destruct (positions (cleanup_expired_positions pm now) !! sym) as [q|] eqn:Hq.
    + apply Hlk in Hq as [Hq _]. by assert (q = p) as -> by congruence.
    + destruct (Qltb 0 (size p)) eqn:Hl; [|done]. exfalso.
      assert (H : positions (cleanup_expired_positions pm now) !! sym = Some p).
      { apply Hlk. split; [done|]. apply Qltb_lt in Hl. intros [Hz _]. lra. }
      congruence.
    + apply Hlk in Hq as [Hq _]. congruence.
    + done.
  - unfold cleanup_expired_positions at 1 3, set_positions. f_equal.
    apply map_eq. intros sym. apply option_eq. intros p.
    rewrite map_lookup_filter_Some. cbn [snd].
    change (positions (cleanup_expired_positions pm now) !! sym = Some p /\
            expired (cleanup_expired_positions pm now) now p = false <->
            positions (cleanup_expired_positions pm now) !! sym = Some p).
    rewrite cleanup_lookup. unfold expired at 1. cbn [position_timeout
      cleanup_expired_positions set_positions]. fold (expired pm now p). tauto.
Qed.

Lemma cleanup_keeps_live_witness :
  positions (cleanup_expired_positions three_symbols 10000) !! "SOLUSDT" = None /\
  has_position (cleanup_expired_positions three_symbols 10000) "BTCUSDT" = true /\
  position_history (cleanup_expired_positions three_symbols 10000) = [].
Proof.
  destruct (cleanup_keeps_live three_symbols 10000) as (H1 & H2 & H3 & _).
  split; [|split; [rewrite H2; vm_compute; reflexivity | rewrite H3; reflexivity]].
  destruct (positions (cleanup_expired_positions three_symbols 10000) !! "SOLUSDT")
    as [q|] eqn:E; [|reflexivity].
  exfalso. apply H1 in E as [E Hn]. vm_compute in E. injection E as <-.
  apply Hn. split; reflexivity.
Defined.

Lemma filter_length_perm {A : Type} (f : A -> bool) (l l' : list A) :
  l ≡ₚ l' -> length (List.filter f l) = length (List.filter f l').
Proof.
  induction 1 as [|x l l' _ IH|x y l|l l' l'' _ IH1 _ IH2]; cbn; [done| | |congruence].
  - destruct (f x); cbn; congruence.
  - by destruct (f x), (f y).
Qed.

(** The live records of a table, counted around one key. *)
Lemma count_around (m : gmap string Position) (k : string) :
  length (List.filter (fun p => Qltb 0 (size p)) (map_to_list m).*2) =
  (match m !! k with
   | Some p => if Qltb 0 (size p) then 1 else 0
   | None => 0
   end +
   length (List.filter (fun p => Qltb 0 (size p)) (map_to_list (delete k m)).*2))%nat.
Proof.
  destruct (m !! k) as [p|] eqn:Hk.
  - rewrite (filter_length_perm _ _ ((k, p) :: map_to_list (delete k m)).*2).
    + cbn. by destruct (Qltb 0 (size p)).
    + apply fmap_Permutation. symmetry. by apply map_to_list_delete.
  - by rewrite delete_id.
Qed.

(** X8. The number of live positions, which [can_open_new_position] compares
    with [max_positions], goes up by one when a position of positive size is
    opened on a symbol without a live position, and [open_position] does so
    whether or not the limit is reached; it goes down by one when a live
    position (entry price not zero) is closed. *)
Theorem active_positions_count_moves (pm : PositionManager) (sym : string)
    (sd : PositionSide) (sz price : Q) (oid : option string) (cp : option Q)
    (now : Time) :
  (has_position pm sym = false -> 0 < sz ->
   active_positions_count (fst (open_position pm sym sd sz price oid now)) =
     S (active_positions_count pm)) /\
  (forall p, positions pm !! sym = Some p -> 0 < size p -> ~ entry_price p == 0 ->
   S (active_positions_count (fst (close_position pm sym cp now))) =
     active_positions_count pm).
Proof.
  unfold active_positions_count, get_all_positions, values. split.
  - intros Hh Hsz. rewrite (PMFacts.open_position_flat pm sym sd sz price oid now Hh).
    unfold set_positions. cbn [fst positions].
    rewrite (count_around (<[sym := _]> (positions pm)) sym),
            (count_around (positions pm) sym).
    rewrite lookup_insert_eq, delete_insert_eq. cbn [size].
    apply Qltb_lt in Hsz. rewrite Hsz.
    unfold has_position in Hh. destruct (positions pm !! sym) as [p0|]; [|done].
    by rewrite Hh.
  - intros p Hp Hs He.
    rewrite (PMFacts.close_position_live pm sym p cp now Hp Hs He). cbn [fst positions].
    rewrite (count_around (positions pm) sym), Hp.
    apply Qltb_lt in Hs. by rewrite Hs.
Qed.

Lemma active_positions_count_moves_witness :
  active_positions_count three_symbols = 2%nat /\
  active_positions_count
    (fst (open_position three_symbols "SOLUSDT" LONG 1 20 None 3)) = 3%nat /\
  active_positions_count
    (fst (close_position three_symbols "BTCUSDT" (Some 90) 3)) = 1%nat.
Proof.
  assert (H0 : active_positions_count three_symbols = 2%nat) by (vm_compute; reflexivity).
  destruct (active_positions_count_moves three_symbols "SOLUSDT" LONG 1 20 None None 3)
    as (H1 & _).
  destruct (active_positions_count_moves three_symbols "BTCUSDT" LONG 1 20 None (Some 90) 3)
    as (_ & H2).
  split; [exact H0|]. split.
  - rewrite H1, H0; [reflexivity | vm_compute; reflexivity | reflexivity].
  - apply eq_add_S. rewrite (H2 _ three_symbols_btc); [by rewrite H0 | reflexivity |].
    by vm_compute.
Defined.

End PMxFacts.

(** ** RiskManager: prices, account updates, counters *)

Module RMxFacts.
Import RM RMx Scenario.
Local Open Scope Q_scope.




(** X10. An account update records the reported wallet balance, never lowers
    the peak balance and keeps it at or above the balance; when the peak is
    positive the drawdown becomes (peak - balance) / peak, which is at least
    0, at most 1 for a balance that is not negative, and never above the
    maximum drawdown, which never goes down.  The daily counters and the
    trading switch are not touched. *)
Theorem update_account_info_drawdown (rm : RiskManager) (acc : AccountInfo) :
  let rm' := update_account_info rm acc in
  0 < peak_balance rm' ->
  current_balance rm' = total_wallet_balance acc /\
  peak_balance rm <= peak_balance rm' /\
  current_balance rm' <= peak_balance rm' /\
  current_drawdown rm' = (peak_balance rm' - current_balance rm') / peak_balance rm' /\
  0 <= current_drawdown rm' /\
  (0 <= total_wallet_balance acc -> current_drawdown rm' <= 1) /\
  current_drawdown rm' <= max_drawdown rm' /\
  max_drawdown rm <= max_drawdown rm' /\
  daily_pnl rm' = daily_pnl rm /\ trades_today rm' = trades_today rm /\
  daily_start_balance rm' = daily_start_balance rm /\
  trading_enabled rm' = trading_enabled rm.
Proof.
  intros rm'. subst rm'. unfold update_account_info, _check_risk_limits.
  cbn [peak_balance current_balance current_drawdown max_drawdown daily_pnl
       trades_today daily_start_balance trading_enabled].
  set (bal := total_wallet_balance acc).
  set (peak := if Qltb (peak_balance rm) bal then bal else peak_balance rm).
  intros Hpk. apply Qltb_lt in Hpk as Hb. rewrite Hb.
  assert (H1 : peak_balance rm <= peak /\ bal <= peak).
  { subst peak. destruct (Qltb (peak_balance rm) bal) eqn:E.
    - apply Qltb_lt in E. lra.
    - apply Qltb_ge in E. lra. }
  destruct H1 as [H1 H2].
  split; [reflexivity|]. split; [exact H1|]. split; [exact H2|].
  split; [reflexivity|].
  split; [apply Qle_shift_div_l; lra|].
  split; [intros Hbal; apply Qle_shift_div_r; lra|].
  split; [apply Q.le_max_r | split; [apply Q.le_max_l | done]].
Qed.

Lemma update_account_info_drawdown_witness :
  current_drawdown drawdown_manager == 1 # 5 /\
  max_drawdown drawdown_manager == 1 # 5 /\
  peak_balance drawdown_manager == 10000.
Proof.
  destruct (update_account_info_drawdown
              (reset_daily_stats (update_account_info default_risk_manager (account 10000)))
              (account 8000)) as (_ & _ & _ & H4 & _); [reflexivity|].
  split; [|split; by vm_compute].
  change (current_drawdown drawdown_manager) with
    (current_drawdown (update_account_info
       (reset_daily_stats (update_account_info default_risk_manager (account 10000)))
       (account 8000))).
  rewrite H4. by vm_compute.
Defined.



(** A gain, a loss and a trade that carries no PnL. *)
Lemma record_trades_step (rm : RiskManager) (t : TradeInfo * Time)
    (ts : list (TradeInfo * Time)) :
  record_trades rm (t :: ts) = record_trades (record_trade rm t.1 t.2) ts.
Proof. reflexivity. Qed.

(** X12. A run of [record_trade] calls adds the number of trades to
    [trades_today] and to the trade history, and the PnL the trades carry
    (a trade without one counting for nothing) to both the daily and the
    total PnL; drawdown, balances and the trading switch are not touched.
    Once [trades_today] has reached [max_trades_per_day] no signal
    validates. *)
Theorem record_trades_accumulate (ts : list (TradeInfo * Time)) (rm : RiskManager)
    (sig : Signal) (acc : AccountInfo) (pos : option Position) :
  let rm' := record_trades rm ts in
  trades_today rm' = (trades_today rm + Z.of_nat (length ts))%Z /\
  length (trade_history rm') = (length (trade_history rm) + length ts)%nat /\
  daily_pnl rm' == daily_pnl rm + pnl_sum ts /\
  total_pnl rm' == total_pnl rm + pnl_sum ts /\
  current_drawdown rm' = current_drawdown rm /\
  max_trades_per_day rm' = max_trades_per_day rm /\
  trading_enabled rm' = trading_enabled rm /\
  ((max_trades_per_day rm <= trades_today rm + Z.of_nat (length ts))%Z ->
   validate_signal rm' sig acc pos = false).
Proof.
  cbv zeta.
  assert (H : trades_today (record_trades rm ts) =
                (trades_today rm + Z.of_nat (length ts))%Z /\
              length (trade_history (record_trades rm ts)) =
                (length (trade_history rm) + length ts)%nat /\
              daily_pnl (record_trades rm ts) == daily_pnl rm + pnl_sum ts /\
              total_pnl (record_trades rm ts) == total_pnl rm + pnl_sum ts /\
              current_drawdown (record_trades rm ts) = current_drawdown rm /\
              max_trades_per_day (record_trades rm ts) = max_trades_per_day rm /\
              trading_enabled (record_trades rm ts) = trading_enabled rm).
  { revert rm. induction ts as [|[t now] ts IH]; intros rm.
    - cbn. repeat split; try done; try lia; ring.
    - rewrite record_trades_step. cbn [fst snd].
      destruct (IH (record_trade rm t now)) as (-> & -> & -> & -> & -> & -> & ->).
      change (pnl_sum ((t, now) :: ts)) with (default 0 (trade_pnl t) + pnl_sum ts).
      cbn [fst snd record_trade trades_today trade_history daily_pnl total_pnl
           current_drawdown max_trades_per_day trading_enabled length].
      rewrite length_app. cbn [length].
      repeat split; try done; try lia;
        destruct (trade_pnl t); cbn [from_option id]; ring. }
  destruct H as (H1 & H2 & H3 & H4 & H5 & H6 & H7).
  repeat split; try assumption.
  intros Hcap. unfold validate_signal. rewrite H1, H6.
  destruct (negb (trading_enabled (record_trades rm ts))); [done|].
  by apply Z.leb_le in Hcap as ->.
Qed.

Lemma record_trades_accumulate_witness :
  let ts := [(mkTradeInfo "BTCUSDT" (Some 20) 0, 1); (mkTradeInfo "BTCUSDT" None 0, 2);
             (mkTradeInfo "ETHUSDT" (Some (-5)) 0, 3)] in
  trades_today (record_trades default_risk_manager ts) = 3%Z /\
  daily_pnl (record_trades default_risk_manager ts) == 15 /\
  validate_signal (record_trades (risk_manager_min 10) (ts ++ ts ++ ts ++ ts ++ ts ++
      ts ++ ts ++ ts ++ ts ++ ts ++ ts ++ ts ++ ts ++ ts ++ ts ++ ts ++ ts))
    (buy_signal 1) (account 10000) None = false.
Proof.
  intros ts.
  destruct (record_trades_accumulate ts default_risk_manager (buy_signal 1)
              (account 10000) None) as (H1 & _ & H3 & _).
  split; [by rewrite H1|]. split; [rewrite H3; by vm_compute|].
  apply (record_trades_accumulate _ (risk_manager_min 10)). by vm_compute.
Defined.

(** X13. After [reset_daily_stats] a signal validates exactly when trading
    is enabled, [max_trades_per_day] is positive and the drawdown is within
    its cap: the trade count and the loss of the day no longer block.  The
    reset starts the day on the current balance and keeps the total PnL, the
    peak, the drawdown and the trade history. *)
Theorem reset_daily_stats_reopens (rm : RiskManager) (sig : Signal) (acc : AccountInfo)
    (pos : option Position) :
  let rm' := reset_daily_stats rm in
  validate_signal rm' sig acc pos =
    trading_enabled rm && (0 <? max_trades_per_day rm)%Z &&
    Qleb (current_drawdown rm) (max_drawdown_percentage rm) /\
  daily_start_balance rm' = current_balance rm /\
  daily_pnl rm' = 0 /\ trades_today rm' = 0%Z /\ risk_alerts rm' = [] /\
  total_pnl rm' = total_pnl rm /\ peak_balance rm' = peak_balance rm /\
  current_drawdown rm' = current_drawdown rm /\ max_drawdown rm' = max_drawdown rm /\
  trade_history rm' = trade_history rm.
Proof.
  cbv zeta. split; [|by repeat split].
  unfold validate_signal, reset_daily_stats.
  cbn [trading_enabled max_trades_per_day trades_today max_drawdown_percentage
       current_drawdown daily_start_balance daily_pnl max_daily_loss_percentage].
  destruct (trading_enabled rm); cbn [negb andb]; [|done].
  rewrite Z.ltb_antisym. destruct (max_trades_per_day rm <=? 0)%Z; cbn [negb andb]; [done|].
  unfold Qltb at 1. unfold Qleb.
  destruct (Qle_bool (current_drawdown rm) (max_drawdown_percentage rm)); cbn [negb];
    [|done].
  reflexivity.
Qed.

Lemma filter_length_le {A : Type} (f : A -> bool) (l : list A) :
  (length (List.filter f l) <= length l)%nat.
Proof. induction l as [|x l IH]; cbn; [lia|]. destruct (f x); cbn; lia. Qed.

(** X14. In the risk metrics the winning and the losing trades add up to the
    total, which is the length of the trade history, and the win rate lies
    between 0 and 1 (0 for an empty history).  Recording a trade adds one to
    the total; it counts as winning when it carries a positive PnL and as
    losing otherwise, also when it carries no PnL or a PnL of zero. *)
Theorem get_risk_metrics_counts (rm : RiskManager) (t : TradeInfo) (now : Time) :
  let m := get_risk_metrics rm in
  let m' := get_risk_metrics (record_trade rm t now) in
  (Metrics.winning_trades m + Metrics.losing_trades m)%nat = Metrics.total_trades m /\
  Metrics.total_trades m = length (trade_history rm) /\
  0 <= Metrics.win_rate m /\ Metrics.win_rate m <= 1 /\
  (trade_history rm = [] -> Metrics.win_rate m = 0) /\
  Metrics.total_trades m' = S (Metrics.total_trades m) /\
  Metrics.winning_trades m' =
    (Metrics.winning_trades m + if is_win t then 1 else 0)%nat /\
  Metrics.losing_trades m' =
    (Metrics.losing_trades m + if is_win t then 0 else 1)%nat.
Proof.
  cbv zeta. unfold get_risk_metrics.
  cbn [Metrics.winning_trades Metrics.losing_trades Metrics.total_trades
       Metrics.win_rate record_trade trade_history].
  pose proof (filter_length_le is_win (trade_history rm)) as Hle.
  set (w := length (List.filter is_win (trade_history rm))) in *.
  set (n := length (trade_history rm)) in *.
  split; [lia|]. split; [reflexivity|].
  assert (Hrate : 0 <= match trade_history rm with
                       | [] => 0
                       | _ => inject_Z (Z.of_nat w) / inject_Z (Z.of_nat n)
                       end <= 1).
  { destruct (trade_history rm) as [|t0 h] eqn:Eh; [lra|].
    assert (Hn : (0 < n)%nat) by (subst n; cbn; lia).
    assert (Hq : 0 < inject_Z (Z.of_nat n)).
    { change 0 with (inject_Z 0). rewrite <- Zlt_Qlt. lia. }
    assert (Hw : 0 <= inject_Z (Z.of_nat w)).
    { change 0 with (inject_Z 0). rewrite <- Zle_Qle. lia. }
    assert (Hwn : inject_Z (Z.of_nat w) <= inject_Z (Z.of_nat n)).
    { rewrite <- Zle_Qle. lia. }
    split.
    - apply Qle_shift_div_l; lra.
    - apply Qle_shift_div_r; lra. }
  split; [apply Hrate|]. split; [apply Hrate|].
  split; [by intros ->|].
  rewrite List.filter_app, !length_app. cbn [List.filter length].
  change (is_win (mkTradeInfo (trade_symbol t) (trade_pnl t) now)) with (is_win t).
  fold w n. destruct (is_win t); cbn [length]; lia.
Qed.

Lemma reset_daily_stats_reopens_witness :
  RM.validate_signal (reset_daily_stats drawdown_manager) (buy_signal 1) (account 8000)
    None = false /\
  RM.validate_signal (reset_daily_stats (risk_manager_min 10)) (buy_signal 1)
    (account 8000) None = true.
Proof.
  split.
  - rewrite (proj1 (reset_daily_stats_reopens drawdown_manager (buy_signal 1)
                      (account 8000) None)). vm_compute. reflexivity.
  - rewrite (proj1 (reset_daily_stats_reopens (risk_manager_min 10) (buy_signal 1)
                      (account 8000) None)). vm_compute. reflexivity.
Defined.

Lemma get_risk_metrics_counts_witness :
  Metrics.win_rate (get_risk_metrics default_risk_manager) = 0 /\
  Metrics.winning_trades
    (get_risk_metrics (record_trade default_risk_manager
                         (mkTradeInfo "BTCUSDT" (Some 5) 0) 1)) = 1%nat /\
  Metrics.losing_trades
    (get_risk_metrics (record_trade default_risk_manager
                         (mkTradeInfo "BTCUSDT" None 0) 1)) = 1%nat.
Proof.
  destruct (get_risk_metrics_counts default_risk_manager
              (mkTradeInfo "BTCUSDT" (Some 5) 0) 1) as (_ & _ & _ & _ & H5 & _ & H7 & _).
  destruct (get_risk_metrics_counts default_risk_manager
              (mkTradeInfo "BTCUSDT" None 0) 1) as (_ & _ & _ & _ & _ & _ & _ & H8).
  split; [apply H5; reflexivity|]. split; [rewrite H7 | rewrite H8]; reflexivity.
Defined.

End RMxFacts.

(** ** OrderExecutor: results, books, statistics *)

Module OExFacts.
Import OE OEx.
Local Open Scope Q_scope.

(** The test of [get_order_status] on the references of a list. *)
Lemma find_hit_None (h : Heap) (id : string) (ls : list loc) :
  id ∉ ids_of h ls ->
  List.find (fun l => match h !! l with
                      | Some o => bool_decide (Ord.order_id o = id)
                      | None => false
                      end) ls = None.
Proof.
  unfold ids_of. induction ls as [|a ls IH]; [done|]. cbn [omap list_omap List.find].
  destruct (h !! a) as [o|]; cbn.
  - intros Hn. case_bool_decide as E.
    + exfalso. apply Hn. rewrite E. set_solver.
    + apply IH. set_solver.
  - apply IH.
Qed.

Lemma find_hit_last (h : Heap) (id : string) (ls : list loc) (l : loc) (o : Ord.Order) :
  id ∉ ids_of h ls ->
  h !! l = Some o ->
  Ord.order_id o = id ->
  List.find (fun l => match h !! l with
                      | Some o => bool_decide (Ord.order_id o = id)
                      | None => false
                      end) (ls ++ [l]) = Some l.
Proof.
  unfold ids_of. intros Hn Hl Hid. induction ls as [|a ls IH]; cbn [app List.find].
  - rewrite Hl. by rewrite bool_decide_eq_true_2.
  - cbn [omap list_omap] in Hn. destruct (h !! a) as [oa|]; cbn in Hn.
    + case_bool_decide as E; [exfalso; apply Hn; rewrite E; set_solver|].
      apply IH. set_solver.
    + by apply IH.
Qed.

Lemma ids_of_alter (h : Heap) (l : loc) (f : Ord.Order -> Ord.Order) (ls : list loc) :
  (forall o, Ord.order_id (f o) = Ord.order_id o) ->
  ids_of (alter f l h) ls = ids_of h ls.
Proof.
  intros Hf. unfold ids_of. induction ls as [|a ls IH]; [done|].
  cbn [omap list_omap]. rewrite IH. rewrite lookup_alter.
  case_decide as E; [|done]. subst a. destruct (h !! l) as [o|]; cbn; [|done].
  by rewrite Hf.
Qed.

Section WithWorld.
Context {W : Type}.
Implicit Types (st : State W) (cbs : Callbacks W).

(** What [execute_order] leaves behind, spelled out. *)
Lemma execute_order_explicit cbs st (l : loc) (o : Ord.Order) (u : Q) (now : Time) :
  heap st !! l = Some o ->
  quiet_callbacks cbs ->
  let o1 := Ord.set_status PENDING o in
  let out := dispatch (register st l) l u now in
  let filled := match out with Ok r => success r | Raise _ => false end in
  let o' :=
    match out with
    | Ok r =>
      if success r then
        Ord.set_fill (filled_price r) (filled_quantity r) (commission r) (timestamp r)
          (Ord.set_status FILLED o1)
      else Ord.set_status FAILED o1
    | Raise _ => Ord.set_status FAILED o1
    end in
  let st' := fst (execute_order cbs st l u now) in
  heap st' = <[l := o']> (heap st) /\
  pending_orders (ex st') = delete (Ord.order_id o) (pending_orders (ex st)) /\
  completed_orders (ex st') = completed_orders (ex st) ++ (if filled then [l] else []) /\
  failed_orders (ex st') = failed_orders (ex st) ++ (if filled then [] else [l]) /\
  simulation_mode (ex st') = simulation_mode (ex st) /\
  success (snd (execute_order cbs st l u now)) = filled /\
  Ord.order_id o' = Ord.order_id o /\
  Ord.status o' = (if filled then FILLED else FAILED).
Proof.
  intros Hl Hq o1 out filled o' st'.
  assert (E0 : register st l =
    mkState (<[l := o1]> (heap st))
      (set_pending (<[Ord.order_id o := l]> (pending_orders (ex st))) (ex st))
      (world st)) by (unfold register; by rewrite Hl).
  assert (E1 : settle (register st l) l out =
    mkState (<[l := o']> (heap st))
      (set_failed (failed_orders (ex st) ++ (if filled then [] else [l]))
         (set_completed (completed_orders (ex st) ++ (if filled then [l] else []))
            (set_pending (<[Ord.order_id o := l]> (pending_orders (ex st))) (ex st))))
      (world st)).
  { unfold settle. subst o' filled. rewrite E0. cbn [heap ex world].
    rewrite lookup_insert_eq. fold o1.
    destruct out as [r|e]; [destruct (success r)|];
      rewrite insert_insert_eq; unfold set_failed, set_completed, set_pending; cbn;
      by rewrite ?app_nil_r. }
  destruct (OEFacts.notify_quiet cbs (settle (register st l) l out) l out Hq)
    as (Hh & He).
  subst st'. unfold execute_order, resume. fold out. cbn [fst snd].
  set (st2 := notify cbs (settle (register st l) l out) l out) in *.
  assert (Hl2 : heap st2 !! l = Some o')
    by (rewrite Hh, E1; cbn [heap]; apply lookup_insert_eq).
  assert (Hid : Ord.order_id o' = Ord.order_id o)
    by (subst o'; destruct out as [r|e]; [destruct (success r)|]; reflexivity).
  unfold retire. rewrite Hl2, Hid. unfold set_ex. cbn [heap ex].
  rewrite Hh, He, E1. cbn [heap ex]. unfold set_failed, set_completed, set_pending.
  cbn [pending_orders completed_orders failed_orders simulation_mode].
  split; [reflexivity|]. split; [apply delete_insert_eq|].
  split; [reflexivity|]. split; [reflexivity|]. split; [reflexivity|].
  split; [subst filled; by destruct out|]. split; [reflexivity|].
  subst o' filled. destruct out as [r|e]; [destruct (success r)|]; reflexivity.
Qed.

(** X15. After [execute_order] has returned for an order whose id was filed
    nowhere before (callbacks leaving the executor alone),
    [get_order_status] of the id reports the terminal status of the order:
    FILLED exactly when the result says success, FAILED otherwise. *)
Theorem get_order_status_after_execute cbs st (l : loc) (o : Ord.Order) (u : Q)
    (now : Time) :
  heap st !! l = Some o ->
  places st (Ord.order_id o) = 0%nat ->
  quiet_callbacks cbs ->
  get_order_status (fst (execute_order cbs st l u now)) (Ord.order_id o) =
    Some (if success (snd (execute_order cbs st l u now)) then FILLED else FAILED).
Proof.
  intros Hl Hfresh Hq.
  apply OEFacts.places_zero in Hfresh as (_ & Hc0 & Hf0).
  apply bool_decide_eq_false in Hc0, Hf0.
  destruct (execute_order_explicit cbs st l o u now Hl Hq)
    as (Hh & Hp & Hc & Hf & _ & -> & Hid & Hst).
  cbv zeta in *.
  set (filled := match dispatch (register st l) l u now with
                 | Ok r => success r | Raise _ => false end) in *.
  set (o' := match dispatch (register st l) l u now with
             | Ok r => _ | Raise _ => _ end) in *.
  unfold get_order_status, status_at. rewrite Hp, lookup_delete_eq, Hc, Hf, Hh.
  assert (Hl' : <[l := o']> (heap st) !! l = Some o') by apply lookup_insert_eq.
  assert (Ic : Ord.order_id o ∉ ids_of (<[l := o']> (heap st)) (completed_orders (ex st)))
    by (by rewrite (OEFacts.ids_of_insert _ _ o)).
  assert (If : Ord.order_id o ∉ ids_of (<[l := o']> (heap st)) (failed_orders (ex st)))
    by (by rewrite (OEFacts.ids_of_insert _ _ o)).
  destruct filled.
  - rewrite (find_hit_last _ _ _ l o' Ic Hl' Hid), Hl'. cbn. by rewrite Hst.
  - rewrite app_nil_r, (find_hit_None _ _ _ Ic).
    rewrite (find_hit_last _ _ _ l o' If Hl' Hid), Hl'. cbn. by rewrite Hst.
Qed.

(** X16. In simulation mode, and in live mode with a positive retry count,
    which hands the order to the simulated execution, [execute_order] with a
    draw below 0.95 fills the order at the reference price moved against it
    by the slippage (up for BUY, down for SELL), for the whole quantity, at
    a commission of 0.1% of the filled notional, and writes these figures
    and FILLED on the order; with a draw of 0.95 or more the order is FAILED
    and its fill figures are left as they were. *)
Theorem execute_order_fill cbs st (l : loc) (o : Ord.Order) (u : Q) (now : Time) :
  heap st !! l = Some o ->
  quiet_callbacks cbs ->
  simulation_mode (ex st) = true \/ (0 < max_retry_count (ex st))%Z ->
  let st' := fst (execute_order cbs st l u now) in
  let r := snd (execute_order cbs st l u now) in
  let fp :=
    match Ord.side o with
    | BUY => Ord.price o * (1 + simulation_slippage (ex st))
    | SELL => Ord.price o * (1 - simulation_slippage (ex st))
    end in
  (u < 95 # 100 ->
   r = mkResult true (Ord.order_id o) fp (Ord.quantity o)
         (Ord.quantity o * fp * (1 # 1000)) "" now /\
   heap st' !! l =
     Some (Ord.mkOrder (Ord.order_id o) (Ord.symbol o) (Ord.side o) (Ord.type o)
             (Ord.quantity o) (Ord.price o) FILLED (Ord.timestamp o)
             fp (Ord.quantity o) (Ord.quantity o * fp * (1 # 1000)) (Some now))) /\
  (95 # 100 <= u ->
   success r = false /\ filled_price r = 0 /\ filled_quantity r = 0 /\
   commission r = 0 /\
   heap st' !! l = Some (Ord.set_status FAILED o)) /\
  (0 <= Ord.price o -> 0 <= simulation_slippage (ex st) ->
   match Ord.side o with
   | BUY => Ord.price o <= fp
   | SELL => fp <= Ord.price o
   end).
Proof.
  intros Hl Hq Hmode st' r fp.
  assert (Hd : dispatch (register st l) l u now =
               Ok (_execute_order_simulation (ex st) (Ord.set_status PENDING o) u now)).
  { unfold dispatch, register. rewrite Hl. cbn [heap ex].
    rewrite lookup_insert_eq. unfold set_pending. cbn [simulation_mode].
    unfold _execute_order_real, _execute_order_simulation.
    cbn [max_retry_count simulation_slippage].
    destruct (simulation_mode (ex st)); [done|].
    destruct Hmode as [|Hr]; [done|]. apply Z.ltb_lt in Hr. by rewrite Hr. }
  destruct (execute_order_explicit cbs st l o u now Hl Hq)
    as (Hh & _ & _ & _ & _ & _ & _ & _).
  cbv zeta in Hh. rewrite Hd in Hh.
  assert (Hr : r = _execute_order_simulation (ex st) (Ord.set_status PENDING o) u now).
  { subst r. unfold execute_order, resume. cbn [snd]. by rewrite Hd. }
  subst st'. rewrite Hh, lookup_insert_eq, Hr. clear Hh Hr Hd.
  unfold _execute_order_simulation. cbn [Ord.set_status Ord.side Ord.price
    Ord.quantity Ord.order_id]. fold fp.
  split; [|split].
  - intros Hu. apply Qltb_lt in Hu. rewrite Hu. cbn. done.
  - intros Hu. apply Qltb_ge in Hu. rewrite Hu. cbn. done.
  - intros Hp Hs. subst fp. destruct (Ord.side o); nra.
Qed.

(** X17. Cancelling, in simulation mode, an order that is in the pending map
    succeeds: the order becomes CANCELLED and leaves the pending map; it is
    filed in neither list, so when its id was in neither before,
    [get_order_status] no longer knows the id, and the execution statistics
    do not count it. *)
Theorem cancel_order_pending st (id : string) (l : loc) (o : Ord.Order) :
  pending_orders (ex st) !! id = Some l ->
  heap st !! l = Some o ->
  simulation_mode (ex st) = true ->
  in_completed st id = false ->
  in_failed st id = false ->
  let st' := fst (cancel_order st id) in
  snd (cancel_order st id) = true /\
  status_at (heap st') l = Some CANCELLED /\
  in_pending st' id = false /\
  completed_orders (ex st') = completed_orders (ex st) /\
  failed_orders (ex st') = failed_orders (ex st) /\
  get_order_status st' id = None /\
  Stats.total_orders (get_execution_statistics st') =
    Stats.total_orders (get_execution_statistics st).
Proof.
  intros Hp Hl Hsim Hc Hf st'. subst st'.
  apply bool_decide_eq_false in Hc, Hf.
  unfold cancel_order. rewrite Hp, Hsim. cbn [fst snd].
  split; [done|]. split.
  { unfold status_at. cbn [heap]. by rewrite lookup_alter_eq, Hl. }
  split.
  { apply OEFacts.in_pending_false. cbn. apply lookup_delete_eq. }
  split; [done|]. split; [done|]. split; [|done].
  unfold get_order_status. cbn [ex heap]. unfold set_pending.
  cbn [pending_orders completed_orders failed_orders].
  rewrite lookup_delete_eq.
  rewrite find_hit_None by (by rewrite ids_of_alter).
  by rewrite find_hit_None by (by rewrite ids_of_alter).
Qed.

(** X18. Every [execute_order] call files its order exactly once: the
    completed list gets it on success and the failed list otherwise, so the
    total of the execution statistics goes up by one, and the id leaves the
    pending map (together with any older pending order of the same id).  The
    success rate of the statistics always lies between 0 and 1. *)
Theorem execute_order_accounting cbs st (l : loc) (o : Ord.Order) (u : Q) (now : Time) :
  heap st !! l = Some o ->
  quiet_callbacks cbs ->
  let st' := fst (execute_order cbs st l u now) in
  let ok := success (snd (execute_order cbs st l u now)) in
  completed_orders (ex st') = completed_orders (ex st) ++ (if ok then [l] else []) /\
  failed_orders (ex st') = failed_orders (ex st) ++ (if ok then [] else [l]) /\
  pending_orders (ex st') = delete (Ord.order_id o) (pending_orders (ex st)) /\
  Stats.total_orders (get_execution_statistics st') =
    S (Stats.total_orders (get_execution_statistics st)) /\
  0 <= Stats.success_rate (get_execution_statistics st') /\
  Stats.success_rate (get_execution_statistics st') <= 1.
Proof.
  intros Hl Hq st' ok.
  destruct (execute_order_explicit cbs st l o u now Hl Hq)
    as (_ & Hp & Hc & Hf & _ & Hs & _).
  cbv zeta in *. fold st' in Hp, Hc, Hf. fold ok in Hs. rewrite <- Hs in Hc, Hf.
  split; [exact Hc|]. split; [exact Hf|]. split; [exact Hp|].
  unfold get_execution_statistics. cbn [Stats.total_orders Stats.success_rate].
  rewrite Hc, Hf, !length_app.
  split; [destruct ok; cbn [length]; lia|].
  set (nc := (length (completed_orders (ex st)) + length (if ok then [l] else []))%nat).
  set (nf := (length (failed_orders (ex st)) + length (if ok then [] else [l]))%nat).
  destruct (0 <? nc + nf)%nat eqn:E; [|lra].
  apply Nat.ltb_lt in E.
  assert (Hq0 : 0 < inject_Z (Z.of_nat (nc + nf))).
  { change 0 with (inject_Z 0). rewrite <- Zlt_Qlt. lia. }
  assert (Hq1 : 0 <= inject_Z (Z.of_nat nc)).
  { change 0 with (inject_Z 0). rewrite <- Zle_Qle. lia. }
  assert (Hq2 : inject_Z (Z.of_nat nc) <= inject_Z (Z.of_nat (nc + nf))).
  { rewrite <- Zle_Qle. lia. }
  split; [apply Qle_shift_div_l; lra | apply Qle_shift_div_r; lra].
Qed.

(** X19. In live mode with a retry count of zero or less the retry loop is
    never entered: every order fails.  The order becomes FAILED and is filed
    in the failed list, the result carries no fill, and no callback is
    called, whatever the callbacks are: what they act on is unchanged. *)
Theorem execute_order_live_without_retries cbs st (l : loc) (o : Ord.Order) (u : Q)
    (now : Time) :
  heap st !! l = Some o ->
  simulation_mode (ex st) = false ->
  (max_retry_count (ex st) <= 0)%Z ->
  let st' := fst (execute_order cbs st l u now) in
  let r := snd (execute_order cbs st l u now) in
  success r = false /\ filled_price r = 0 /\ filled_quantity r = 0 /\ commission r = 0 /\
  order_id r = Ord.order_id o /\
  heap st' !! l = Some (Ord.set_status FAILED o) /\
  failed_orders (ex st') = failed_orders (ex st) ++ [l] /\
  completed_orders (ex st') = completed_orders (ex st) /\
  pending_orders (ex st') = delete (Ord.order_id o) (pending_orders (ex st)) /\
  world st' = world st.
Proof.
  intros Hl Hsim Hr st' r.
  assert (Hd : dispatch (register st l) l u now = Raise AttributeError).
  { unfold dispatch, register. rewrite Hl. cbn [heap ex].
    rewrite lookup_insert_eq. unfold set_pending. cbn [simulation_mode].
    rewrite Hsim. unfold _execute_order_real. cbn [max_retry_count].
    apply Z.ltb_ge in Hr. by rewrite Hr. }
  subst st' r. unfold execute_order, resume. rewrite Hd. cbn [notify fst snd].
  unfold settle, register. rewrite Hl. cbn [heap ex world].
  rewrite lookup_insert_eq. unfold retire. cbn [heap ex world].
  rewrite lookup_insert_eq. unfold returned. cbn [heap]. rewrite lookup_insert_eq.
  cbn. rewrite lookup_insert_eq, delete_insert_eq. done.
Qed.

Lemma filter_idem {A : Type} (f : A -> bool) (l : list A) :
  List.filter f (List.filter f l) = List.filter f l.
Proof.
  induction l as [|x l IH]; [done|]. cbn. destruct (f x) eqn:E; [|done].
  cbn. by rewrite E, IH.
Qed.

(** X20. [execute_signal] leaves everything as it is and raises ValueError
    for an action other than BUY and SELL, and ZeroDivisionError for a
    current price of zero.  Otherwise it creates a market order as a new
    object, of the side of the action, at the current price and for the
    quantity position_size / current_price, under the id symbol_millis, runs
    it to a terminal status, and touches no other order. *)
Theorem execute_signal_outcomes cbs st (signal : Signal) (position_size price : Q)
    (millis : Z) (u : Q) (now : Time) :
  quiet_callbacks cbs ->
  let run := execute_signal cbs st signal position_size price millis u now in
  let l : loc := fresh (dom (heap st)) in
  (action signal <> "BUY" -> action signal <> "SELL" ->
   run = (st, Raise (ValueError ("不支持的信号动作: " +:+ action signal)))) /\
  (action signal = "BUY" \/ action signal = "SELL" -> price == 0 ->
   run = (st, Raise ZeroDivisionError)) /\
  (action signal = "BUY" \/ action signal = "SELL" -> ~ price == 0 ->
   exists r o',
     snd run = Ok r /\
     heap st !! l = None /\
     heap (fst run) !! l = Some o' /\
     Ord.order_id o' = sig_symbol signal +:+ "_" +:+ pretty millis /\
     Ord.side o' = (if String.eqb (action signal) "BUY" then BUY else SELL) /\
     Ord.type o' = MARKET /\
     Ord.price o' = price /\
     Ord.quantity o' * price == position_size /\
     Ord.status o' = (if success r then FILLED else FAILED) /\
     (forall l', l' <> l -> heap (fst run) !! l' = heap st !! l')).
Proof.
  intros Hq run l. subst run. unfold execute_signal, _create_order_from_signal.
  split; [|split].
  - intros H1 H2. apply String.eqb_neq in H1, H2. by rewrite H1, H2.
  - intros Ha Hz.
    assert (E : exists sd, (if String.eqb (action signal) "BUY" then Ok BUY
                 else if String.eqb (action signal) "SELL" then Ok SELL
                 else Raise (ValueError ("不支持的信号动作: " +:+ action signal)))
                = Ok sd).
    { destruct Ha as [-> | ->]; cbn; eauto. }
    destruct E as (sd & ->). cbn [mbind result_bind].
    by rewrite (py_div_zero _ _ Hz).
  - intros Ha Hnz.
    assert (E : (if String.eqb (action signal) "BUY" then Ok BUY
                 else if String.eqb (action signal) "SELL" then Ok SELL
                 else Raise (ValueError ("不支持的信号动作: " +:+ action signal)))
                = Ok (if String.eqb (action signal) "BUY" then BUY else SELL)).
    { destruct Ha as [-> | ->]; reflexivity. }
    rewrite E. cbn [mbind result_bind]. rewrite (py_div_ok _ _ Hnz).
    cbn [mbind result_bind]. fold l.
    set (order := Ord.mkOrder _ _ _ _ _ _ _ _ _ _ _ _).
    set (st0 := set_heap (<[l := order]> (heap st)) st).
    assert (Hl0 : heap st0 !! l = Some order) by apply lookup_insert_eq.
    destruct (execute_order_explicit cbs st0 l order u now Hl0 Hq)
      as (Hh & _ & _ & _ & _ & Hs & Hid & Hst).
    cbv zeta in *.
    destruct (execute_order cbs st0 l u now) as [st' r] eqn:Ex. cbn [fst snd] in *.
    set (o' := match dispatch (register st0 l) l u now with
               | Ok r0 => _ | Raise _ => _ end) in *.
    exists r, o'.
    assert (Hfresh : heap st !! l = None).
    { apply not_elem_of_dom. subst l. apply is_fresh. }
    split; [reflexivity|]. split; [exact Hfresh|].
    split; [rewrite Hh; apply lookup_insert_eq|].
    split; [exact Hid|].
    assert (Hfields : Ord.side o' = Ord.side order /\ Ord.type o' = Ord.type order /\
                      Ord.price o' = Ord.price order /\
                      Ord.quantity o' = Ord.quantity order).
    { subst o'. destruct (dispatch _ _ _ _) as [r0|e]; [destruct (success r0)|];
        by repeat split. }
    destruct Hfields as (-> & -> & -> & ->).
    split; [reflexivity|]. split; [reflexivity|]. split; [reflexivity|].
    split; [subst order; cbn [Ord.quantity]; field; exact Hnz|].
    split; [by rewrite Hst, Hs|].
    intros l' Hne. rewrite Hh. subst st0. cbn [heap set_heap].
    by rewrite !lookup_insert_ne.
Qed.

(** X21. [cleanup_old_orders] keeps, in their order, exactly the completed
    and failed orders created after now - max_age_hours * 3600 seconds (it
    is the creation time that counts, not the fill time); it touches neither
    the pending map nor any order, so the totals of the statistics can only
    go down, and a second cleanup at the same time changes nothing. *)
Theorem cleanup_old_orders_effect st (max_age_hours : Q) (now : Time) :
  let st' := cleanup_old_orders st max_age_hours now in
  let cutoff := now - max_age_hours * 3600 in
  heap st' = heap st /\
  pending_orders (ex st') = pending_orders (ex st) /\
  world st' = world st /\
  (forall l o, heap st !! l = Some o ->
     (l ∈ completed_orders (ex st') <->
      l ∈ completed_orders (ex st) /\ cutoff < Ord.timestamp o) /\
     (l ∈ failed_orders (ex st') <->
      l ∈ failed_orders (ex st) /\ cutoff < Ord.timestamp o)) /\
  (Stats.total_orders (get_execution_statistics st') <=
   Stats.total_orders (get_execution_statistics st))%nat /\
  cleanup_old_orders st' max_age_hours now = st'.
Proof.
  cbv zeta. unfold cleanup_old_orders, set_ex, set_failed, set_completed.
  cbn [heap ex world pending_orders completed_orders failed_orders].
  split; [done|]. split; [done|]. split; [done|]. split; [|split].
  - intros l o Hl.
    rewrite !list_elem_of_In, !filter_In. unfold younger. rewrite Hl, Qltb_lt. done.
  - unfold get_execution_statistics. cbn [Stats.total_orders ex completed_orders
      failed_orders].
    pose proof (RMxFacts.filter_length_le
      (younger (heap st) (now - max_age_hours * 3600)) (completed_orders (ex st))).
    pose proof (RMxFacts.filter_length_le
      (younger (heap st) (now - max_age_hours * 3600)) (failed_orders (ex st))).
    lia.
  - by rewrite !filter_idem.
Qed.

End WithWorld.

Import Scenario Scenario2.

Lemma get_order_status_after_execute_witness :
  get_order_status (fst (execute_order (Main.callbacks 1) system1 0%nat (1 # 2) 1))
    "BTCUSDT_1" = Some FILLED /\
  get_order_status (fst (execute_order (Main.callbacks 1) system1 0%nat (96 # 100) 1))
    "BTCUSDT_1" = Some FAILED.
Proof.
  assert (H0 : places system1 "BTCUSDT_1" = 0%nat) by (vm_compute; reflexivity).
  split.
  - etrans; [exact (get_order_status_after_execute (Main.callbacks 1) system1 0%nat
               buy_order (1 # 2) 1 OEFacts.system1_order H0
               (OEFacts.main_callbacks_quiet 1))|].
    vm_compute. reflexivity.
  - etrans; [exact (get_order_status_after_execute (Main.callbacks 1) system1 0%nat
               buy_order (96 # 100) 1 OEFacts.system1_order H0
               (OEFacts.main_callbacks_quiet 1))|].
    vm_compute. reflexivity.
Defined.

Lemma execute_order_fill_witness :
  filled_price (snd (execute_order (Main.callbacks 1) system1 0%nat (1 # 2) 1))
    == 10005 # 100 /\
  commission (snd (execute_order (Main.callbacks 1) system1 0%nat (1 # 2) 1))
    == 10005 # 100000 /\
  status_at (heap (fst (execute_order (Main.callbacks 1) system1 0%nat (1 # 2) 1))) 0%nat
    = Some FILLED.
Proof.
  destruct (execute_order_fill (Main.callbacks 1) system1 0%nat buy_order (1 # 2) 1
              OEFacts.system1_order (OEFacts.main_callbacks_quiet 1) (or_introl eq_refl))
    as (H & _ & _).
  destruct (H eq_refl) as (Hr & Hh).
  rewrite Hr. unfold status_at. rewrite Hh.
  split; [by vm_compute|]. split; [by vm_compute | reflexivity].
Defined.

Lemma cancel_order_pending_witness :
  snd (cancel_order pending_system "BTCUSDT_1") = true /\
  get_order_status (fst (cancel_order pending_system "BTCUSDT_1")) "BTCUSDT_1" = None /\
  status_at (heap (fst (cancel_order pending_system "BTCUSDT_1"))) 0%nat = Some CANCELLED.
Proof.
  destruct (cancel_order_pending pending_system "BTCUSDT_1" 0%nat
              (Ord.set_status PENDING buy_order))
    as (H1 & H2 & _ & _ & _ & H6 & _);
    [reflexivity | reflexivity | reflexivity | reflexivity | reflexivity |].
  split; [exact H1|]. split; [exact H6 | exact H2].
Defined.

Lemma execute_order_accounting_witness :
  completed_orders (ex (fst (execute_order (Main.callbacks 1) system1 0%nat (1 # 2) 1)))
    = [0%nat] /\
  Stats.total_orders
    (get_execution_statistics
       (fst (execute_order (Main.callbacks 1) system1 0%nat (1 # 2) 1))) = 1%nat.
Proof.
  destruct (execute_order_accounting (Main.callbacks 1) system1 0%nat buy_order (1 # 2) 1
              OEFacts.system1_order (OEFacts.main_callbacks_quiet 1))
    as (H1 & _ & _ & H4 & _).
  split; [rewrite H1; vm_compute; reflexivity | rewrite H4; reflexivity].
Defined.

Lemma execute_order_live_without_retries_witness :
  success (snd (execute_order (Main.callbacks 1) live_system 0%nat (1 # 2) 1)) = false /\
  failed_orders (ex (fst (execute_order (Main.callbacks 1) live_system 0%nat (1 # 2) 1)))
    = [0%nat] /\
  world (fst (execute_order (Main.callbacks 1) live_system 0%nat (1 # 2) 1))
    = PM.default_position_manager.
Proof.
  destruct (execute_order_live_without_retries (Main.callbacks 1) live_system 0%nat
              buy_order (1 # 2) 1)
    as (H1 & _ & _ & _ & _ & _ & H7 & _ & _ & H10);
    [reflexivity | reflexivity | reflexivity |].
  split; [exact H1|]. split; [exact H7 | exact H10].
Defined.

Lemma execute_signal_outcomes_witness :
  execute_signal (Main.callbacks 1) idle_state close_signal 1000 100 7 (1 # 2) 1 =
    (idle_state, Raise (ValueError "不支持的信号动作: CLOSE")) /\
  execute_signal (Main.callbacks 1) idle_state (buy_signal 1) 1000 0 7 (1 # 2) 1 =
    (idle_state, Raise ZeroDivisionError) /\
  exists r o',
    snd (execute_signal (Main.callbacks 1) idle_state (buy_signal 1) 1000 100 7 (1 # 2) 1)
      = Ok r /\
    heap (fst (execute_signal (Main.callbacks 1) idle_state (buy_signal 1) 1000 100 7
                 (1 # 2) 1)) !! 0%nat = Some o' /\
    Ord.order_id o' = "BTCUSDT_7" /\ Ord.quantity o' * 100 == 1000.
Proof.
  destruct (execute_signal_outcomes (Main.callbacks 1) idle_state close_signal 1000 100 7
              (1 # 2) 1 (OEFacts.main_callbacks_quiet 1)) as (H1 & _ & _).
  destruct (execute_signal_outcomes (Main.callbacks 1) idle_state (buy_signal 1) 1000 0 7
              (1 # 2) 1 (OEFacts.main_callbacks_quiet 1)) as (_ & H2 & _).
  destruct (execute_signal_outcomes (Main.callbacks 1) idle_state (buy_signal 1) 1000 100 7
              (1 # 2) 1 (OEFacts.main_callbacks_quiet 1)) as (_ & _ & H3).
  split; [apply H1; discriminate|]. split; [apply H2; [by left | reflexivity]|].
  destruct H3 as (r & o' & E1 & _ & E3 & E4 & _ & _ & _ & E8 & _);
    [by left | by vm_compute |].
  exists r, o'. split; [exact E1|]. split; [exact E3|]. split; [exact E4 | exact E8].
Defined.

Lemma cleanup_old_orders_effect_witness :
  let st1 := fst (execute_order (Main.callbacks 1) system1 0%nat (1 # 2) 1) in
  completed_orders (ex st1) = [0%nat] /\
  (0%nat ∉ completed_orders (ex (cleanup_old_orders st1 24 100000))) /\
  (0%nat ∈ completed_orders (ex (cleanup_old_orders st1 24 3600))).
Proof.
  cbv zeta.
  set (st1 := fst (execute_order (Main.callbacks 1) system1 0%nat (1 # 2) 1)).
  assert (Hc : completed_orders (ex st1) = [0%nat]) by (vm_compute; reflexivity).
  assert (Hl : exists o, heap st1 !! 0%nat = Some o /\ Ord.timestamp o = 0).
  { eexists. split; [vm_compute; reflexivity | reflexivity]. }
  destruct Hl as (o & Hl & Ht).
  destruct (cleanup_old_orders_effect st1 24 100000) as (_ & _ & _ & H1 & _).
  destruct (cleanup_old_orders_effect st1 24 3600) as (_ & _ & _ & H2 & _).
  destruct (H1 _ _ Hl) as (H1c & _). destruct (H2 _ _ Hl) as (H2c & _).
  split; [exact Hc|]. split.
  - intros Hin. apply H1c in Hin as (_ & Hlt). rewrite Ht in Hlt. by vm_compute in Hlt.
  - apply H2c. rewrite Hc, Ht. split; [by constructor | by vm_compute].
Defined.

End OExFacts.

(** ** MockExchangeConnector: the order books *)

Module MXxFacts.
Import MX MXx Scenario2.
Local Open Scope Q_scope.

Lemma mock_id_inj (a b : Z) : "MOCK_" +:+ pretty a = "MOCK_" +:+ pretty b -> a = b.
Proof. cbn. intros [= H]. by apply (inj pretty). Qed.

(** An id issued from the current counter is not in books that are in
    order. *)
Lemma next_id_new (mx : MockExchangeConnector) :
  books_ok mx -> mock_orders mx !! ("MOCK_" +:+ pretty (order_counter mx)) = None.
Proof.
  intros Hok. destruct (mock_orders mx !! _) as [l|] eqn:E; [|done].
  destruct (Hok _ _ E) as ((k & Hk & Hid) & _).
  apply mock_id_inj in Hid. lia.
Qed.

Lemma new_connector_ok (b : Q) : books_ok (new_connector b).
Proof. intros id l. unfold new_connector. cbn. by rewrite lookup_empty. Qed.

(** X22. On books that are in order, [create_order] issues an id that was
    not in use, MOCK_n for the counter value n, and moves the counter on;
    [get_order_status] of that id returns the new order: a market order
    FILLED at the given price for the whole quantity with a commission of
    0.1% of the notional, a limit order PENDING with no fill.  Every order
    already in the books is returned as before, and the books stay in
    order. *)
Theorem create_order_books (mx : MockExchangeConnector) (sym : string) (sd : OrderSide)
    (ty : OrderType) (qty : Q) (pr : option Q) (now : Time) :
  books_ok mx ->
  let mx' := fst (create_order mx sym sd ty qty pr now) in
  let id := "MOCK_" +:+ pretty (order_counter mx) in
  let price := default 0 pr in
  books_ok mx' /\
  order_counter mx' = (order_counter mx + 1)%Z /\
  mock_balance mx' = mock_balance mx /\
  mock_orders mx !! id = None /\
  get_order_status mx' sym id =
    Ok (match ty with
        | MARKET => Ord.mkOrder id sym sd MARKET qty price FILLED now price qty
                      (qty * price * (1 # 1000)) None
        | LIMIT => Ord.mkOrder id sym sd LIMIT qty price PENDING now 0 0 0 None
        end) /\
  (forall id' s, is_Some (mock_orders mx !! id') ->
     get_order_status mx' s id' = get_order_status mx s id').
Proof.
  intros Hok mx' id price.
  pose proof (next_id_new mx Hok) as Hnew. fold id in Hnew.
  set (l := fresh (dom (heap mx)) : loc).
  assert (Hl : heap mx !! l = None) by (apply not_elem_of_dom; apply is_fresh).
  set (order := Ord.mkOrder id sym sd ty qty price PENDING now 0 0 0 None).
  set (final := match ty with
                | MARKET => Ord.mkOrder id sym sd MARKET qty price FILLED now price qty
                              (qty * price * (1 # 1000)) None
                | LIMIT => Ord.mkOrder id sym sd LIMIT qty price PENDING now 0 0 0 None
                end).
  assert (E : mx' = mkMX (<[l := final]> (heap mx)) (mock_balance mx)
                      (<[id := l]> (mock_orders mx)) (order_counter mx + 1)%Z).
  { subst mx' final. unfold create_order, create_order_begin, create_order_finish.
    fold id l price. cbn [fst]. destruct ty; cbn [heap mock_balance mock_orders
      order_counter]; [|reflexivity].
    f_equal. apply map_eq. intros i. rewrite lookup_alter.
    case_decide as Ei; [subst i; by rewrite !lookup_insert_eq|].
    by rewrite !lookup_insert_ne. }
  assert (Hidf : Ord.order_id final = id) by (subst final; by destruct ty).
  rewrite E. cbn [order_counter mock_balance].
  split; [|split; [reflexivity|split; [reflexivity|split; [exact Hnew|split]]]].
  - intros id' l'. cbn [mock_orders heap order_counter].
    destruct (decide (id = id')) as [<-|Hne].
    + rewrite lookup_insert_eq. intros [= <-]. split.
      * exists (order_counter mx). split; [lia|reflexivity].
      * exists final. by rewrite lookup_insert_eq.
    + rewrite lookup_insert_ne by done. intros Hl'.
      destruct (Hok _ _ Hl') as ((k & Hk & Hid) & (o & Ho & Hoid)). split.
      * exists k. split; [lia|done].
      * exists o. split; [|done]. rewrite lookup_insert_ne; [done|].
        intros <-. congruence.
  - unfold get_order_status. cbn [mock_orders heap].
    by rewrite !lookup_insert_eq.
  - intros id' s [l' Hl']. unfold get_order_status. cbn [mock_orders heap].
    assert (Hne : id <> id') by (intros <-; congruence).
    rewrite lookup_insert_ne, Hl' by done.
    destruct (Hok _ _ Hl') as (_ & (o & Ho & _)).
    rewrite lookup_insert_ne; [done|]. intros <-. congruence.
Qed.

Lemma create_order_books_witness :
  get_order_status two_orders "BTCUSDT" "MOCK_1" =
    Ok (Ord.mkOrder "MOCK_1" "BTCUSDT" BUY LIMIT 1 90 PENDING 0 0 0 0 None) /\
  Ord.status <$> (match get_order_status two_orders "BTCUSDT" "MOCK_2" with
                  | Ok o => Some o | Raise _ => None end) = Some FILLED /\
  order_counter two_orders = 3%Z.
Proof.
  set (mx1 := fst (create_order (new_connector 10000) "BTCUSDT" BUY LIMIT 1 (Some 90) 0)).
  destruct (create_order_books (new_connector 10000) "BTCUSDT" BUY LIMIT 1 (Some 90) 0
              (new_connector_ok 10000)) as (Hok1 & Hc1 & _ & _ & Hg1 & _).
  fold mx1 in Hok1, Hc1, Hg1.
  destruct (create_order_books mx1 "BTCUSDT" SELL MARKET 2 (Some 100) 1 Hok1)
    as (_ & Hc2 & _ & _ & Hg2 & Hold).
  change (fst (create_order mx1 "BTCUSDT" SELL MARKET 2 (Some 100) 1)) with two_orders
    in Hc2, Hg2, Hold.
  split; [|split].
  - rewrite (Hold "MOCK_1" "BTCUSDT"); [exact Hg1 | vm_compute; eauto].
  - change "MOCK_2" with ("MOCK_" +:+ pretty (order_counter mx1)). by rewrite Hg2.
  - rewrite Hc2, Hc1. reflexivity.
Defined.

(** X23. Of an order in the books [cancel_order] cancels exactly one that is
    PENDING: it returns True and the order is CANCELLED, and a second cancel
    returns False and changes nothing.  An order in any other state, such
    as a market order once [create_order] has returned it, cannot be
    cancelled: False, nothing changes.  An unknown id gives False as well. *)
Theorem cancel_order_once (mx : MockExchangeConnector) (sym id : string) (l : loc)
    (o : Ord.Order) :
  mock_orders mx !! id = Some l ->
  heap mx !! l = Some o ->
  let mx1 := fst (cancel_order mx sym id) in
  (Ord.status o = PENDING ->
   snd (cancel_order mx sym id) = true /\
   get_order_status mx1 sym id = Ok (Ord.set_status CANCELLED o) /\
   cancel_order mx1 sym id = (mx1, false)) /\
  (Ord.status o <> PENDING -> cancel_order mx sym id = (mx, false)) /\
  (forall id', mock_orders mx !! id' = None -> cancel_order mx sym id' = (mx, false)).
Proof.
  intros Hid Hl mx1. split; [|split].
  - intros Hp.
    assert (E : cancel_order mx sym id =
      (mkMX (<[l := Ord.set_status CANCELLED o]> (heap mx)) (mock_balance mx)
            (mock_orders mx) (order_counter mx), true)).
    { unfold cancel_order. rewrite Hid, Hl. by rewrite decide_True. }
    subst mx1. rewrite E. cbn [fst snd]. split; [done|]. split.
    + unfold get_order_status. cbn [mock_orders heap]. by rewrite Hid, lookup_insert_eq.
    + unfold cancel_order. cbn [mock_orders heap]. rewrite Hid, lookup_insert_eq.
      by rewrite decide_False.
  - intros Hp. unfold cancel_order. rewrite Hid, Hl. by rewrite decide_False.
  - intros id' Hn. unfold cancel_order. by rewrite Hn.
Qed.

Lemma cancel_order_once_witness :
  snd (cancel_order two_orders "BTCUSDT" "MOCK_1") = true /\
  cancel_order two_orders "BTCUSDT" "MOCK_2" = (two_orders, false) /\
  cancel_order two_orders "BTCUSDT" "MOCK_9" = (two_orders, false).
Proof.
  destruct (cancel_order_once two_orders "BTCUSDT" "MOCK_1" 0%nat
              (Ord.mkOrder "MOCK_1" "BTCUSDT" BUY LIMIT 1 90 PENDING 0 0 0 0 None))
    as (H1 & _ & H3); [vm_compute; reflexivity | vm_compute; reflexivity |].
  destruct (cancel_order_once two_orders "BTCUSDT" "MOCK_2" 1%nat
              (Ord.mkOrder "MOCK_2" "BTCUSDT" SELL MARKET 2 100 FILLED 1 100 2
                 (2 * 100 * (1 # 1000)) None))
    as (_ & H2 & _); [vm_compute; reflexivity | vm_compute; reflexivity |].
  split; [apply H1; reflexivity|]. split; [apply H2; discriminate|].
  apply H3. vm_compute. reflexivity.
Defined.

End MXxFacts.

(** ** ConfigLoader: what else a loaded configuration guarantees *)

Module CLxFacts.
Import CL CLx.
Local Open Scope Q_scope.






(** X25. A document that lacks one of the nine required sections is
    rejected before any value is looked at: validation, and with it
    loading, raises ValueError naming a required section that is missing. *)
Theorem missing_section_rejected (config_data : ConfigData) (s : string) :
  s ∈ required_sections ->
  config_data !! s = None ->
  exists s',
    s' ∈ required_sections /\ config_data !! s' = None /\
    _validate_config config_data = Raise (ValueError ("缺少必需的配置节: " +:+ s')) /\
    load_config config_data = Raise (ValueError ("缺少必需的配置节: " +:+ s')).
Proof.
  intros Hs Hn.
  assert (E : exists s', List.find (fun s => bool_decide (config_data !! s = None))
                           required_sections = Some s').
  { destruct (List.find _ required_sections) as [s'|] eqn:E; [eauto|].
    apply list_elem_of_In in Hs. pose proof (find_none _ _ E s Hs) as Hb. cbn in Hb.
    by apply bool_decide_eq_false in Hb. }
  destruct E as (s' & E). exists s'.
  destruct (find_some _ _ E) as (Hin & Hb). cbn in Hb. apply bool_decide_eq_true in Hb.
  split; [by apply list_elem_of_In|]. split; [exact Hb|].
  assert (Hv : _validate_config config_data =
               Raise (ValueError ("缺少必需的配置节: " +:+ s'))).
  { unfold _validate_config, check_sections. by rewrite E. }
  split; [exact Hv|]. unfold load_config. by rewrite Hv.
Qed.

Lemma missing_section_rejected_witness :
  load_config (delete "logging" default_config) =
    Raise (ValueError "缺少必需的配置节: logging").
Proof.
  destruct (missing_section_rejected (delete "logging" default_config) "logging")
    as (s' & Hin & Hnone & _ & H); [set_solver | apply lookup_delete_eq |].
  assert (Hs : s' = "logging").
  { unfold required_sections in Hin.
    repeat (apply elem_of_cons in Hin as [-> | Hin];
            [first [reflexivity | by vm_compute in Hnone]|]).
    by apply elem_of_nil in Hin. }
  subst s'. exact H.
Defined.



End CLxFacts.

(** ** The trading system: signals, fills and forced closes *)

Module SysFacts.
Import OE OEx Sys Scenario Scenario2.
Local Open Scope Q_scope.

(** What the callbacks of [main.py] make of the position manager during
    [execute_order]: a filled BUY order is opened as a LONG position, nothing
    else touches it. *)
Lemma execute_order_world (st : State PM.PositionManager) (l : loc) (o : Ord.Order)
    (u : Q) (now : Time) :
  heap st !! l = Some o ->
  world (fst (execute_order (Main.callbacks now) st l u now)) =
    match dispatch (register st l) l u now with
    | Ok r =>
      if success r then
        match Ord.side o with
        | BUY => fst (PM.open_position (world st) (Ord.symbol o) LONG
                        (filled_quantity r) (filled_price r)
                        (Some (Ord.order_id o)) now)
        | SELL => world st
        end
      else world st
    | Raise _ => world st
    end.
Proof.
  intros Hl. unfold execute_order, resume. cbn [fst].
  assert (E0 : register st l =
    mkState (<[l := Ord.set_status PENDING o]> (heap st))
      (set_pending (<[Ord.order_id o := l]> (pending_orders (ex st))) (ex st))
      (world st)) by (unfold register; by rewrite Hl).
  destruct (dispatch (register st l) l u now) as [r|e] eqn:Ed.
  - unfold settle. rewrite E0. cbn [heap ex world]. rewrite lookup_insert_eq.
    destruct (success r) eqn:Es.
    + unfold notify. rewrite Es. cbn [Main.callbacks order_filled_callback].
      unfold _safe_callback, Main._on_order_filled. cbn [heap ex world].
      rewrite lookup_insert_eq. cbn [Ord.set_fill Ord.set_status Ord.side Ord.symbol
        Ord.order_id].
      destruct (Ord.side o); unfold retire; cbn [heap ex world];
        rewrite lookup_insert_eq; reflexivity.
    + unfold notify. rewrite Es. cbn [Main.callbacks order_failed_callback].
      unfold _safe_callback, Main._on_order_failed, retire. cbn [heap ex world].
      rewrite lookup_insert_eq. reflexivity.
  - unfold settle. rewrite E0. cbn [heap ex world notify]. rewrite lookup_insert_eq.
    unfold retire. cbn [heap]. rewrite lookup_insert_eq. reflexivity.
Qed.

Lemma dispatch_simulated {W : Type} (st : State W) (l : loc) (o : Ord.Order) (u : Q)
    (now : Time) :
  heap st !! l = Some o ->
  simulation_mode (ex st) = true \/ (0 < max_retry_count (ex st))%Z ->
  dispatch (register st l) l u now =
    Ok (_execute_order_simulation (ex st) (Ord.set_status PENDING o) u now).
Proof.
  intros Hl Hmode. unfold dispatch, register. rewrite Hl. cbn [heap ex].
  rewrite lookup_insert_eq. unfold set_pending. cbn [simulation_mode].
  unfold _execute_order_real, _execute_order_simulation.
  cbn [max_retry_count simulation_slippage].
  destruct (simulation_mode (ex st)); [done|].
  destruct Hmode as [|Hr]; [done|]. apply Z.ltb_lt in Hr. by rewrite Hr.
Qed.

Lemma system_eta (sys : System) : mkSystem (st sys) (risk_manager sys) = sys.
Proof. by destruct sys. Qed.

Lemma create_order_raises (signal : Signal) (position_size price : Q) (millis : Z)
    (now : Time) :
  (action signal <> "BUY" /\ action signal <> "SELL") \/ price == 0 ->
  exists e, _create_order_from_signal signal position_size price millis now = Raise e.
Proof.
  unfold _create_order_from_signal. intros [[H1 H2] | Hz].
  - apply String.eqb_neq in H1, H2. rewrite H1, H2. cbn. eauto.
  - destruct (String.eqb (action signal) "BUY");
      [|destruct (String.eqb (action signal) "SELL")];
      cbn [mbind result_bind]; rewrite ?(py_div_zero _ _ Hz); cbn; eauto.
Qed.

(** X27. [_process_signal] changes nothing at all, neither executor nor
    positions nor risk manager, when the risk manager rejects the signal,
    when the action is neither BUY nor SELL (a CLOSE signal is dropped), when
    the close of the bar is zero, and when a BUY or SELL signal arrives for
    a symbol without a live position while the maximum number of positions
    is reached. *)
Theorem process_signal_noop (sys : System) (signal : Signal) (close : Q)
    (acc : AccountInfo) (millis : Z) (u : Q) (now : Time) :
  RM.validate_signal (risk_manager sys) signal acc
    (PM.get_position (position_manager sys) (sig_symbol signal)) = false \/
  (action signal <> "BUY" /\ action signal <> "SELL") \/
  close == 0 \/
  (buy_or_sell (action signal) = true /\
   PM.has_position (position_manager sys) (sig_symbol signal) = false /\
   PM.can_open_new_position (position_manager sys) = false) ->
  _process_signal sys signal close acc millis u now = sys.
Proof.
  intros H. unfold _process_signal.
  destruct (RM.validate_signal _ _ _ _) eqn:Ev; cbn [negb]; [|done].
  destruct H as [H | H]; [done|].
  destruct (buy_or_sell (action signal) && _ && _) eqn:Ec; [done|].
  assert (Hr : (action signal <> "BUY" /\ action signal <> "SELL") \/ close == 0).
  { destruct H as [H | [H | (H1 & H2 & H3)]]; [by left | by right |].
    exfalso. by rewrite H1, H2, H3 in Ec. }
  destruct (create_order_raises signal
              (RM.calculate_position_size (risk_manager sys) signal acc)
              close millis now Hr) as (e & He).
  unfold execute_signal. rewrite He. cbn [fst]. apply system_eta.
Qed.

Lemma process_signal_noop_witness :
  _process_signal idle_system close_signal 100 (account 10000) 7 (1 # 2) 1 = idle_system.
Proof.
  apply process_signal_noop. right. left. split; discriminate.
Defined.



Lemma execute_order_result {W : Type} (cbs : Callbacks W) (st : State W) (l : loc)
    (o : Ord.Order) (u : Q) (now : Time) :
  heap st !! l = Some o ->
  simulation_mode (ex st) = true \/ (0 < max_retry_count (ex st))%Z ->
  snd (execute_order cbs st l u now) =
    _execute_order_simulation (ex st) (Ord.set_status PENDING o) u now.
Proof.
  intros Hl Hmode. unfold execute_order, resume. cbn [snd].
  by rewrite (dispatch_simulated st l o u now Hl Hmode).
Qed.

(** X29. [_close_position] on a live LONG position (entry price and close
    not zero; simulated execution) sends a SELL order for the size held.
    When the order fills, the position leaves the table, the closed record
    is appended to the history, and one trade is recorded with the risk
    manager; the PnL realized and recorded is (close - entry) * size at the
    reference close price: neither the slippage of the fill nor the
    commission enters it.  When the order fails, positions and risk manager
    stay as they were. *)
Theorem close_long_position (sys : System) (p : Position) (close : Q) (reason : string)
    (millis : Z) (u : Q) (now : Time) :
  PM.positions (position_manager sys) !! symbol p = Some p ->
  side p = LONG ->
  0 < size p ->
  ~ entry_price p == 0 ->
  ~ close == 0 ->
  simulation_mode (ex (st sys)) = true \/ (0 < max_retry_count (ex (st sys)))%Z ->
  let sys' := _close_position sys p close reason millis u now in
  let pnl := (close - entry_price p) * size p in
  (u < 95 # 100 ->
   PM.positions (position_manager sys') =
     delete (symbol p) (PM.positions (position_manager sys)) /\
   (exists closed,
      PM.position_history (position_manager sys') =
        PM.position_history (position_manager sys) ++ [closed] /\
      realized_pnl closed = pnl /\ current_price closed = close /\
      size closed = size p) /\
   risk_manager sys' =
     RM.record_trade (risk_manager sys) (RM.mkTradeInfo (symbol p) (Some pnl) now) now /\
   RM.trades_today (risk_manager sys') = (RM.trades_today (risk_manager sys) + 1)%Z /\
   RM.daily_pnl (risk_manager sys') = RM.daily_pnl (risk_manager sys) + pnl) /\
  (95 # 100 <= u ->
   position_manager sys' = position_manager sys /\
   risk_manager sys' = risk_manager sys).
Proof.
  intros Hp Hside Hs He Hz Hmode sys' pnl. subst sys'.
  unfold _close_position, execute_signal, _create_order_from_signal. rewrite Hside.
  cbn [action String.eqb Ascii.eqb Bool.eqb mbind result_bind].
  rewrite (py_div_ok _ _ Hz). cbn [mbind result_bind sig_symbol].
  set (l := fresh (dom (heap (st sys)))).
  set (order := Ord.mkOrder _ _ _ _ _ _ _ _ _ _ _ _).
  set (st0 := set_heap (<[l := order]> (heap (st sys))) (st sys)).
  assert (Hl0 : heap st0 !! l = Some order) by apply lookup_insert_eq.
  pose proof (execute_order_world st0 l order u now Hl0) as Hw.
  pose proof (execute_order_result (Main.callbacks now) st0 l order u now Hl0 Hmode) as Hr.
  rewrite (dispatch_simulated st0 l order u now Hl0 Hmode) in Hw.
  destruct (execute_order (Main.callbacks now) st0 l u now) as [st' r] eqn:Ex.
  cbn [fst snd] in Hw, Hr. subst r.
  unfold _execute_order_simulation in *.
  change (world st0) with (position_manager sys) in Hw.
  split.
  - intros Hu. apply Qltb_lt in Hu. rewrite Hu in *. cbn [success] in *.
    subst order. cbn [Ord.set_status Ord.side] in Hw. rewrite Hw.
    rewrite (PMFacts.close_position_live _ _ p (Some close) now Hp Hs He).
    unfold position_manager, set_position_manager.
    cbn [st risk_manager world PM.positions PM.position_history realized_pnl symbol
         default from_option id RM.record_trade RM.trades_today RM.daily_pnl
         RM.trade_pnl].
    unfold Scenario.realized. rewrite Hside.
    split; [reflexivity|]. split; [eexists; by repeat split|]. by repeat split.
  - intros Hu. apply Qltb_ge in Hu. rewrite Hu in *. cbn [success] in *.
    cbn [position_manager st risk_manager]. unfold position_manager. cbn [st].
    split; [exact Hw | reflexivity].
Qed.

Lemma close_long_position_witness :
  let sys' := _close_position long_system long_position 97 "stop" 9 (1 # 2) 5 in
  PM.positions (position_manager sys') !! "BTCUSDT" = None /\
  RM.trades_today (risk_manager sys') = 1%Z /\
  RM.daily_pnl (risk_manager sys') == - 3.
Proof.
  destruct (close_long_position long_system long_position 97 "stop" 9 (1 # 2) 5)
    as (H & _);
    [vm_compute; reflexivity | reflexivity | reflexivity | by vm_compute | by vm_compute
    | by left |].
  destruct (H eq_refl) as (H1 & _ & _ & H4 & H5).
  cbv zeta. split; [rewrite H1; apply lookup_delete_eq|].
  split; [rewrite H4; reflexivity | rewrite H5; by vm_compute].
Defined.




End SysFacts.
